(** * awskillswitch: the remediation dispatcher and its two executors

    A shallow embedding of [awskillswitch.go].  The program is a single
    Lambda handler, [HandleRequest], that validates a request and then runs
    one of two straight-line sequences of AWS SDK calls ([applySCP] and
    [manageRole]).  Everything the program observes of the outside (the
    configuration file, the JSON decoder, the Organizations and IAM
    services) is gathered in a [World]; the program itself is written in a
    small monad that hands the history of calls to the world, records
    every call together with its answer, and can panic on a nil pointer. *)

From Stdlib Require Import String Ascii List Bool Arith Lia.
Import ListNotations.
Local Open Scope string_scope.
Local Open Scope list_scope.

Set Implicit Arguments.

(** ** Go values *)

(** A Go [error] is identified with the text of its [Error()] method; the
    nil error is [None] of [option error]. *)
Definition error := string.

Definition errors_New (text : string) : error := text.

(** A Go pair [(T, error)] of which the program reads the first component
    only after seeing a nil error. *)
Inductive result (T : Type) : Type :=
| Ok (v : T)
| Err (err : error).
Arguments Err {T} err.

Definition failed {T} (r : result T) : bool :=
  match r with Ok _ => false | Err _ => true end.

(** [aws.String(s)] takes the address of a copy of [s]: a non-nil [*string]. *)
Definition aws_String (s : string) : option string := Some s.

(** ** fmt.Sprintf

    The program formats with the verbs [%s] and [%v] only, applied to
    strings and to errors; both print the text of their operand.  An
    operand that is missing prints as Go prints it.  Every format string of
    the program has as many verbs as operands. *)
Fixpoint Sprintf (format : string) (args : list string) : string :=
  match format with
  | EmptyString => EmptyString
  | String "%" (String "%" rest) => String "%" (Sprintf rest args)
  | String "%" (String "s" rest) =>
      match args with
      | a :: args' => (a ++ Sprintf rest args')%string
      | [] => ("%!s(MISSING)" ++ Sprintf rest [])%string
      end
  | String "%" (String "v" rest) =>
      match args with
      | a :: args' => (a ++ Sprintf rest args')%string
      | [] => ("%!v(MISSING)" ++ Sprintf rest [])%string
      end
  | String c rest => String c (Sprintf rest args)
  end.

Definition Errorf (format : string) (args : list string) : error :=
  Sprintf format args.

(** ** Substrings *)

(** [Contains s sub]: the text [sub] occurs in [s]. *)
Definition Contains (s sub : string) : Prop :=
  exists pre post, s = (pre ++ sub ++ post)%string.

Fixpoint prefixb (p s : string) : bool :=
  match p, s with
  | EmptyString, _ => true
  | String a p', String b s' => Ascii.eqb a b && prefixb p' s'
  | String _ _, EmptyString => false
  end.

(** Go's [strings.Contains], as a function. *)
Fixpoint containsb (s sub : string) : bool :=
  prefixb sub s ||
  match s with
  | EmptyString => false
  | String _ s' => containsb s' sub
  end.

Fixpoint mentions (c : ascii) (s : string) : bool :=
  match s with
  | EmptyString => false
  | String a s' => Ascii.eqb a c || mentions c s'
  end.

(** ** The request and the configuration file *)

Definition Action := string.

Definition ApplySCP : Action := "apply_scp".
Definition DeleteRole : Action := "delete_role".
Definition DetachPolicies : Action := "detach_policies".
(** Default region to be used if the region is not specified by the user *)
Definition DefaultRegion : string := "us-east-1".

Record Request : Type := mkRequest {
  Action_ : Action;
  TargetAccountID : string;
  RoleToAssume : string;
  TargetRoleName : string;
  OrgManagementAccountID : string;
  Region : string
}.

Definition with_Region (request : Request) (region : string) : Request :=
  {| Action_ := Action_ request;
     TargetAccountID := TargetAccountID request;
     RoleToAssume := RoleToAssume request;
     TargetRoleName := TargetRoleName request;
     OrgManagementAccountID := OrgManagementAccountID request;
     Region := region |}.

(** [json.RawMessage] is a byte slice; bytes are the characters of a
    [string], and [string(raw)] is the identity. *)
Record SwitchPolicies_t : Type := { SCPolicy : string }.

Record Config : Type := {
  SwitchConfigVersion : string;
  SwitchPolicies : SwitchPolicies_t
}.

(** ** SDK values *)

(** [session.NewSession(&aws.Config{Region: ...})]: the session keeps the
    region it was configured with.  Building it reads the process
    environment only and contacts no service. *)
Record Session : Type := { sess_Region : option string }.

Definition session_NewSession (region : option string) : Session :=
  {| sess_Region := region |}.

(** [session.Must] hands the session on.  It panics on an error of
    [session.NewSession], which only a broken process environment (shared
    configuration files, certificate bundle) causes: neither the request
    nor a service has a part in it, and the environment is taken as sound. *)
Definition session_Must (sess : Session) : Session := sess.

(** [stscreds.NewCredentials(sess, roleARN)]: a provider that assumes
    [roleARN] through STS when a client first signs a request with it.
    Creating it contacts no service. *)
Record Credentials : Type := {
  creds_sess : Session;
  creds_RoleARN : string
}.

Definition stscreds_NewCredentials (sess : Session) (roleARN : string) : Credentials :=
  {| creds_sess := sess; creds_RoleARN := roleARN |}.

(** [organizations.New(sess, &aws.Config{Credentials: creds})] and
    [iam.New(...)]: a service client is its session and its credentials. *)
Record Client : Type := {
  svc_sess : Session;
  svc_creds : Credentials
}.

Definition organizations_New (sess : Session) (creds : Credentials) : Client :=
  {| svc_sess := sess; svc_creds := creds |}.

Definition iam_New (sess : Session) (creds : Credentials) : Client :=
  {| svc_sess := sess; svc_creds := creds |}.

(** Request and response shapes.  Every SDK field is a pointer, [None] is
    nil.  The output struct itself is never nil: each SDK method returns
    the struct it allocated before the request was sent. *)
Record CreatePolicyInput : Type := {
  cpi_Content : option string;
  cpi_Description : option string;
  cpi_Name : option string;
  cpi_Type : option string
}.

Record PolicySummary_t : Type := { Id : option string }.
Record Policy_t : Type := { PolicySummary : option PolicySummary_t }.
Record CreatePolicyOutput : Type := { Policy : option Policy_t }.

Record AttachPolicyInput : Type := {
  api_PolicyId : option string;
  api_TargetId : option string
}.

Record RoleInput : Type := { ri_RoleName : option string }.

Record AttachedPolicy : Type := {
  PolicyArn : option string;
  PolicyName : option string
}.

Record ListAttachedRolePoliciesOutput : Type := {
  AttachedPolicies : list (option AttachedPolicy)
}.

Record DetachRolePolicyInput : Type := {
  drp_RoleName : option string;
  drp_PolicyArn : option string
}.

Record ListRolePoliciesOutput : Type := {
  PolicyNames : list (option string)
}.

Record DeleteRolePolicyInput : Type := {
  drpi_RoleName : option string;
  drpi_PolicyName : option string
}.

(** ** Calls and the world *)

(** One entry per call that leaves the process, with the answer it got. *)
Inductive Event : Type :=
| EvReadFile (filename : string) (r : result string)
| EvCreatePolicy (svc : Client) (input : CreatePolicyInput) (r : result CreatePolicyOutput)
| EvAttachPolicy (svc : Client) (input : AttachPolicyInput) (r : result unit)
| EvListAttachedRolePolicies (svc : Client) (input : RoleInput)
    (r : result ListAttachedRolePoliciesOutput)
| EvDetachRolePolicy (svc : Client) (input : DetachRolePolicyInput) (r : result unit)
| EvListRolePolicies (svc : Client) (input : RoleInput) (r : result ListRolePoliciesOutput)
| EvDeleteRolePolicy (svc : Client) (input : DeleteRolePolicyInput) (r : result unit)
| EvDeleteRole (svc : Client) (input : RoleInput) (r : result unit).

(** The outside.  Each answer may depend on everything that happened
    before in the invocation, so that a world can let the third detach
    call fail and the others succeed.  [json.Unmarshal] is a function of
    the bytes alone. *)
Record World : Type := {
  os_ReadFile : list Event -> string -> result string;
  json_Unmarshal : string -> result Config;
  organizations_CreatePolicy :
    list Event -> Client -> CreatePolicyInput -> result CreatePolicyOutput;
  organizations_AttachPolicy : list Event -> Client -> AttachPolicyInput -> result unit;
  iam_ListAttachedRolePolicies :
    list Event -> Client -> RoleInput -> result ListAttachedRolePoliciesOutput;
  iam_DetachRolePolicy : list Event -> Client -> DetachRolePolicyInput -> result unit;
  iam_ListRolePolicies : list Event -> Client -> RoleInput -> result ListRolePoliciesOutput;
  iam_DeleteRolePolicy : list Event -> Client -> DeleteRolePolicyInput -> result unit;
  iam_DeleteRole : list Event -> Client -> RoleInput -> result unit
}.

(** ** The monad of the program *)

Inductive Outcome (A : Type) : Type :=
| Returned (a : A)
| Panicked.
Arguments Panicked {A}.

(** A computation reads the world and the events so far, and gives its
    outcome with the events it added. *)
Definition M (A : Type) : Type := World -> list Event -> Outcome A * list Event.

Definition ret {A} (a : A) : M A := fun _ _ => (Returned a, []).

Definition panic {A} : M A := fun _ _ => (Panicked, []).

Definition bind {A B} (m : M A) (f : A -> M B) : M B :=
  fun w h =>
    match m w h with
    | (Returned a, t1) =>
        match f a w (h ++ t1) with
        | (o, t2) => (o, t1 ++ t2)
        end
    | (Panicked, t1) => (Panicked, t1)
    end.

Declare Scope go_scope.
Delimit Scope go_scope with go.
Notation "x <- m ;; k" := (bind m (fun x => k))
  (at level 100, m at next level, right associativity) : go_scope.
Local Open Scope go_scope.

(** Dereferencing a pointer: nil panics. *)
Definition deref {A} (p : option A) : M A :=
  match p with
  | Some a => ret a
  | None => panic
  end.

Definition call {T} (ask : World -> list Event -> result T)
    (ev : result T -> Event) : M (result T) :=
  fun w h => let r := ask w h in (Returned r, [ev r]).

Definition ReadFile (filename : string) : M (result string) :=
  call (fun w h => os_ReadFile w h filename) (EvReadFile filename).

Definition Unmarshal (data : string) : M (result Config) :=
  fun w _ => (Returned (json_Unmarshal w data), []).

Definition svc_CreatePolicy (svc : Client) (input : CreatePolicyInput) :=
  call (fun w h => organizations_CreatePolicy w h svc input) (EvCreatePolicy svc input).

Definition svc_AttachPolicy (svc : Client) (input : AttachPolicyInput) :=
  call (fun w h => organizations_AttachPolicy w h svc input) (EvAttachPolicy svc input).

Definition svc_ListAttachedRolePolicies (svc : Client) (input : RoleInput) :=
  call (fun w h => iam_ListAttachedRolePolicies w h svc input)
       (EvListAttachedRolePolicies svc input).

Definition svc_DetachRolePolicy (svc : Client) (input : DetachRolePolicyInput) :=
  call (fun w h => iam_DetachRolePolicy w h svc input) (EvDetachRolePolicy svc input).

Definition svc_ListRolePolicies (svc : Client) (input : RoleInput) :=
  call (fun w h => iam_ListRolePolicies w h svc input) (EvListRolePolicies svc input).

Definition svc_DeleteRolePolicy (svc : Client) (input : DeleteRolePolicyInput) :=
  call (fun w h => iam_DeleteRolePolicy w h svc input) (EvDeleteRolePolicy svc input).

Definition svc_DeleteRole (svc : Client) (input : RoleInput) :=
  call (fun w h => iam_DeleteRole w h svc input) (EvDeleteRole svc input).

(** ** The program *)

(** What a Go function of type [(string, error)] returns. *)
Definition Reply : Type := (string * option error)%type.

(** Load awskillswitch.conf if needed *)
Definition loadConfig (filename : string) : M (option Config * option error) :=
  configFile <- ReadFile filename ;;
  match configFile with
  | Err err => ret (None, Some err)
  | Ok bytes =>
      config <- Unmarshal bytes ;;
      match config with
      | Err err => ret (None, Some err)
      | Ok config => ret (Some config, None)
      end
  end.

Definition applySCP (sess : Session)
    (managementAccount targetAccountID roleToAssume : string)
    (config : option Config) : M Reply :=
  let creds := stscreds_NewCredentials sess
                 (Sprintf "arn:aws:iam::%s:role/%s" [managementAccount; roleToAssume]) in
  let svc := organizations_New sess creds in
  (* Convert byte slice to string *)
  config <- deref config ;;
  let scpPolicy := SCPolicy (SwitchPolicies config) in
  (* Create the SCP *)
  let createPolicyInput :=
    {| cpi_Content := aws_String scpPolicy;
       cpi_Description := aws_String "Highly Restrictive SCP";
       cpi_Name := aws_String "HighlyRestrictiveSCP";
       cpi_Type := aws_String "SERVICE_CONTROL_POLICY" |} in
  policyResp <- svc_CreatePolicy svc createPolicyInput ;;
  match policyResp with
  | Err err => ret ("", Some (Errorf "error creating SCP: %v" [err]))
  | Ok policyResp =>
      (* Attach the SCP *)
      policy <- deref (Policy policyResp) ;;
      summary <- deref (PolicySummary policy) ;;
      let attachPolicyInput :=
        {| api_PolicyId := Id summary;
           api_TargetId := aws_String targetAccountID |} in
      attached <- svc_AttachPolicy svc attachPolicyInput ;;
      match attached with
      | Err err =>
          ret ("", Some (Errorf "error attaching SCP to account %s: %v"
                           [targetAccountID; err]))
      | Ok _ =>
          id <- deref (Id summary) ;;
          ret (Sprintf "SCP applied to account %s with policy ID %s"
                 [targetAccountID; id], None)
      end
  end.

(** The two loops of [manageRole].  A loop answers [Some reply] when its
    body returned from the function, [None] when it ran to its end. *)
Fixpoint detachEach (svc : Client) (targetAccountID targetRoleName : string)
    (policies : list (option AttachedPolicy)) : M (option Reply) :=
  match policies with
  | [] => ret None
  | policy :: rest =>
      policy <- deref policy ;;
      detached <- svc_DetachRolePolicy svc
                    {| drp_RoleName := aws_String targetRoleName;
                       drp_PolicyArn := PolicyArn policy |} ;;
      match detached with
      | Err err =>
          arn <- deref (PolicyArn policy) ;;
          ret (Some ("", Some (Errorf
                 "error detaching policy %s from role %s in account %s: %v"
                 [arn; targetRoleName; targetAccountID; err])))
      | Ok _ => detachEach svc targetAccountID targetRoleName rest
      end
  end.

Fixpoint deleteEach (svc : Client) (targetAccountID targetRoleName : string)
    (policyNames : list (option string)) : M (option Reply) :=
  match policyNames with
  | [] => ret None
  | policyName :: rest =>
      deleted <- svc_DeleteRolePolicy svc
                   {| drpi_RoleName := aws_String targetRoleName;
                      drpi_PolicyName := policyName |} ;;
      match deleted with
      | Err err =>
          name <- deref policyName ;;
          ret (Some ("", Some (Errorf
                 "error deleting inline policy %s from role %s in account %s: %v"
                 [name; targetRoleName; targetAccountID; err])))
      | Ok _ => deleteEach svc targetAccountID targetRoleName rest
      end
  end.

(** Actions involving role manipulation or deletion *)
Definition manageRole (sess : Session) (action : Action)
    (targetAccountID roleToAssume targetRoleName : string) : M Reply :=
  let creds := stscreds_NewCredentials sess
                 (Sprintf "arn:aws:iam::%s:role/%s" [targetAccountID; roleToAssume]) in
  let svc := iam_New sess creds in
  (* List attached managed policies *)
  listPoliciesOutput <- svc_ListAttachedRolePolicies svc
                          {| ri_RoleName := aws_String targetRoleName |} ;;
  match listPoliciesOutput with
  | Err err =>
      ret ("", Some (Errorf
             "error listing attached policies for role %s in account %s: %v"
             [targetRoleName; targetAccountID; err]))
  | Ok listPoliciesOutput =>
      (* Detach each managed policy *)
      returned <- detachEach svc targetAccountID targetRoleName
                    (AttachedPolicies listPoliciesOutput) ;;
      match returned with
      | Some reply => ret reply
      | None =>
          (* List inline policies *)
          listInlinePoliciesOutput <- svc_ListRolePolicies svc
                                        {| ri_RoleName := aws_String targetRoleName |} ;;
          match listInlinePoliciesOutput with
          | Err err =>
              ret ("", Some (Errorf
                     "error listing inline policies for role %s in account %s: %v"
                     [targetRoleName; targetAccountID; err]))
          | Ok listInlinePoliciesOutput =>
              (* Delete each inline policy *)
              returned <- deleteEach svc targetAccountID targetRoleName
                            (PolicyNames listInlinePoliciesOutput) ;;
              match returned with
              | Some reply => ret reply
              | None =>
                  (* Delete the role if Action is delete_role *)
                  if String.eqb action DeleteRole then
                    deleted <- svc_DeleteRole svc
                                 {| ri_RoleName := aws_String targetRoleName |} ;;
                    match deleted with
                    | Err err =>
                        ret ("", Some (Errorf "error deleting role %s in account %s: %v"
                                         [targetRoleName; targetAccountID; err]))
                    | Ok _ =>
                        ret (Sprintf
                               "Role %s and its policies are detached and deleted in account %s"
                               [targetRoleName; targetAccountID], None)
                    end
                  else
                    ret (Sprintf "Policies detached from role %s in account %s"
                           [targetRoleName; targetAccountID], None)
              end
          end
      end
  end.

(** The region the session is set up with: us-east-1 if the request gives none. *)
Definition sessionRegion (request : Request) : string :=
  if String.eqb (Region request) "" then DefaultRegion else Region request.

(** The handler.  Its context argument is handed on to the executors and
    read by no call; it is left out.  [main] only registers the handler. *)
Definition HandleRequest (request : Request) : M Reply :=
  if String.eqb (TargetAccountID request) "" || String.eqb (RoleToAssume request) "" then
    ret ("", Some (errors_New "targetAccountID and roleToAssume are required"))
  else
    (* Default to us-east-1 if Region is not provided *)
    let request :=
      if String.eqb (Region request) "" then with_Region request DefaultRegion
      else request in
    let sess := session_Must (session_NewSession (aws_String (Region request))) in
    if String.eqb (Action_ request) ApplySCP then
      if String.eqb (OrgManagementAccountID request) "" then
        ret ("", Some (errors_New "managementAccount is required for apply_scp action"))
      else
        (* Load SCP from .conf file *)
        let configFile := "switch.conf" in
        loaded <- loadConfig configFile ;;
        match loaded with
        | (_, Some err) =>
            ret ("", Some (Errorf "error loading config file: %v" [err]))
        | (config, None) =>
            applySCP sess (OrgManagementAccountID request) (TargetAccountID request)
              (RoleToAssume request) config
        end
    else if String.eqb (Action_ request) DetachPolicies
            || String.eqb (Action_ request) DeleteRole then
      if String.eqb (TargetRoleName request) "" then
        ret ("", Some (errors_New
               "targetRoleName is required for delete_role and detach_policies actions"))
      else
        manageRole sess (Action_ request) (TargetAccountID request)
          (RoleToAssume request) (TargetRoleName request)
    else
      ret ("", Some (errors_New "invalid action")).

(** Running a handler in a fresh invocation. *)
Definition run {A} (m : M A) (w : World) : Outcome A * list Event := m w [].

(** ** The errors of the program, under the names of the specification

    The program has no error types: an error is a text, built at one place
    of the code.  Each name below stands for the errors built there. *)

Definition ValidationError (e : error) : Prop :=
  e = errors_New "targetAccountID and roleToAssume are required" \/
  e = errors_New "managementAccount is required for apply_scp action" \/
  e = errors_New "targetRoleName is required for delete_role and detach_policies actions".

Definition InvalidActionError (e : error) : Prop :=
  e = errors_New "invalid action".

Definition ConfigError (e : error) : Prop :=
  exists cause, e = Errorf "error loading config file: %v" [cause].

Definition PolicyAttachError (e : error) : Prop :=
  exists account cause, e = Errorf "error attaching SCP to account %s: %v" [account; cause].

Definition DetachError (arn : string) (e : error) : Prop :=
  exists role account cause,
    e = Errorf "error detaching policy %s from role %s in account %s: %v"
          [arn; role; account; cause].

(** ** Reading a trace *)

Definition isReadFile (e : Event) : bool :=
  match e with EvReadFile _ _ => true | _ => false end.

Definition isCreatePolicy (e : Event) : bool :=
  match e with EvCreatePolicy _ _ _ => true | _ => false end.

Definition isAttachPolicy (e : Event) : bool :=
  match e with EvAttachPolicy _ _ _ => true | _ => false end.

Definition isListAttachedRolePolicies (e : Event) : bool :=
  match e with EvListAttachedRolePolicies _ _ _ => true | _ => false end.

Definition isDetachRolePolicy (e : Event) : bool :=
  match e with EvDetachRolePolicy _ _ _ => true | _ => false end.

Definition isListRolePolicies (e : Event) : bool :=
  match e with EvListRolePolicies _ _ _ => true | _ => false end.

Definition isDeleteRolePolicy (e : Event) : bool :=
  match e with EvDeleteRolePolicy _ _ _ => true | _ => false end.

Definition isDeleteRole (e : Event) : bool :=
  match e with EvDeleteRole _ _ _ => true | _ => false end.

(** The service client of a call to AWS; reading a file has none. *)
Definition clientOf (e : Event) : option Client :=
  match e with
  | EvReadFile _ _ => None
  | EvCreatePolicy svc _ _ | EvAttachPolicy svc _ _
  | EvListAttachedRolePolicies svc _ _ | EvDetachRolePolicy svc _ _
  | EvListRolePolicies svc _ _ | EvDeleteRolePolicy svc _ _
  | EvDeleteRole svc _ _ => Some svc
  end.

(** A call to AWS: every event but the reading of the configuration file. *)
Definition isCloudCall (e : Event) : bool := negb (isReadFile e).

(** Did the call report an error? *)
Definition eventFailed (e : Event) : bool :=
  match e with
  | EvReadFile _ r => failed r
  | EvCreatePolicy _ _ r => failed r
  | EvAttachPolicy _ _ r => failed r
  | EvListAttachedRolePolicies _ _ r => failed r
  | EvDetachRolePolicy _ _ r => failed r
  | EvListRolePolicies _ _ r => failed r
  | EvDeleteRolePolicy _ _ r => failed r
  | EvDeleteRole _ _ r => failed r
  end.

Definition count (p : Event -> bool) (tr : list Event) : nat :=
  length (filter p tr).

(** The calls [manageRole] makes on a role, as events. *)
Definition roleInput (targetRoleName : string) : RoleInput :=
  {| ri_RoleName := aws_String targetRoleName |}.

Definition detachEvent (svc : Client) (targetRoleName : string)
    (r : result unit) (policy : AttachedPolicy) : Event :=
  EvDetachRolePolicy svc
    {| drp_RoleName := aws_String targetRoleName; drp_PolicyArn := PolicyArn policy |} r.

Definition deleteEvent (svc : Client) (targetRoleName : string)
    (r : result unit) (policyName : option string) : Event :=
  EvDeleteRolePolicy svc
    {| drpi_RoleName := aws_String targetRoleName; drpi_PolicyName := policyName |} r.

(** The attached policies an event lists, if it is a listing that succeeded. *)
Definition listedPolicies (e : Event) : list (option AttachedPolicy) :=
  match e with
  | EvListAttachedRolePolicies _ _ (Ok out) => AttachedPolicies out
  | _ => []
  end.

(** The calls of a cleanup that went through: the listing of the attached
    policies, a detach call for each, the listing of the inline policies,
    a delete call for each. *)
Definition cleanupTrace (svc : Client) (targetRoleName : string)
    (attached : list AttachedPolicy) (inline : list (option string)) : list Event :=
  EvListAttachedRolePolicies svc (roleInput targetRoleName)
    (Ok {| AttachedPolicies := map Some attached |})
  :: map (detachEvent svc targetRoleName (Ok tt)) attached
  ++ EvListRolePolicies svc (roleInput targetRoleName) (Ok {| PolicyNames := inline |})
  :: map (deleteEvent svc targetRoleName (Ok tt)) inline.

(** The ways a run of [manageRole] can end, each with the reply and the
    calls made. *)
Inductive ManageRoleRun (svc : Client) (action : Action) (acct role : string) :
    Outcome Reply -> list Event -> Prop :=
| listing_failed cause :
    ManageRoleRun svc action acct role
      (Returned ("", Some (Errorf
         "error listing attached policies for role %s in account %s: %v"
         [role; acct; cause])))
      [EvListAttachedRolePolicies svc (roleInput role) (Err cause)]
| detach_failed qs p rest cause :
    ManageRoleRun svc action acct role
      (match PolicyArn p with
       | Some arn =>
           Returned ("", Some (Errorf
             "error detaching policy %s from role %s in account %s: %v"
             [arn; role; acct; cause]))
       | None => Panicked
       end)
      (EvListAttachedRolePolicies svc (roleInput role)
         (Ok {| AttachedPolicies := map Some qs ++ Some p :: rest |})
       :: map (detachEvent svc role (Ok tt)) qs ++ [detachEvent svc role (Err cause) p])
| nil_policy qs rest :
    ManageRoleRun svc action acct role Panicked
      (EvListAttachedRolePolicies svc (roleInput role)
         (Ok {| AttachedPolicies := map Some qs ++ None :: rest |})
       :: map (detachEvent svc role (Ok tt)) qs)
| inline_listing_failed qs cause :
    ManageRoleRun svc action acct role
      (Returned ("", Some (Errorf
         "error listing inline policies for role %s in account %s: %v"
         [role; acct; cause])))
      (EvListAttachedRolePolicies svc (roleInput role)
         (Ok {| AttachedPolicies := map Some qs |})
       :: map (detachEvent svc role (Ok tt)) qs
       ++ [EvListRolePolicies svc (roleInput role) (Err cause)])
| delete_failed qs pre n rest cause :
    ManageRoleRun svc action acct role
      (match n with
       | Some name =>
           Returned ("", Some (Errorf
             "error deleting inline policy %s from role %s in account %s: %v"
             [name; role; acct; cause]))
       | None => Panicked
       end)
      (EvListAttachedRolePolicies svc (roleInput role)
         (Ok {| AttachedPolicies := map Some qs |})
       :: map (detachEvent svc role (Ok tt)) qs
       ++ EvListRolePolicies svc (roleInput role)
            (Ok {| PolicyNames := pre ++ n :: rest |})
       :: map (deleteEvent svc role (Ok tt)) pre ++ [deleteEvent svc role (Err cause) n])
| role_delete_failed qs names cause :
    action = DeleteRole ->
    ManageRoleRun svc action acct role
      (Returned ("", Some (Errorf "error deleting role %s in account %s: %v"
                             [role; acct; cause])))
      (cleanupTrace svc role qs names
       ++ [EvDeleteRole svc (roleInput role) (Err cause)])
| role_deleted qs names :
    action = DeleteRole ->
    ManageRoleRun svc action acct role
      (Returned (Sprintf "Role %s and its policies are detached and deleted in account %s"
                   [role; acct], None))
      (cleanupTrace svc role qs names ++ [EvDeleteRole svc (roleInput role) (Ok tt)])
| policies_detached qs names :
    action <> DeleteRole ->
    ManageRoleRun svc action acct role
      (Returned (Sprintf "Policies detached from role %s in account %s" [role; acct], None))
      (cleanupTrace svc role qs names).

(** The ways a run of [applySCP] on a loaded configuration can end. *)
Inductive ApplySCPRun (svc : Client) (acct : string) (input : CreatePolicyInput) :
    Outcome Reply -> list Event -> Prop :=
| create_failed cause :
    ApplySCPRun svc acct input
      (Returned ("", Some (Errorf "error creating SCP: %v" [cause])))
      [EvCreatePolicy svc input (Err cause)]
| created_nothing out :
    Policy out = None \/ Policy out = Some {| PolicySummary := None |} ->
    ApplySCPRun svc acct input Panicked [EvCreatePolicy svc input (Ok out)]
| attach_failed id cause :
    ApplySCPRun svc acct input
      (Returned ("", Some (Errorf "error attaching SCP to account %s: %v" [acct; cause])))
      [EvCreatePolicy svc input
         (Ok {| Policy := Some {| PolicySummary := Some {| Id := id |} |} |});
       EvAttachPolicy svc {| api_PolicyId := id; api_TargetId := aws_String acct |}
         (Err cause)]
| attached_nil_id :
    ApplySCPRun svc acct input Panicked
      [EvCreatePolicy svc input
         (Ok {| Policy := Some {| PolicySummary := Some {| Id := None |} |} |});
       EvAttachPolicy svc {| api_PolicyId := None; api_TargetId := aws_String acct |}
         (Ok tt)]
| applied id :
    ApplySCPRun svc acct input
      (Returned (Sprintf "SCP applied to account %s with policy ID %s" [acct; id], None))
      [EvCreatePolicy svc input
         (Ok {| Policy := Some {| PolicySummary := Some {| Id := Some id |} |} |});
       EvAttachPolicy svc {| api_PolicyId := Some id; api_TargetId := aws_String acct |}
         (Ok tt)].

(** The client each executor builds. *)
Definition clientFor (sess : Session) (account roleToAssume : string) : Client :=
  {| svc_sess := sess;
     svc_creds := {| creds_sess := sess;
                     creds_RoleARN :=
                       Sprintf "arn:aws:iam::%s:role/%s" [account; roleToAssume] |} |}.

(** The policy [applySCP] asks Organizations to create. *)
Definition scpInput (config : Config) : CreatePolicyInput :=
  {| cpi_Content := aws_String (SCPolicy (SwitchPolicies config));
     cpi_Description := aws_String "Highly Restrictive SCP";
     cpi_Name := aws_String "HighlyRestrictiveSCP";
     cpi_Type := aws_String "SERVICE_CONTROL_POLICY" |}.

(** A reply carries a message or an error, not both and not neither. *)
Definition exactlyOne (reply : Reply) : Prop :=
  match reply with
  | (message, Some _) => message = ""
  | (message, None) => message <> ""
  end.

(** An answer none of whose pointers the program reads is nil. *)
Definition isSome {A} (p : option A) : bool :=
  match p with Some _ => true | None => false end.

Definition answerComplete (e : Event) : bool :=
  match e with
  | EvCreatePolicy _ _ (Ok out) =>
      match Policy out with
      | Some policy =>
          match PolicySummary policy with
          | Some summary => isSome (Id summary)
          | None => false
          end
      | None => false
      end
  | EvListAttachedRolePolicies _ _ (Ok out) =>
      forallb (fun p => match p with
                        | Some policy => isSome (PolicyArn policy)
                        | None => false
                        end) (AttachedPolicies out)
  | EvListRolePolicies _ _ (Ok out) => forallb isSome (PolicyNames out)
  | _ => true
  end.

(** The account in which the role is assumed: the management account for
    apply_scp, the target account for the actions on a role. *)
Definition assumedAccount (request : Request) : string :=
  if String.eqb (Action_ request) ApplySCP then OrgManagementAccountID request
  else TargetAccountID request.

(** The client [HandleRequest] has its executor build. *)
Definition clientOfRequest (request : Request) : Client :=
  clientFor (session_NewSession (Some (sessionRegion request)))
    (assumedAccount request) (RoleToAssume request).

(** ** Sample worlds and requests *)

(** A world that answers by a fixed script; the answer to a detach or
    delete call may depend on how many such calls came before. *)
Definition scriptedWorld (file : result string) (decoded : result Config)
    (created : result CreatePolicyOutput) (attach : result unit)
    (attached : result ListAttachedRolePoliciesOutput) (detach : nat -> result unit)
    (inline : result ListRolePoliciesOutput) (delete : nat -> result unit)
    (deleteRole : result unit) : World :=
  {| os_ReadFile := fun _ _ => file;
     json_Unmarshal := fun _ => decoded;
     organizations_CreatePolicy := fun _ _ _ => created;
     organizations_AttachPolicy := fun _ _ _ => attach;
     iam_ListAttachedRolePolicies := fun _ _ _ => attached;
     iam_DetachRolePolicy := fun h _ _ => detach (count isDetachRolePolicy h);
     iam_ListRolePolicies := fun _ _ _ => inline;
     iam_DeleteRolePolicy := fun h _ _ => delete (count isDeleteRolePolicy h);
     iam_DeleteRole := fun _ _ _ => deleteRole |}.

Definition sampleConfig : Config :=
  {| SwitchConfigVersion := "1.0";
     SwitchPolicies :=
       {| SCPolicy := "{ Statement: [ { Effect: Deny, Action: *, Resource: * } ] }" |} |}.

Definition samplePolicies : list AttachedPolicy :=
  [ {| PolicyArn := Some "arn:aws:iam::aws:policy/AdministratorAccess";
       PolicyName := Some "AdministratorAccess" |};
    {| PolicyArn := Some "arn:aws:iam::aws:policy/AmazonS3FullAccess";
       PolicyName := Some "AmazonS3FullAccess" |};
    {| PolicyArn := Some "arn:aws:iam::aws:policy/IAMFullAccess";
       PolicyName := Some "IAMFullAccess" |} ].

Definition sampleInline : list (option string) := [Some "inline-a"; Some "inline-b"].

Definition sampleCreated : CreatePolicyOutput :=
  {| Policy := Some {| PolicySummary := Some {| Id := Some "p-examplepolicy" |} |} |}.

(** Every call succeeds. *)
Definition calmWorld : World :=
  scriptedWorld (Ok "{}") (Ok sampleConfig) (Ok sampleCreated) (Ok tt)
    (Ok {| AttachedPolicies := map Some samplePolicies |}) (fun _ => Ok tt)
    (Ok {| PolicyNames := sampleInline |}) (fun _ => Ok tt) (Ok tt).

(** The second detach call is refused. *)
Definition secondDetachRefused : World :=
  scriptedWorld (Ok "{}") (Ok sampleConfig) (Ok sampleCreated) (Ok tt)
    (Ok {| AttachedPolicies := map Some samplePolicies |})
    (fun n => if Nat.eqb n 1 then Err "AccessDenied" else Ok tt)
    (Ok {| PolicyNames := sampleInline |}) (fun _ => Ok tt) (Ok tt).

(** The configuration file is missing. *)
Definition noConfigWorld : World :=
  scriptedWorld (Err "open switch.conf: no such file or directory") (Ok sampleConfig)
    (Ok sampleCreated) (Ok tt)
    (Ok {| AttachedPolicies := map Some samplePolicies |}) (fun _ => Ok tt)
    (Ok {| PolicyNames := sampleInline |}) (fun _ => Ok tt) (Ok tt).

(** The policy is created and cannot be attached. *)
Definition attachRefused : World :=
  scriptedWorld (Ok "{}") (Ok sampleConfig) (Ok sampleCreated) (Err "AccessDenied")
    (Ok {| AttachedPolicies := map Some samplePolicies |}) (fun _ => Ok tt)
    (Ok {| PolicyNames := sampleInline |}) (fun _ => Ok tt) (Ok tt).

Definition sampleRequest (action : Action) : Request :=
  {| Action_ := action;
     TargetAccountID := "123456789012";
     RoleToAssume := "KillSwitchRole";
     TargetRoleName := "CompromisedRole";
     OrgManagementAccountID := "999999999999";
     Region := "" |}.

(** An apply_scp request that names no target account. *)
Definition noTargetRequest : Request :=
  {| Action_ := ApplySCP;
     TargetAccountID := "";
     RoleToAssume := "KillSwitchRole";
     TargetRoleName := "";
     OrgManagementAccountID := "999999999999";
     Region := "" |}.

Definition sampleSession : Session := session_NewSession (Some DefaultRegion).

Definition sampleClient : Client := clientFor sampleSession "123456789012" "KillSwitchRole".

Definition sampleOrgClient : Client :=
  clientFor sampleSession "999999999999" "KillSwitchRole".

(** ** Further readings of a trace *)

(** The calls by service. *)
Definition isOrganizationsCall (e : Event) : bool :=
  isCreatePolicy e || isAttachPolicy e.

Definition isIamCall (e : Event) : bool :=
  isListAttachedRolePolicies e || isDetachRolePolicy e || isListRolePolicies e
  || isDeleteRolePolicy e || isDeleteRole e.

(** The error a call reported, if it reported one. *)
Definition errOf {T} (r : result T) : option error :=
  match r with Ok _ => None | Err err => Some err end.

Definition causeOf (e : Event) : option error :=
  match e with
  | EvReadFile _ r => errOf r
  | EvCreatePolicy _ _ r => errOf r
  | EvAttachPolicy _ _ r => errOf r
  | EvListAttachedRolePolicies _ _ r => errOf r
  | EvDetachRolePolicy _ _ r => errOf r
  | EvListRolePolicies _ _ r => errOf r
  | EvDeleteRolePolicy _ _ r => errOf r
  | EvDeleteRole _ _ r => errOf r
  end.

(** The inputs of the detach calls and of the inline delete calls of a
    trace, in the order of the calls. *)
Fixpoint detachInputs (t : list Event) : list DetachRolePolicyInput :=
  match t with
  | [] => []
  | EvDetachRolePolicy _ input _ :: t' => input :: detachInputs t'
  | _ :: t' => detachInputs t'
  end.

Fixpoint deleteInputs (t : list Event) : list DeleteRolePolicyInput :=
  match t with
  | [] => []
  | EvDeleteRolePolicy _ input _ :: t' => input :: deleteInputs t'
  | _ :: t' => deleteInputs t'
  end.

(** The inline policy names an event lists, if it is a listing that succeeded. *)
Definition listedNames (e : Event) : list (option string) :=
  match e with
  | EvListRolePolicies _ _ (Ok out) => PolicyNames out
  | _ => []
  end.

(** The input of the detach call for a listed policy, and of the delete
    call for a listed inline policy name. *)
Definition detachInput (targetRoleName : string) (policy : AttachedPolicy) :
    DetachRolePolicyInput :=
  {| drp_RoleName := aws_String targetRoleName; drp_PolicyArn := PolicyArn policy |}.

Definition deleteInput (targetRoleName : string) (policyName : option string) :
    DeleteRolePolicyInput :=
  {| drpi_RoleName := aws_String targetRoleName; drpi_PolicyName := policyName |}.

(** The texts of [errors.New] and the formats of [fmt.Errorf] in the
    program, in the order of the source. *)
Definition errorFormats : list string :=
  [ "targetAccountID and roleToAssume are required";
    "managementAccount is required for apply_scp action";
    "error loading config file: %v";
    "targetRoleName is required for delete_role and detach_policies actions";
    "invalid action";
    "error creating SCP: %v";
    "error attaching SCP to account %s: %v";
    "error listing attached policies for role %s in account %s: %v";
    "error detaching policy %s from role %s in account %s: %v";
    "error listing inline policies for role %s in account %s: %v";
    "error deleting inline policy %s from role %s in account %s: %v";
    "error deleting role %s in account %s: %v" ].

(** A world in which the second delete of an inline policy is refused, and
    one in which the role cannot be deleted. *)
Definition secondDeleteRefused : World :=
  scriptedWorld (Ok "{}") (Ok sampleConfig) (Ok sampleCreated) (Ok tt)
    (Ok {| AttachedPolicies := map Some samplePolicies |}) (fun _ => Ok tt)
    (Ok {| PolicyNames := sampleInline |})
    (fun n => if Nat.eqb n 1 then Err "Throttling" else Ok tt) (Ok tt).

Definition roleDeleteRefused : World :=
  scriptedWorld (Ok "{}") (Ok sampleConfig) (Ok sampleCreated) (Ok tt)
    (Ok {| AttachedPolicies := map Some samplePolicies |}) (fun _ => Ok tt)
    (Ok {| PolicyNames := sampleInline |}) (fun _ => Ok tt)
    (Err "DeleteConflict").

(** A world in which no policy can be created, one in which the policies
    of the role cannot be listed, and one in which its inline policies
    cannot be listed. *)
Definition createRefused : World :=
  scriptedWorld (Ok "{}") (Ok sampleConfig) (Err "MalformedPolicyDocument") (Ok tt)
    (Ok {| AttachedPolicies := map Some samplePolicies |}) (fun _ => Ok tt)
    (Ok {| PolicyNames := sampleInline |}) (fun _ => Ok tt) (Ok tt).

Definition listingRefused : World :=
  scriptedWorld (Ok "{}") (Ok sampleConfig) (Ok sampleCreated) (Ok tt)
    (Err "NoSuchEntity") (fun _ => Ok tt)
    (Ok {| PolicyNames := sampleInline |}) (fun _ => Ok tt) (Ok tt).

Definition inlineListingRefused : World :=
  scriptedWorld (Ok "{}") (Ok sampleConfig) (Ok sampleCreated) (Ok tt)
    (Ok {| AttachedPolicies := map Some samplePolicies |}) (fun _ => Ok tt)
    (Err "ServiceFailure") (fun _ => Ok tt) (Ok tt).

(** A world whose configuration file is not JSON. *)
Definition badConfigWorld : World :=
  scriptedWorld (Ok "not json") (Err "invalid character 'o' in literal null")
    (Ok sampleCreated) (Ok tt)
    (Ok {| AttachedPolicies := map Some samplePolicies |}) (fun _ => Ok tt)
    (Ok {| PolicyNames := sampleInline |}) (fun _ => Ok tt) (Ok tt).

(** A request for an action on a role that names no role. *)
Definition noRoleRequest : Request :=
  {| Action_ := DeleteRole;
     TargetAccountID := "123456789012";
     RoleToAssume := "KillSwitchRole";
     TargetRoleName := "";
     OrgManagementAccountID := "";
     Region := "eu-west-1" |}.

(** A run in which no call failed, or a run whose last call is the only
    one that failed and which then panics or returns an error that ends
    with what that call reported. *)
Definition stopsAtFailure (o : Outcome Reply) (t : list Event) : Prop :=
  Forall (fun e => causeOf e = None) t \/
  exists init e cause,
    t = init ++ [e] /\ Forall (fun e' => causeOf e' = None) init /\
    causeOf e = Some cause /\
    (o = Panicked \/ exists err, o = Returned ("", Some err) /\ Contains err cause).

(** The role identifier [arn:<partition>:iam::<account>:role/<role>]. *)
Definition roleARN (partition account role : string) : string :=
  ("arn:" ++ partition ++ ":iam::" ++ account ++ ":role/" ++ role)%string.

(** * Properties *)

Unset Implicit Arguments.

(** ** Strings and formats *)

Lemma append_empty_r (s : string) : (s ++ "")%string = s.
Proof. induction s as [|c s IH]; simpl; [reflexivity | now rewrite IH]. Qed.

Lemma append_assoc' (a b c : string) : ((a ++ b) ++ c)%string = (a ++ b ++ c)%string.
Proof. induction a as [|x a IH]; simpl; [reflexivity | now rewrite IH]. Qed.

Lemma Contains_intro (pre sub post : string) : Contains (pre ++ sub ++ post) sub.
Proof. now exists pre, post. Qed.

Lemma Contains_append_l (a s sub : string) : Contains s sub -> Contains (a ++ s) sub.
Proof.
  intros (pre & post & ->). exists (a ++ pre)%string, post.
  now rewrite append_assoc'.
Qed.

Lemma Contains_String (c : ascii) (s sub : string) :
  Contains s sub -> Contains (String c s) sub.
Proof. apply (Contains_append_l (String c EmptyString)). Qed.

Lemma prefixb_true (p s : string) :
  prefixb p s = true <-> exists post, s = (p ++ post)%string.
Proof.
  revert s; induction p as [|a p IH]; intros s; simpl.
  - split; [intros _; now exists s | reflexivity].
  - destruct s as [|b s].
    + split; [discriminate | intros (post & H); discriminate].
    + rewrite andb_true_iff, Ascii.eqb_eq, IH. split.
      * intros (-> & post & ->). now exists post.
      * intros (post & H). injection H as -> ->. split; [reflexivity | now exists post].
Qed.

(** [containsb] decides [Contains]. *)
Lemma containsb_true (s sub : string) : containsb s sub = true <-> Contains s sub.
Proof.
  induction s as [|c s IH]; simpl.
  - rewrite orb_false_r, prefixb_true. split.
    + intros (post & H). exists ""%string, post. exact H.
    + intros (pre & post & H). destruct pre; simpl in H.
      * now exists post.
      * discriminate.
  - rewrite orb_true_iff, prefixb_true, IH. split.
    + intros [(post & H) | H].
      * exists ""%string, post. exact H.
      * now apply Contains_String.
    + intros (pre & post & H). destruct pre as [|a pre]; simpl in H.
      * left. now exists post.
      * right. injection H as _ H. now exists pre, post.
Qed.

Lemma mentions_append (c : ascii) (a b : string) :
  mentions c (a ++ b) = mentions c a || mentions c b.
Proof.
  induction a as [|x a IH]; simpl; [reflexivity | now rewrite IH, orb_assoc].
Qed.

(** A text without the character [c] that starts [a ++ c :: b] starts [a]. *)
Lemma prefix_before (c : ascii) (sub post a b : string) :
  mentions c sub = false ->
  (sub ++ post)%string = (a ++ String c b)%string ->
  exists post', a = (sub ++ post')%string.
Proof.
  revert a; induction sub as [|z sub IH]; intros a Hc H.
  - now exists a.
  - simpl in Hc. apply orb_false_elim in Hc as [Hz Hc].
    destruct a as [|y a]; simpl in H; injection H as -> H.
    + now rewrite Ascii.eqb_refl in Hz.
    + destruct (IH a Hc H) as (post' & ->). now exists post'.
Qed.

(** A text without the character [c] that occurs in [a ++ c :: b] occurs in
    [a] or in [b]. *)
Lemma Contains_across (c : ascii) (a b sub : string) :
  mentions c sub = false ->
  Contains (a ++ String c b) sub -> Contains a sub \/ Contains b sub.
Proof.
  intros Hc (pre & post & H). revert a H.
  induction pre as [|y pre IH]; intros a H; simpl in H.
  - left. symmetry in H. destruct (prefix_before _ _ _ _ _ Hc H) as (post' & ->).
    now exists ""%string, post'.
  - destruct a as [|x a]; simpl in H; injection H as _ H.
    + right. now exists pre, post.
    + destruct (IH a H) as [Ha | Hb]; [left; now apply Contains_String | now right].
Qed.

Lemma Sprintf_roleARN (account role : string) :
  Sprintf "arn:aws:iam::%s:role/%s" [account; role] = roleARN "aws" account role.
Proof. unfold roleARN. simpl. now rewrite append_empty_r. Qed.

Lemma Sprintf_scp_applied (account id : string) :
  Sprintf "SCP applied to account %s with policy ID %s" [account; id]
  = ("SCP applied to account " ++ account ++ " with policy ID " ++ id)%string.
Proof. simpl. now rewrite append_empty_r. Qed.

Lemma Sprintf_detached (role account : string) :
  Sprintf "Policies detached from role %s in account %s" [role; account]
  = ("Policies detached from role " ++ role ++ " in account " ++ account)%string.
Proof. simpl. now rewrite append_empty_r. Qed.

Lemma Sprintf_deleted (role account : string) :
  Sprintf "Role %s and its policies are detached and deleted in account %s" [role; account]
  = ("Role " ++ role ++ " and its policies are detached and deleted in account "
       ++ account)%string.
Proof. simpl. now rewrite append_empty_r. Qed.

Lemma Errorf_detaching (arn role account cause : string) :
  Errorf "error detaching policy %s from role %s in account %s: %v"
    [arn; role; account; cause]
  = ("error detaching policy " ++ arn ++ " from role " ++ role ++ " in account "
       ++ account ++ ": " ++ cause)%string.
Proof. unfold Errorf. simpl. now rewrite append_empty_r. Qed.

Lemma Errorf_attaching (account cause : string) :
  Errorf "error attaching SCP to account %s: %v" [account; cause]
  = ("error attaching SCP to account " ++ account ++ ": " ++ cause)%string.
Proof. unfold Errorf. simpl. now rewrite append_empty_r. Qed.

Lemma Errorf_config (cause : string) :
  Errorf "error loading config file: %v" [cause]
  = ("error loading config file: " ++ cause)%string.
Proof. unfold Errorf. simpl. now rewrite append_empty_r. Qed.

Arguments Sprintf : simpl never.
Arguments Errorf : simpl never.

(** ** The monad *)

Lemma bind_Returned {A B} (m : M A) (f : A -> M B) w h a t1 :
  m w h = (Returned a, t1) ->
  bind m f w h = (fst (f a w (h ++ t1)), t1 ++ snd (f a w (h ++ t1))).
Proof. unfold bind. intros ->. now destruct (f a w (h ++ t1)). Qed.

Lemma bind_Panicked {A B} (m : M A) (f : A -> M B) w h t1 :
  m w h = (Panicked, t1) -> bind m f w h = (Panicked, t1).
Proof. unfold bind. now intros ->. Qed.

Lemma bind_ret {A B} (a : A) (f : A -> M B) w h :
  bind (ret a) f w h = f a w h.
Proof.
  unfold bind, ret. rewrite app_nil_r. now destruct (f a w h).
Qed.

Lemma bind_call {T B} ask ev (f : result T -> M B) w h :
  bind (call ask ev) f w h
  = (fst (f (ask w h) w (h ++ [ev (ask w h)])),
     ev (ask w h) :: snd (f (ask w h) w (h ++ [ev (ask w h)]))).
Proof. unfold bind, call. now destruct (f _ w _). Qed.

(** ** Validation in [HandleRequest] *)

Ltac string_tests :=
  repeat match goal with
  | H : ?a = ?b |- context [String.eqb ?a ?b] =>
      rewrite (proj2 (String.eqb_eq a b) H)
  | H : ?a <> ?b |- context [String.eqb ?a ?b] =>
      rewrite (proj2 (String.eqb_neq a b) H)
  end.

(** The first check of [HandleRequest]. *)
Lemma HandleRequest_first_check (w : World) (h : list Event) (request : Request) :
  TargetAccountID request = "" \/ RoleToAssume request = "" ->
  HandleRequest request w h
  = (Returned ("", Some (errors_New "targetAccountID and roleToAssume are required")), []).
Proof.
  intros H. unfold HandleRequest.
  destruct H as [H | H]; rewrite H; simpl; [| rewrite orb_true_r]; reflexivity.
Qed.

(** C9: with both required fields present, an action other than the three
    the program knows falls to the default case of the switch: the reply
    is the error "invalid action" and no call has been made. *)
Theorem HandleRequest_invalid_action (w : World) (h : list Event) (request : Request) :
  TargetAccountID request <> "" ->
  RoleToAssume request <> "" ->
  Action_ request <> ApplySCP ->
  Action_ request <> DetachPolicies ->
  Action_ request <> DeleteRole ->
  exists e : error,
    InvalidActionError e /\
    HandleRequest request w h = (Returned ("", Some e), []) /\
    count isCloudCall (snd (HandleRequest request w h)) = 0.
Proof.
  intros Ht Hr Ha Hd Hx.
  exists (errors_New "invalid action").
  assert (E : HandleRequest request w h
              = (Returned ("", Some (errors_New "invalid action")), [])).
  { unfold HandleRequest. string_tests. simpl.
    destruct (String.eqb (Region request) ""); simpl; string_tests; reflexivity. }
  split; [reflexivity |]. split; [exact E | now rewrite E].
Qed.

(** What [loadConfig] answers, by the file and the decoder. *)
Lemma loadConfig_eq (w : World) (h : list Event) (filename : string) :
  loadConfig filename w h
  = (Returned
       match os_ReadFile w h filename with
       | Err err => (None, Some err)
       | Ok bytes =>
           match json_Unmarshal w bytes with
           | Err err => (None, Some err)
           | Ok config => (Some config, None)
           end
       end,
     [EvReadFile filename (os_ReadFile w h filename)]).
Proof.
  unfold loadConfig, ReadFile. rewrite bind_call.
  destruct (os_ReadFile w h filename) as [bytes | err]; simpl; [| reflexivity].
  unfold bind, Unmarshal. simpl.
  destruct (json_Unmarshal w bytes); reflexivity.
Qed.

(** [HandleRequest] past the first check, action apply_scp. *)
Lemma HandleRequest_apply_scp (w : World) (h : list Event) (request : Request) :
  TargetAccountID request <> "" ->
  RoleToAssume request <> "" ->
  Action_ request = ApplySCP ->
  OrgManagementAccountID request <> "" ->
  HandleRequest request w h
  = bind (loadConfig "switch.conf")
      (fun loaded =>
         match loaded with
         | (_, Some err) => ret ("", Some (Errorf "error loading config file: %v" [err]))
         | (config, None) =>
             applySCP (session_NewSession (Some (sessionRegion request)))
               (OrgManagementAccountID request) (TargetAccountID request)
               (RoleToAssume request) config
         end) w h.
Proof.
  intros Ht Hr Ha Ho. unfold HandleRequest, sessionRegion, session_Must, aws_String.
  string_tests. simpl.
  destruct (String.eqb (Region request) ""); simpl; string_tests; reflexivity.
Qed.

(** C4, as the program has it: for an apply_scp request, an empty
    management account is answered with a validation error before the
    configuration is read (no call at all has been made); and when the
    target account, the role to assume and the management account are all
    present but the configuration file cannot be read or decoded, the reply
    is the configuration error, the only call made is the reading of the
    file, and neither the containment executor nor any service was reached. *)
Theorem HandleRequest_apply_scp_checks (w : World) (h : list Event) (request : Request) :
  Action_ request = ApplySCP ->
  (OrgManagementAccountID request = "" ->
   exists e : error,
     ValidationError e /\
     HandleRequest request w h = (Returned ("", Some e), []))
  /\
  (TargetAccountID request <> "" ->
   RoleToAssume request <> "" ->
   OrgManagementAccountID request <> "" ->
   forall cause : error,
     os_ReadFile w h "switch.conf" = Err cause \/
     (exists bytes, os_ReadFile w h "switch.conf" = Ok bytes /\
                    json_Unmarshal w bytes = Err cause) ->
     exists e : error,
       ConfigError e /\
       HandleRequest request w h
       = (Returned ("", Some e), [EvReadFile "switch.conf" (os_ReadFile w h "switch.conf")]) /\
       count isCloudCall (snd (HandleRequest request w h)) = 0).
Proof.
  intros Ha. split.
  - intros Ho.
    destruct (String.eqb (TargetAccountID request) "" || String.eqb (RoleToAssume request) "")
      eqn:E.
    + exists (errors_New "targetAccountID and roleToAssume are required").
      split; [now left |]. unfold HandleRequest. now rewrite E.
    + exists (errors_New "managementAccount is required for apply_scp action").
      split; [right; now left |]. unfold HandleRequest. rewrite E.
      destruct (String.eqb (Region request) ""); simpl; string_tests; reflexivity.
  - intros Ht Hr Ho cause Hc.
    exists (Errorf "error loading config file: %v" [cause]).
    assert (E : HandleRequest request w h
                = (Returned ("", Some (Errorf "error loading config file: %v" [cause])),
                   [EvReadFile "switch.conf" (os_ReadFile w h "switch.conf")])).
    { rewrite (HandleRequest_apply_scp w h request Ht Hr Ha Ho).
      rewrite (bind_Returned _ _ w h _ _ (loadConfig_eq w h "switch.conf")).
      destruct Hc as [Hc | (bytes & Hc & Hj)]; rewrite Hc; [| rewrite Hj]; reflexivity. }
    split; [now exists cause |]. split; [exact E | now rewrite E].
Qed.

(** ** The loops of [manageRole] *)

(** The detach loop ends in one of three ways: every policy was detached;
    the call for some policy failed after all earlier ones had succeeded;
    or a nil entry of the listing was dereferenced. *)
Lemma detachEach_run (svc : Client) (acct role : string) (ps : list (option AttachedPolicy))
    (w : World) (h : list Event) :
  (exists qs,
      ps = map Some qs /\
      detachEach svc acct role ps w h
      = (Returned None, map (detachEvent svc role (Ok tt)) qs))
  \/
  (exists qs p rest cause,
      ps = map Some qs ++ Some p :: rest /\
      detachEach svc acct role ps w h
      = (match PolicyArn p with
         | Some arn =>
             Returned (Some ("", Some (Errorf
               "error detaching policy %s from role %s in account %s: %v"
               [arn; role; acct; cause])))
         | None => Panicked
         end,
         map (detachEvent svc role (Ok tt)) qs ++ [detachEvent svc role (Err cause) p]))
  \/
  (exists qs rest,
      ps = map Some qs ++ None :: rest /\
      detachEach svc acct role ps w h
      = (Panicked, map (detachEvent svc role (Ok tt)) qs)).
Proof.
  revert h. induction ps as [|[p|] ps IH]; intros h.
  - left. exists []. split; reflexivity.
  - simpl detachEach. rewrite bind_ret. unfold svc_DetachRolePolicy. rewrite bind_call.
    fold (detachEvent svc role (iam_DetachRolePolicy w h svc
            {| drp_RoleName := aws_String role; drp_PolicyArn := PolicyArn p |}) p).
    destruct (iam_DetachRolePolicy w h svc _) as [[]|cause].
    + destruct (IH (h ++ [detachEvent svc role (Ok tt) p]))
        as [(qs & -> & E) | [(qs & q & rest & cause & -> & E) | (qs & rest & -> & E)]];
        rewrite E; simpl.
      * left. exists (p :: qs). split; reflexivity.
      * right; left. exists (p :: qs), q, rest, cause. split; reflexivity.
      * right; right. exists (p :: qs), rest. split; reflexivity.
    + right; left. exists [], p, ps, cause. split; [reflexivity |].
      destruct (PolicyArn p); reflexivity.
  - right; right. exists [], ps. split; reflexivity.
Qed.

(** The delete loop ends when every inline policy was deleted, or at the
    first call that failed. *)
Lemma deleteEach_run (svc : Client) (acct role : string) (names : list (option string))
    (w : World) (h : list Event) :
  deleteEach svc acct role names w h
  = (Returned None, map (deleteEvent svc role (Ok tt)) names)
  \/
  (exists pre n rest cause,
      names = pre ++ n :: rest /\
      deleteEach svc acct role names w h
      = (match n with
         | Some name =>
             Returned (Some ("", Some (Errorf
               "error deleting inline policy %s from role %s in account %s: %v"
               [name; role; acct; cause])))
         | None => Panicked
         end,
         map (deleteEvent svc role (Ok tt)) pre ++ [deleteEvent svc role (Err cause) n])).
Proof.
  revert h. induction names as [|n names IH]; intros h.
  - left. reflexivity.
  - simpl deleteEach. unfold svc_DeleteRolePolicy. rewrite bind_call.
    fold (deleteEvent svc role (iam_DeleteRolePolicy w h svc
            {| drpi_RoleName := aws_String role; drpi_PolicyName := n |}) n).
    destruct (iam_DeleteRolePolicy w h svc _) as [[]|cause].
    + destruct (IH (h ++ [deleteEvent svc role (Ok tt) n]))
        as [E | (pre & m & rest & cause & -> & E)]; rewrite E; simpl.
      * left. reflexivity.
      * right. exists (n :: pre), m, rest, cause. split; reflexivity.
    + right. exists [], n, names, cause. split; [reflexivity |].
      destruct n; reflexivity.
Qed.

(** ** The executors, case by case *)

Lemma ManageRoleRun_trace (svc : Client) (action : Action) (acct role : string)
    (o : Outcome Reply) (t t' : list Event) :
  ManageRoleRun svc action acct role o t -> t = t' ->
  ManageRoleRun svc action acct role o t'.
Proof. now intros H <-. Qed.

Ltac same_trace :=
  unfold cleanupTrace; simpl;
  repeat (rewrite <- app_assoc; simpl);
  rewrite ?app_nil_r; reflexivity.

Lemma manageRole_run (w : World) (h : list Event) (sess : Session)
    (action : Action) (acct assume role : string) :
  ManageRoleRun (clientFor sess acct assume) action acct role
    (fst (manageRole sess action acct assume role w h))
    (snd (manageRole sess action acct assume role w h)).
Proof.
  unfold manageRole, svc_ListAttachedRolePolicies.
  change (iam_New sess (stscreds_NewCredentials sess
            (Sprintf "arn:aws:iam::%s:role/%s" [acct; assume])))
    with (clientFor sess acct assume).
  set (svc := clientFor sess acct assume).
  change {| ri_RoleName := aws_String role |} with (roleInput role).
  rewrite bind_call.
  destruct (iam_ListAttachedRolePolicies w h svc (roleInput role)) as [[ps]|cause]; simpl.
  2: { apply listing_failed. }
  set (h1 := h ++ _).
  destruct (detachEach_run svc acct role ps w h1)
    as [(qs & -> & E) | [(qs & q & rest & cause & -> & E) | (qs & rest & -> & E)]].
  - rewrite (bind_Returned _ _ w h1 _ _ E). simpl.
    unfold svc_ListRolePolicies. rewrite bind_call.
    set (h2 := h1 ++ _).
    destruct (iam_ListRolePolicies w h2 svc (roleInput role)) as [[names]|cause]; simpl.
    2: { apply inline_listing_failed. }
    set (h3 := h2 ++ _).
    destruct (deleteEach_run svc acct role names w h3)
      as [D | (pre & n & rest & cause & -> & D)].
    + rewrite (bind_Returned _ _ w h3 _ _ D). simpl.
      destruct (String.eqb action DeleteRole) eqn:Ea.
      * apply String.eqb_eq in Ea. unfold svc_DeleteRole. rewrite bind_call.
        destruct (iam_DeleteRole w _ svc (roleInput role)) as [[]|cause]; simpl.
        -- eapply ManageRoleRun_trace;
             [apply (@role_deleted svc action acct role qs names Ea) | same_trace].
        -- eapply ManageRoleRun_trace;
             [apply (@role_delete_failed svc action acct role qs names cause Ea)
             | same_trace].
      * apply String.eqb_neq in Ea. simpl.
        eapply ManageRoleRun_trace;
          [apply (@policies_detached svc action acct role qs names Ea) | same_trace].
    + destruct n as [name|].
      * rewrite (bind_Returned _ _ w h3 _ _ D). simpl.
        eapply ManageRoleRun_trace;
          [apply (@delete_failed svc action acct role qs pre (Some name) rest cause)
          | same_trace].
      * rewrite (bind_Panicked _ _ w h3 _ D). simpl.
        eapply ManageRoleRun_trace;
          [apply (@delete_failed svc action acct role qs pre None rest cause)
          | same_trace].
  - destruct (PolicyArn q) as [arn|] eqn:Eq.
    + rewrite (bind_Returned _ _ w h1 _ _ E). simpl.
      eapply ManageRoleRun_trace;
        [generalize (@detach_failed svc action acct role qs q rest cause);
         rewrite Eq; intros H; exact H
        | same_trace].
    + rewrite (bind_Panicked _ _ w h1 _ E). simpl.
      generalize (@detach_failed svc action acct role qs q rest cause).
      now rewrite Eq.
  - rewrite (bind_Panicked _ _ w h1 _ E). simpl. apply nil_policy.
Qed.

Lemma applySCP_run (w : World) (h : list Event) (sess : Session)
    (mgmt acct assume : string) (config : Config) :
  ApplySCPRun (clientFor sess mgmt assume) acct (scpInput config)
    (fst (applySCP sess mgmt acct assume (Some config) w h))
    (snd (applySCP sess mgmt acct assume (Some config) w h)).
Proof.
  unfold applySCP, svc_CreatePolicy.
  change (organizations_New sess (stscreds_NewCredentials sess
            (Sprintf "arn:aws:iam::%s:role/%s" [mgmt; assume])))
    with (clientFor sess mgmt assume).
  set (svc := clientFor sess mgmt assume).
  simpl deref. rewrite bind_ret.
  change {| cpi_Content := _; cpi_Description := _; cpi_Name := _; cpi_Type := _ |}
    with (scpInput config).
  rewrite bind_call.
  destruct (organizations_CreatePolicy w h svc (scpInput config)) as [[policy]|cause]; simpl.
  2: { apply create_failed. }
  destruct policy as [[summary]|]; simpl.
  2: { apply created_nothing. now left. }
  destruct summary as [[id]|]; simpl.
  2: { apply created_nothing. now right. }
  rewrite bind_ret. cbn [deref PolicySummary]. rewrite bind_ret. cbn [Id].
  unfold svc_AttachPolicy. rewrite bind_call.
  destruct (organizations_AttachPolicy w _ svc _) as [[]|cause]; cbn [fst snd].
  - destruct id as [id|]; cbn [deref]; [rewrite bind_ret |]; simpl.
    + apply applied.
    + apply attached_nil_id.
  - simpl. apply attach_failed.
Qed.

(** A nil configuration is dereferenced before any call. *)
Lemma applySCP_nil_config (w : World) (h : list Event) (sess : Session)
    (mgmt acct assume : string) :
  applySCP sess mgmt acct assume None w h = (Panicked, []).
Proof. reflexivity. Qed.

(** When Organizations creates the policy, with an identifier, and then
    attaches it, [applySCP] makes these two calls and returns its message. *)
Lemma applySCP_applied (w : World) (h : list Event) (sess : Session)
    (mgmt acct assume : string) (config : Config) (id : string) :
  organizations_CreatePolicy w h (clientFor sess mgmt assume) (scpInput config)
  = Ok {| Policy := Some {| PolicySummary := Some {| Id := Some id |} |} |} ->
  organizations_AttachPolicy w
    (h ++ [EvCreatePolicy (clientFor sess mgmt assume) (scpInput config)
             (Ok {| Policy := Some {| PolicySummary := Some {| Id := Some id |} |} |})])
    (clientFor sess mgmt assume)
    {| api_PolicyId := Some id; api_TargetId := aws_String acct |}
  = Ok tt ->
  applySCP sess mgmt acct assume (Some config) w h
  = (Returned (Sprintf "SCP applied to account %s with policy ID %s" [acct; id], None),
     [EvCreatePolicy (clientFor sess mgmt assume) (scpInput config)
        (Ok {| Policy := Some {| PolicySummary := Some {| Id := Some id |} |} |});
      EvAttachPolicy (clientFor sess mgmt assume)
        {| api_PolicyId := Some id; api_TargetId := aws_String acct |} (Ok tt)]).
Proof.
  intros Hc Ha.
  unfold applySCP, svc_CreatePolicy.
  change (organizations_New sess (stscreds_NewCredentials sess
            (Sprintf "arn:aws:iam::%s:role/%s" [mgmt; assume])))
    with (clientFor sess mgmt assume).
  set (svc := clientFor sess mgmt assume) in *.
  simpl deref. rewrite bind_ret.
  change {| cpi_Content := _; cpi_Description := _; cpi_Name := _; cpi_Type := _ |}
    with (scpInput config).
  rewrite bind_call, Hc.
  cbn [Policy deref]. rewrite bind_ret. cbn [deref PolicySummary]. rewrite bind_ret.
  cbn [Id].
  unfold svc_AttachPolicy. rewrite bind_call, Ha.
  cbn [deref]. rewrite bind_ret. reflexivity.
Qed.

(** ** The dispatcher, branch by branch *)

(** [HandleRequest] past the first check, actions detach_policies and
    delete_role. *)
Lemma HandleRequest_manage_role (w : World) (h : list Event) (request : Request) :
  TargetAccountID request <> "" ->
  RoleToAssume request <> "" ->
  Action_ request = DetachPolicies \/ Action_ request = DeleteRole ->
  TargetRoleName request <> "" ->
  HandleRequest request w h
  = manageRole (session_NewSession (Some (sessionRegion request)))
      (Action_ request) (TargetAccountID request) (RoleToAssume request)
      (TargetRoleName request) w h.
Proof.
  intros Ht Hr Ha Hn. unfold HandleRequest, sessionRegion, session_Must, aws_String.
  string_tests. simpl.
  destruct (String.eqb (Region request) ""); simpl; string_tests;
    destruct Ha as [Ha | Ha]; rewrite Ha; reflexivity.
Qed.

(** The branches of [HandleRequest]: three refusals that make no call, the
    apply_scp branch and the role branch. *)
Lemma HandleRequest_branches (w : World) (h : list Event) (request : Request) :
  (exists e, HandleRequest request w h = (Returned ("", Some e), []) /\
             (ValidationError e \/ InvalidActionError e))
  \/
  (TargetAccountID request <> "" /\ RoleToAssume request <> "" /\
   Action_ request = ApplySCP /\ OrgManagementAccountID request <> "")
  \/
  (TargetAccountID request <> "" /\ RoleToAssume request <> "" /\
   (Action_ request = DetachPolicies \/ Action_ request = DeleteRole) /\
   TargetRoleName request <> "").
Proof.
  destruct (String.eqb (TargetAccountID request) "") eqn:Et.
  { left. apply String.eqb_eq in Et.
    exists (errors_New "targetAccountID and roleToAssume are required").
    split; [apply HandleRequest_first_check; now left | left; now left]. }
  destruct (String.eqb (RoleToAssume request) "") eqn:Er.
  { left. apply String.eqb_eq in Er.
    exists (errors_New "targetAccountID and roleToAssume are required").
    split; [apply HandleRequest_first_check; now right | left; now left]. }
  apply String.eqb_neq in Et, Er.
  destruct (String.eqb (Action_ request) ApplySCP) eqn:Ea.
  { apply String.eqb_eq in Ea.
    destruct (String.eqb (OrgManagementAccountID request) "") eqn:Eo.
    - left. apply String.eqb_eq in Eo.
      exists (errors_New "managementAccount is required for apply_scp action").
      split; [| left; right; now left].
      unfold HandleRequest. string_tests. simpl.
      destruct (String.eqb (Region request) ""); simpl; string_tests; reflexivity.
    - right; left. apply String.eqb_neq in Eo. now repeat split. }
  destruct (String.eqb (Action_ request) DetachPolicies
            || String.eqb (Action_ request) DeleteRole) eqn:Em.
  { destruct (String.eqb (TargetRoleName request) "") eqn:En.
    - left. apply String.eqb_eq in En.
      exists (errors_New
                "targetRoleName is required for delete_role and detach_policies actions").
      split; [| left; right; now right].
      unfold HandleRequest. string_tests. simpl.
      destruct (String.eqb (Region request) ""); simpl; rewrite Ea, Em; string_tests;
        reflexivity.
    - right; right. apply String.eqb_neq in En.
      apply orb_true_iff in Em. rewrite !String.eqb_eq in Em. now repeat split. }
  left. exists (errors_New "invalid action"). split; [| now right].
  unfold HandleRequest. string_tests. simpl.
  destruct (String.eqb (Region request) ""); simpl; rewrite Ea, Em; reflexivity.
Qed.

(** ** Counting calls *)

Lemma count_app (p : Event -> bool) (a b : list Event) :
  count p (a ++ b) = count p a + count p b.
Proof. unfold count. now rewrite filter_app, length_app. Qed.

Lemma count_cons (p : Event -> bool) (e : Event) (t : list Event) :
  count p (e :: t) = (if p e then 1 else 0) + count p t.
Proof. unfold count. simpl. now destruct (p e). Qed.

Lemma count_map_all {A} (p : Event -> bool) (f : A -> Event) (l : list A) :
  (forall a, p (f a) = true) -> count p (map f l) = length l.
Proof.
  intros H. induction l as [|a l IH]; [reflexivity |].
  simpl map. rewrite count_cons, H, IH. reflexivity.
Qed.

Lemma count_map_none {A} (p : Event -> bool) (f : A -> Event) (l : list A) :
  (forall a, p (f a) = false) -> count p (map f l) = 0.
Proof.
  intros H. induction l as [|a l IH]; [reflexivity |].
  simpl map. rewrite count_cons, H, IH. reflexivity.
Qed.

Lemma filter_map_all {A} (p : Event -> bool) (f : A -> Event) (l : list A) :
  (forall a, p (f a) = true) -> filter p (map f l) = map f l.
Proof.
  intros H. induction l as [|a l IH]; [reflexivity |].
  simpl. now rewrite H, IH.
Qed.

Lemma filter_map_none {A} (p : Event -> bool) (f : A -> Event) (l : list A) :
  (forall a, p (f a) = false) -> filter p (map f l) = [].
Proof.
  intros H. induction l as [|a l IH]; [reflexivity |].
  simpl. now rewrite H, IH.
Qed.

Ltac count_maps :=
  repeat match goal with
  | |- context [count ?p (map ?f ?l)] =>
      first [ rewrite (count_map_all p f l) by (intro; reflexivity)
            | rewrite (count_map_none p f l) by (intro; reflexivity) ]
  end.

Ltac count_trace :=
  rewrite ?count_cons, ?count_app, ?count_cons; count_maps;
  unfold detachEvent, deleteEvent, count; simpl; try lia.

(** The calls of a cleanup that went through, counted. *)
Lemma cleanupTrace_counts (svc : Client) (role : string)
    (attached : list AttachedPolicy) (inline : list (option string)) :
  count isDetachRolePolicy (cleanupTrace svc role attached inline) = length attached /\
  count isDeleteRolePolicy (cleanupTrace svc role attached inline) = length inline /\
  count isDeleteRole (cleanupTrace svc role attached inline) = 0 /\
  count isListAttachedRolePolicies (cleanupTrace svc role attached inline) = 1 /\
  count isListRolePolicies (cleanupTrace svc role attached inline) = 1 /\
  length (cleanupTrace svc role attached inline) = 2 + length attached + length inline.
Proof.
  unfold cleanupTrace.
  repeat split; rewrite ?count_cons, ?count_app, ?count_cons; simpl;
    count_maps; try lia.
  rewrite length_app. simpl. rewrite !length_map. lia.
Qed.

Lemma cleanupTrace_succeeded (svc : Client) (role : string)
    (attached : list AttachedPolicy) (inline : list (option string)) :
  Forall (fun e => eventFailed e = false) (cleanupTrace svc role attached inline).
Proof.
  unfold cleanupTrace. constructor; [reflexivity |].
  apply Forall_app. split.
  - apply Forall_forall. intros e He. apply in_map_iff in He as (p & <- & _). reflexivity.
  - constructor; [reflexivity |].
    apply Forall_forall. intros e He. apply in_map_iff in He as (p & <- & _). reflexivity.
Qed.

(** ** What the runs of [manageRole] have in common *)

Ltac split_Forall H :=
  repeat (rewrite ?Forall_cons_iff, ?Forall_app in H); simpl in H.

Ltac has_failed H := split_Forall H; decompose [and] H; discriminate.

(** A run in which no call failed and no listed entry was nil went through
    the whole cleanup, and deleted the role exactly when asked to. *)
Lemma ManageRoleRun_succeeded (svc : Client) (action : Action) (acct role : string)
    (o : Outcome Reply) (t : list Event) :
  ManageRoleRun svc action acct role o t ->
  Forall (fun e => eventFailed e = false) t ->
  Forall (fun e => ~ In None (listedPolicies e)) t ->
  exists attached inline,
    (action = DeleteRole /\
     t = cleanupTrace svc role attached inline
         ++ [EvDeleteRole svc (roleInput role) (Ok tt)] /\
     o = Returned
           (Sprintf "Role %s and its policies are detached and deleted in account %s"
              [role; acct], None))
    \/
    (action <> DeleteRole /\
     t = cleanupTrace svc role attached inline /\
     o = Returned (Sprintf "Policies detached from role %s in account %s" [role; acct],
                   None)).
Proof.
  intros R Hok Hnil.
  destruct R as [cause | qs p rest cause | qs rest | qs cause | qs pre n rest cause
                 | qs names cause Ea | qs names Ea | qs names Ea].
  - has_failed Hok.
  - has_failed Hok.
  - split_Forall Hnil. destruct Hnil as [Hnil _]. exfalso. apply Hnil.
    apply in_or_app. right. now left.
  - has_failed Hok.
  - has_failed Hok.
  - unfold cleanupTrace in Hok. has_failed Hok.
  - exists qs, names. left. now repeat split.
  - exists qs, names. right. now repeat split.
Qed.

Ltac quiet := simpl; intros; first [discriminate | reflexivity].

(** Every event of the trace in the goal meets the property in the goal:
    by the structure of the trace, with the lemmas on mapped events that
    are in the context. *)
Ltac only_ok :=
  unfold cleanupTrace;
  repeat first
    [ apply Forall_nil
    | match goal with H : forall _, Forall _ (map _ _) |- _ => apply H end
    | apply Forall_app; split
    | apply Forall_cons; [quiet |] ].

Lemma nth_error_singleton {A} (x y : A) (i : nat) :
  nth_error [x] i = Some y -> i = 0 /\ x = y.
Proof.
  destruct i as [|i]; simpl.
  - intros [= ->]. now split.
  - destruct i; discriminate.
Qed.

(** A detach call that failed was the last call of the run: all detach
    calls before it went through, and the run ended with its error. *)
Lemma ManageRoleRun_detach_failure (svc : Client) (action : Action) (acct role : string)
    (o : Outcome Reply) (t : list Event) (i : nat)
    (svc' : Client) (input : DetachRolePolicyInput) (cause : error) :
  ManageRoleRun svc action acct role o t ->
  nth_error (filter isDetachRolePolicy t) i
  = Some (EvDetachRolePolicy svc' input (Err cause)) ->
  exists qs p rest,
    t = EvListAttachedRolePolicies svc (roleInput role)
          (Ok {| AttachedPolicies := map Some qs ++ Some p :: rest |})
        :: map (detachEvent svc role (Ok tt)) qs ++ [detachEvent svc role (Err cause) p] /\
    i = length qs /\
    svc' = svc /\
    input = {| drp_RoleName := aws_String role; drp_PolicyArn := PolicyArn p |} /\
    o = match PolicyArn p with
        | Some arn =>
            Returned ("", Some (Errorf
              "error detaching policy %s from role %s in account %s: %v"
              [arn; role; acct; cause]))
        | None => Panicked
        end.
Proof.
  intros R Hn.
  assert (Hall : forall l : list Event,
             Forall (fun e => isDetachRolePolicy e = true -> eventFailed e = false) l ->
             nth_error (filter isDetachRolePolicy l) i
             = Some (EvDetachRolePolicy svc' input (Err cause)) -> False).
  { intros l Hl Hi. apply nth_error_In, filter_In in Hi as [Hin Hd].
    rewrite Forall_forall in Hl. specialize (Hl _ Hin Hd). discriminate. }
  assert (Hmap : forall qs : list AttachedPolicy,
             Forall (fun e => isDetachRolePolicy e = true -> eventFailed e = false)
               (map (detachEvent svc role (Ok tt)) qs)).
  { intros qs. apply Forall_forall. intros e He.
    apply in_map_iff in He as (q & <- & _). reflexivity. }
  assert (Hdel : forall names : list (option string),
             Forall (fun e => isDetachRolePolicy e = true -> eventFailed e = false)
               (map (deleteEvent svc role (Ok tt)) names)).
  { intros names. apply Forall_forall. intros e He.
    apply in_map_iff in He as (q & <- & _). reflexivity. }
  destruct R as [cause' | qs p rest cause' | qs rest | qs cause' | qs pre n rest cause'
                 | qs names cause' Ea | qs names Ea | qs names Ea].
  - exfalso. refine (Hall _ _ Hn). only_ok.
  - change (nth_error
              (filter isDetachRolePolicy
                 (map (detachEvent svc role (Ok tt)) qs
                  ++ [detachEvent svc role (Err cause') p])) i
            = Some (EvDetachRolePolicy svc' input (Err cause))) in Hn.
    rewrite filter_app, filter_map_all in Hn by reflexivity.
    change (filter isDetachRolePolicy [detachEvent svc role (Err cause') p])
      with [detachEvent svc role (Err cause') p] in Hn.
    destruct (Nat.lt_ge_cases i (length (map (detachEvent svc role (Ok tt)) qs)))
      as [Hlt | Hge].
    + rewrite nth_error_app1 in Hn by exact Hlt.
      apply nth_error_In, in_map_iff in Hn as (q & Hq & _). discriminate.
    + rewrite nth_error_app2 in Hn by exact Hge.
      apply nth_error_singleton in Hn as [Hi He].
      rewrite length_map in Hi, Hge.
      unfold detachEvent in He. injection He as -> <- ->.
      exists qs, p, rest. repeat split. lia.
  - exfalso. refine (Hall _ _ Hn). only_ok.
  - exfalso. refine (Hall _ _ Hn). only_ok.
  - exfalso. refine (Hall _ _ Hn). only_ok.
  - exfalso. refine (Hall _ _ Hn). only_ok.
  - exfalso. refine (Hall _ _ Hn). only_ok.
  - exfalso. refine (Hall _ _ Hn). only_ok.
Qed.

(** Every call of a run of [manageRole] goes through the one client, and
    the first call lists the attached policies. *)
Lemma ManageRoleRun_clients (svc : Client) (action : Action) (acct role : string)
    (o : Outcome Reply) (t : list Event) :
  ManageRoleRun svc action acct role o t ->
  Forall (fun e => clientOf e = Some svc) t /\
  exists r rest, t = EvListAttachedRolePolicies svc (roleInput role) r :: rest.
Proof.
  assert (Hmap : forall qs : list AttachedPolicy,
             Forall (fun e => clientOf e = Some svc)
               (map (detachEvent svc role (Ok tt)) qs)).
  { intros qs. apply Forall_forall. intros e He.
    apply in_map_iff in He as (q & <- & _). reflexivity. }
  assert (Hdel : forall names : list (option string),
             Forall (fun e => clientOf e = Some svc)
               (map (deleteEvent svc role (Ok tt)) names)).
  { intros names. apply Forall_forall. intros e He.
    apply in_map_iff in He as (q & <- & _). reflexivity. }
  intros R. destruct R; (split; [only_ok | unfold cleanupTrace; simpl; eauto]).
Qed.

(** A reply of [manageRole] is a message or an error. *)
Lemma ManageRoleRun_reply (svc : Client) (action : Action) (acct role : string)
    (o : Outcome Reply) (t : list Event) (reply : Reply) :
  ManageRoleRun svc action acct role o t -> o = Returned reply -> exactlyOne reply.
Proof.
  intros R E. destruct R;
    try (injection E as <-; simpl;
         rewrite ?Sprintf_deleted, ?Sprintf_detached; first [reflexivity | discriminate]).
  - destruct (PolicyArn p); [injection E as <-; reflexivity | discriminate].
  - discriminate.
  - destruct n; [injection E as <-; reflexivity | discriminate].
Qed.

Lemma forallb_app_true {A} (f : A -> bool) (a b : list A) :
  forallb f (a ++ b) = true -> forallb f a = true /\ forallb f b = true.
Proof. rewrite forallb_app. apply andb_true_iff. Qed.

(** A run of [manageRole] whose answers are complete returns. *)
Lemma ManageRoleRun_returns (svc : Client) (action : Action) (acct role : string)
    (o : Outcome Reply) (t : list Event) :
  ManageRoleRun svc action acct role o t ->
  forallb answerComplete t = true -> exists reply, o = Returned reply.
Proof.
  intros R H. destruct R; try (eexists; reflexivity).
  - simpl in H. apply andb_true_iff in H as [H _].
    apply forallb_app_true in H as [_ H]. simpl in H.
    destruct (PolicyArn p); [eexists; reflexivity | discriminate].
  - simpl in H. apply andb_true_iff in H as [H _].
    apply forallb_app_true in H as [_ H]. discriminate.
  - simpl in H. apply andb_true_iff in H as [_ H].
    apply forallb_app_true in H as [_ H]. simpl in H.
    apply andb_true_iff in H as [H _].
    apply forallb_app_true in H as [_ H]. simpl in H.
    destruct n; [eexists; reflexivity | discriminate].
Qed.

(** ** What the runs of [applySCP] have in common *)

Lemma ApplySCPRun_clients (svc : Client) (acct : string) (input : CreatePolicyInput)
    (o : Outcome Reply) (t : list Event) :
  ApplySCPRun svc acct input o t ->
  Forall (fun e => clientOf e = Some svc) t /\
  exists r rest, t = EvCreatePolicy svc input r :: rest.
Proof.
  intros R. destruct R; (split; [repeat constructor | eauto]).
Qed.

Lemma ApplySCPRun_reply (svc : Client) (acct : string) (input : CreatePolicyInput)
    (o : Outcome Reply) (t : list Event) (reply : Reply) :
  ApplySCPRun svc acct input o t -> o = Returned reply -> exactlyOne reply.
Proof.
  intros R E. destruct R; try discriminate; injection E as <-; simpl;
    rewrite ?Sprintf_scp_applied; first [reflexivity | discriminate].
Qed.

Lemma ApplySCPRun_returns (svc : Client) (acct : string) (input : CreatePolicyInput)
    (o : Outcome Reply) (t : list Event) :
  ApplySCPRun svc acct input o t ->
  forallb answerComplete t = true -> exists reply, o = Returned reply.
Proof.
  intros R H. destruct R as [cause | out Hout | id cause | | id];
    try (eexists; reflexivity).
  - simpl in H. destruct Hout as [E | E]; rewrite E in H; discriminate.
  - discriminate.
Qed.

(** ** The runs of [HandleRequest] *)

(** A run of [HandleRequest] is a refusal without any call, a failure to
    load the configuration after reading the file, a run of [applySCP]
    after reading the file, or a run of [manageRole]. *)
Lemma HandleRequest_cases (w : World) (h : list Event) (request : Request) :
  (exists e,
      (ValidationError e \/ InvalidActionError e) /\
      HandleRequest request w h = (Returned ("", Some e), []))
  \/
  (exists file cause,
      TargetAccountID request <> "" /\ RoleToAssume request <> "" /\
      Action_ request = ApplySCP /\ OrgManagementAccountID request <> "" /\
      HandleRequest request w h
      = (Returned ("", Some (Errorf "error loading config file: %v" [cause])),
         [EvReadFile "switch.conf" file]))
  \/
  (exists file config o t,
      TargetAccountID request <> "" /\ RoleToAssume request <> "" /\
      Action_ request = ApplySCP /\ OrgManagementAccountID request <> "" /\
      ApplySCPRun (clientOfRequest request) (TargetAccountID request)
        (scpInput config) o t /\
      HandleRequest request w h = (o, EvReadFile "switch.conf" file :: t))
  \/
  (exists o t,
      TargetAccountID request <> "" /\ RoleToAssume request <> "" /\
      (Action_ request = DetachPolicies \/ Action_ request = DeleteRole) /\
      TargetRoleName request <> "" /\
      ManageRoleRun (clientOfRequest request) (Action_ request)
        (TargetAccountID request) (TargetRoleName request) o t /\
      HandleRequest request w h = (o, t)).
Proof.
  destruct (HandleRequest_branches w h request)
    as [(e & E & He) | [(Ht & Hr & Ha & Ho) | (Ht & Hr & Ha & Hn)]].
  - left. now exists e.
  - right.
    assert (Hc : clientOfRequest request
                 = clientFor (session_NewSession (Some (sessionRegion request)))
                     (OrgManagementAccountID request) (RoleToAssume request)).
    { unfold clientOfRequest, assumedAccount. now rewrite Ha. }
    rewrite (HandleRequest_apply_scp w h request Ht Hr Ha Ho).
    rewrite (bind_Returned _ _ w h _ _ (loadConfig_eq w h "switch.conf")).
    destruct (os_ReadFile w h "switch.conf") as [bytes | cause] eqn:Ef.
    + destruct (json_Unmarshal w bytes) as [config | cause].
      * right; left. eexists (Ok bytes), config, _, _.
        repeat (split; [assumption |]).
        split; [rewrite Hc; apply applySCP_run | reflexivity].
      * left. exists (Ok bytes), cause. repeat (split; [assumption |]). reflexivity.
    + left. exists (Err cause), cause. repeat (split; [assumption |]). reflexivity.
  - right; right; right.
    assert (Hc : clientOfRequest request
                 = clientFor (session_NewSession (Some (sessionRegion request)))
                     (TargetAccountID request) (RoleToAssume request)).
    { unfold clientOfRequest, assumedAccount.
      destruct Ha as [Ha | Ha]; now rewrite Ha. }
    rewrite (HandleRequest_manage_role w h request Ht Hr Ha Hn).
    eexists _, _. repeat (split; [assumption |]).
    split; [rewrite Hc; apply manageRole_run | apply surjective_pairing].
Qed.

(** * Main results *)

(** ** Validation *)

(** C1: a request whose target account or role to assume is empty is
    answered with the validation error of the first check, whatever its
    action and its other fields are, and the invocation has made no call at
    all by then: no configuration read, no credentials, no service call. *)
Theorem HandleRequest_requires_account_and_role (w : World) (h : list Event)
    (request : Request) :
  TargetAccountID request = "" \/ RoleToAssume request = "" ->
  exists e : error,
    ValidationError e /\
    HandleRequest request w h = (Returned ("", Some e), []).
Proof.
  intros H.
  exists (errors_New "targetAccountID and roleToAssume are required").
  split; [now left | now apply HandleRequest_first_check].
Qed.

Lemma HandleRequest_requires_account_and_role_witness :
  exists e : error,
    ValidationError e /\
    HandleRequest
      {| Action_ := ApplySCP; TargetAccountID := ""; RoleToAssume := "KillSwitchRole";
         TargetRoleName := ""; OrgManagementAccountID := "999999999999";
         Region := "eu-west-1" |} calmWorld []
    = (Returned ("", Some e), []).
Proof.
  apply (HandleRequest_requires_account_and_role calmWorld []
           {| Action_ := ApplySCP; TargetAccountID := ""; RoleToAssume := "KillSwitchRole";
              TargetRoleName := ""; OrgManagementAccountID := "999999999999";
              Region := "eu-west-1" |}).
  left. reflexivity.
Defined.

Lemma HandleRequest_invalid_action_witness :
  exists e : error,
    InvalidActionError e /\
    HandleRequest (sampleRequest "disable_user") calmWorld []
    = (Returned ("", Some e), []) /\
    count isCloudCall (snd (HandleRequest (sampleRequest "disable_user") calmWorld [])) = 0.
Proof.
  apply (HandleRequest_invalid_action calmWorld [] (sampleRequest "disable_user"));
    discriminate.
Defined.

Lemma HandleRequest_apply_scp_checks_witness :
  exists e : error,
    ConfigError e /\
    HandleRequest (sampleRequest ApplySCP) noConfigWorld []
    = (Returned ("", Some e),
       [EvReadFile "switch.conf" (os_ReadFile noConfigWorld [] "switch.conf")]) /\
    count isCloudCall (snd (HandleRequest (sampleRequest ApplySCP) noConfigWorld [])) = 0.
Proof.
  destruct (HandleRequest_apply_scp_checks noConfigWorld [] (sampleRequest ApplySCP)
              eq_refl) as [_ H].
  apply (H ltac:(discriminate) ltac:(discriminate) ltac:(discriminate)
           "open switch.conf: no such file or directory").
  left. reflexivity.
Defined.

(** C4 as stated fails: an apply_scp request with a management account but
    without a target account, in a world whose configuration file cannot
    be read, is answered by the first check with a validation error, which
    is no configuration error, and the file is not even looked at. *)
Lemma HandleRequest_apply_scp_config_counterexample :
  Action_ noTargetRequest = ApplySCP /\
  OrgManagementAccountID noTargetRequest <> "" /\
  os_ReadFile noConfigWorld [] "switch.conf"
  = Err "open switch.conf: no such file or directory" /\
  HandleRequest noTargetRequest noConfigWorld []
  = (Returned ("", Some (errors_New "targetAccountID and roleToAssume are required")), []) /\
  ~ (exists e : error,
        ConfigError e /\
        fst (HandleRequest noTargetRequest noConfigWorld []) = Returned ("", Some e)).
Proof.
  repeat split; try discriminate.
  intros (e & (cause & He) & E).
  rewrite Errorf_config in He. subst e. discriminate.
Qed.

(** ** The role executor *)

Lemma Contains_refl (s : string) : Contains s s.
Proof. exists ""%string, ""%string. simpl. now rewrite append_empty_r. Qed.

(** C2: in a run of [manageRole] whose k-th detach call fails, for a
    policy with ARN [arn], the listing of the attached policies had
    succeeded with at least k entries, the k-th of which is that policy;
    exactly k-1 detach calls succeeded and the failed one is the k-th detach
    call and the last call of the run; the inline policies were neither listed nor
    deleted and the role was not deleted; and the run returns the detach
    error that names [arn]. *)
Theorem manageRole_detach_failure (w : World) (h : list Event) (sess : Session)
    (action : Action) (acct assume role : string)
    (o : Outcome Reply) (t : list Event)
    (k : nat) (svc : Client) (input : DetachRolePolicyInput) (cause : error)
    (arn : string) :
  manageRole sess action acct assume role w h = (o, t) ->
  1 <= k ->
  nth_error (filter isDetachRolePolicy t) (k - 1)
  = Some (EvDetachRolePolicy svc input (Err cause)) ->
  drp_PolicyArn input = Some arn ->
  exists (listed : list (option AttachedPolicy)) (policy : AttachedPolicy),
    hd_error t
    = Some (EvListAttachedRolePolicies (clientFor sess acct assume) (roleInput role)
              (Ok {| AttachedPolicies := listed |})) /\
    k <= length listed /\
    nth_error listed (k - 1) = Some (Some policy) /\
    PolicyArn policy = Some arn /\
    count (fun e => isDetachRolePolicy e && negb (eventFailed e)) t = k - 1 /\
    count isDetachRolePolicy t = k /\
    (exists before, t = before ++ [EvDetachRolePolicy svc input (Err cause)]) /\
    count isListRolePolicies t = 0 /\
    count isDeleteRolePolicy t = 0 /\
    count isDeleteRole t = 0 /\
    exists e : error,
      DetachError arn e /\ Contains e arn /\ o = Returned ("", Some e).
Proof.
  intros E Hk Hn Harn.
  pose proof (manageRole_run w h sess action acct assume role) as R.
  rewrite E in R. simpl in R.
  destruct (ManageRoleRun_detach_failure _ _ _ _ _ _ _ _ _ _ R Hn)
    as (qs & p & rest & -> & Hi & -> & -> & ->).
  simpl in Harn. rewrite Harn.
  exists (map Some qs ++ Some p :: rest), p.
  split; [reflexivity |].
  split; [rewrite length_app, length_map; simpl; lia |].
  split.
  { rewrite Hi, nth_error_app2 by (rewrite length_map; lia).
    rewrite length_map, Nat.sub_diag. reflexivity. }
  split; [exact Harn |].
  split; [count_trace |].
  split; [count_trace |].
  split.
  { eexists (_ :: _). simpl. unfold detachEvent at 2. rewrite Harn. reflexivity. }
  split; [count_trace |].
  split; [count_trace |].
  split; [count_trace |].
  eexists. split; [| split; [| reflexivity]].
  - now exists role, acct, cause.
  - rewrite Errorf_detaching. apply Contains_intro.
Qed.

Lemma manageRole_detach_failure_witness :
  exists e : error,
    DetachError "arn:aws:iam::aws:policy/AmazonS3FullAccess" e /\
    fst (manageRole sampleSession DeleteRole "123456789012" "KillSwitchRole"
           "CompromisedRole" secondDetachRefused [])
    = Returned ("", Some e) /\
    count isDeleteRole
      (snd (manageRole sampleSession DeleteRole "123456789012" "KillSwitchRole"
              "CompromisedRole" secondDetachRefused [])) = 0.
Proof.
  destruct (manageRole_detach_failure secondDetachRefused [] sampleSession DeleteRole
              "123456789012" "KillSwitchRole" "CompromisedRole" _ _ 2 sampleClient
              {| drp_RoleName := Some "CompromisedRole";
                 drp_PolicyArn := Some "arn:aws:iam::aws:policy/AmazonS3FullAccess" |}
              "AccessDenied" "arn:aws:iam::aws:policy/AmazonS3FullAccess"
              (surjective_pairing _) (le_n_S _ _ (Nat.le_0_l _)) eq_refl eq_refl)
    as (listed & policy & _ & _ & _ & _ & _ & _ & _ & _ & _ & Hd & e & He & _ & Ho).
  exists e. repeat split; assumption.
Defined.

(** ** The containment executor *)

(** C3: a run of [applySCP] on a loaded configuration starts with its one
    create-policy call, whose content is the policy text of the
    configuration.  An attach-policy call, if there is one, comes right
    after a create call that succeeded, is made on the policy created and
    the target account, and is the last call.  If it fails, the run ends
    there with the attach error: nothing is called to remove the policy.
    A run that returns a message made exactly the two calls, both
    successful, and its message holds the target account and the
    identifier of the policy created.  And such a run does return its
    message: when Organizations creates the policy, with an identifier,
    and then attaches it, the run makes exactly these two calls and
    returns the message, without an error, that holds the target account
    and that identifier; so does every run whose trace has an attach call
    that succeeded on a policy with an identifier. *)
Theorem applySCP_create_then_attach (w : World) (h : list Event) (sess : Session)
    (mgmt acct assume : string) (config : Config)
    (o : Outcome Reply) (t : list Event) :
  applySCP sess mgmt acct assume (Some config) w h = (o, t) ->
  (exists created rest,
      t = EvCreatePolicy (clientFor sess mgmt assume) (scpInput config) created :: rest /\
      cpi_Content (scpInput config) = Some (SCPolicy (SwitchPolicies config)) /\
      count isCreatePolicy t = 1 /\
      count isAttachPolicy t <= 1)
  /\
  (forall before svc input r later,
      t = before ++ EvAttachPolicy svc input r :: later ->
      exists id,
        before = [EvCreatePolicy (clientFor sess mgmt assume) (scpInput config)
                    (Ok {| Policy := Some {| PolicySummary := Some {| Id := id |} |} |})] /\
        later = [] /\
        svc = clientFor sess mgmt assume /\
        input = {| api_PolicyId := id; api_TargetId := Some acct |})
  /\
  (forall svc input cause,
      In (EvAttachPolicy svc input (Err cause)) t ->
      exists (e : error) (created : CreatePolicyOutput),
        PolicyAttachError e /\
        o = Returned ("", Some e) /\
        t = [EvCreatePolicy (clientFor sess mgmt assume) (scpInput config) (Ok created);
             EvAttachPolicy svc input (Err cause)])
  /\
  (forall message,
      o = Returned (message, None) ->
      exists id,
        t = [EvCreatePolicy (clientFor sess mgmt assume) (scpInput config)
               (Ok {| Policy := Some {| PolicySummary := Some {| Id := Some id |} |} |});
             EvAttachPolicy (clientFor sess mgmt assume)
               {| api_PolicyId := Some id; api_TargetId := Some acct |} (Ok tt)] /\
        Contains message acct /\
        Contains message id)
  /\
  (forall id,
      organizations_CreatePolicy w h (clientFor sess mgmt assume) (scpInput config)
      = Ok {| Policy := Some {| PolicySummary := Some {| Id := Some id |} |} |} ->
      organizations_AttachPolicy w
        (h ++ [EvCreatePolicy (clientFor sess mgmt assume) (scpInput config)
                 (Ok {| Policy := Some {| PolicySummary := Some {| Id := Some id |} |} |})])
        (clientFor sess mgmt assume)
        {| api_PolicyId := Some id; api_TargetId := Some acct |}
      = Ok tt ->
      o = Returned (Sprintf "SCP applied to account %s with policy ID %s" [acct; id],
                    None) /\
      t = [EvCreatePolicy (clientFor sess mgmt assume) (scpInput config)
             (Ok {| Policy := Some {| PolicySummary := Some {| Id := Some id |} |} |});
           EvAttachPolicy (clientFor sess mgmt assume)
             {| api_PolicyId := Some id; api_TargetId := Some acct |} (Ok tt)] /\
      Contains (Sprintf "SCP applied to account %s with policy ID %s" [acct; id]) acct /\
      Contains (Sprintf "SCP applied to account %s with policy ID %s" [acct; id]) id)
  /\
  (forall svc input id,
      In (EvAttachPolicy svc input (Ok tt)) t ->
      api_PolicyId input = Some id ->
      o = Returned (Sprintf "SCP applied to account %s with policy ID %s" [acct; id],
                    None)).
Proof.
  intros E.
  assert (Hreturns : forall id,
      organizations_CreatePolicy w h (clientFor sess mgmt assume) (scpInput config)
      = Ok {| Policy := Some {| PolicySummary := Some {| Id := Some id |} |} |} ->
      organizations_AttachPolicy w
        (h ++ [EvCreatePolicy (clientFor sess mgmt assume) (scpInput config)
                 (Ok {| Policy := Some {| PolicySummary := Some {| Id := Some id |} |} |})])
        (clientFor sess mgmt assume)
        {| api_PolicyId := Some id; api_TargetId := Some acct |}
      = Ok tt ->
      o = Returned (Sprintf "SCP applied to account %s with policy ID %s" [acct; id],
                    None) /\
      t = [EvCreatePolicy (clientFor sess mgmt assume) (scpInput config)
             (Ok {| Policy := Some {| PolicySummary := Some {| Id := Some id |} |} |});
           EvAttachPolicy (clientFor sess mgmt assume)
             {| api_PolicyId := Some id; api_TargetId := Some acct |} (Ok tt)] /\
      Contains (Sprintf "SCP applied to account %s with policy ID %s" [acct; id]) acct /\
      Contains (Sprintf "SCP applied to account %s with policy ID %s" [acct; id]) id).
  { intros id Hc Ha.
    pose proof (applySCP_applied w h sess mgmt acct assume config id Hc Ha) as Hrun.
    rewrite E in Hrun. apply pair_equal_spec in Hrun as [-> ->].
    split; [reflexivity |]. split; [reflexivity |].
    rewrite Sprintf_scp_applied. split.
    - apply (Contains_intro "SCP applied to account " acct).
    - apply (Contains_append_l "SCP applied to account "), Contains_append_l,
        (Contains_append_l " with policy ID "), Contains_refl. }
  pose proof (applySCP_run w h sess mgmt acct assume config) as R.
  rewrite E in R. simpl in R.
  destruct R as [cause | out Hout | id cause | | id].
  - split; [eexists _, _; repeat split; cbn; lia |].
    split; [intros [|b [|b' before]] svc input r later H; discriminate |].
    split; [intros svc input cause' [H | []]; discriminate |].
    split; [intros message H; discriminate |].
    split; [exact Hreturns |].
    intros svc input id' [H | []] _. discriminate.
  - split; [eexists _, _; repeat split; cbn; lia |].
    split; [intros [|b [|b' before]] svc input r later H; discriminate |].
    split; [intros svc input cause' [H | []]; discriminate |].
    split; [intros message H; discriminate |].
    split; [exact Hreturns |].
    intros svc input id' [H | []] _. discriminate.
  - split; [eexists _, _; repeat split; cbn; lia |].
    split.
    { intros [|b [|b' before]] svc input r later H; try discriminate.
      - injection H as <- <- <- <- <-. now exists id.
      - injection H as _ _ H. now destruct before. }
    split.
    { intros svc input cause' [H | [H | []]]; [discriminate |].
      injection H as <- <- <-.
      eexists _, _. split; [now exists acct, cause |]. now split. }
    split; [intros message H; discriminate |].
    split; [exact Hreturns |].
    intros svc input id' [H | [H | []]] _; discriminate.
  - split; [eexists _, _; repeat split; cbn; lia |].
    split.
    { intros [|b [|b' before]] svc input r later H; try discriminate.
      - injection H as <- <- <- <- <-. now exists None.
      - injection H as _ _ H. now destruct before. }
    split; [intros svc input cause' [H | [H | []]]; discriminate |].
    split; [intros message H; discriminate |].
    split; [exact Hreturns |].
    intros svc input id' [H | [H | []]] Hid; [discriminate |].
    injection H as _ <-. discriminate.
  - split; [eexists _, _; repeat split; cbn; lia |].
    split.
    { intros [|b [|b' before]] svc input r later H; try discriminate.
      - injection H as <- <- <- <- <-. now exists (Some id).
      - injection H as _ _ H. now destruct before. }
    split; [intros svc input cause' [H | [H | []]]; discriminate |].
    split.
    { intros message H. injection H as <-.
      exists id. split; [reflexivity |].
      rewrite Sprintf_scp_applied. split.
      + apply (Contains_intro "SCP applied to account " acct).
      + apply (Contains_append_l "SCP applied to account "), Contains_append_l,
          (Contains_append_l " with policy ID "), Contains_refl. }
    split; [exact Hreturns |].
    intros svc input id' [H | [H | []]] Hid; [discriminate |].
    injection H as _ <-. injection Hid as <-. reflexivity.
Qed.

Lemma applySCP_create_then_attach_witness :
  (exists (e : error) (created : CreatePolicyOutput),
      PolicyAttachError e /\
      fst (applySCP sampleSession "999999999999" "123456789012" "KillSwitchRole"
             (Some sampleConfig) attachRefused [])
      = Returned ("", Some e) /\
      snd (applySCP sampleSession "999999999999" "123456789012" "KillSwitchRole"
             (Some sampleConfig) attachRefused [])
      = [EvCreatePolicy sampleOrgClient (scpInput sampleConfig) (Ok created);
         EvAttachPolicy sampleOrgClient
           {| api_PolicyId := Some "p-examplepolicy";
              api_TargetId := Some "123456789012" |} (Err "AccessDenied")])
  /\
  (fst (applySCP sampleSession "999999999999" "123456789012" "KillSwitchRole"
          (Some sampleConfig) calmWorld [])
   = Returned (Sprintf "SCP applied to account %s with policy ID %s"
                 ["123456789012"; "p-examplepolicy"], None) /\
   snd (applySCP sampleSession "999999999999" "123456789012" "KillSwitchRole"
          (Some sampleConfig) calmWorld [])
   = [EvCreatePolicy sampleOrgClient (scpInput sampleConfig) (Ok sampleCreated);
      EvAttachPolicy sampleOrgClient
        {| api_PolicyId := Some "p-examplepolicy";
           api_TargetId := Some "123456789012" |} (Ok tt)] /\
   Contains (Sprintf "SCP applied to account %s with policy ID %s"
               ["123456789012"; "p-examplepolicy"]) "p-examplepolicy").
Proof.
  split.
  - destruct (applySCP_create_then_attach attachRefused [] sampleSession
                "999999999999" "123456789012" "KillSwitchRole" sampleConfig _ _
                (surjective_pairing _)) as (_ & _ & H & _).
    apply (H sampleOrgClient
             {| api_PolicyId := Some "p-examplepolicy";
                api_TargetId := Some "123456789012" |} "AccessDenied").
    right; left; reflexivity.
  - destruct (applySCP_create_then_attach calmWorld [] sampleSession
                "999999999999" "123456789012" "KillSwitchRole" sampleConfig _ _
                (surjective_pairing _)) as (_ & _ & _ & _ & H & _).
    destruct (H "p-examplepolicy" eq_refl eq_refl) as (Ho & Ht & _ & Hid).
    split; [exact Ho |]. split; [exact Ht | exact Hid].
Defined.

(** ** Cleanup and deletion *)

(** The fixed words of the message for detach_policies say nothing of a
    deletion: the message speaks of one only if the role name or the
    account identifier does. *)
Lemma detached_message_no_deletion (role acct : string) :
  ~ Contains role "delet" -> ~ Contains acct "delet" ->
  ~ Contains (Sprintf "Policies detached from role %s in account %s" [role; acct]) "delet".
Proof.
  intros Hr Ha H. rewrite Sprintf_detached in H.
  change ("Policies detached from role " ++ role ++ " in account " ++ acct)%string
    with ("Policies detached from role"
          ++ String " " (role ++ String " " ("in account" ++ String " " acct)))%string in H.
  apply (Contains_across " ") in H; [| reflexivity].
  destruct H as [H | H].
  { apply containsb_true in H. discriminate. }
  apply (Contains_across " ") in H; [| reflexivity].
  destruct H as [H | H]; [now apply Hr |].
  apply (Contains_across " ") in H; [| reflexivity].
  destruct H as [H | H]; [| now apply Ha].
  apply containsb_true in H. discriminate.
Qed.

Lemma deleted_message_says_both (role acct : string) :
  Contains (Sprintf "Role %s and its policies are detached and deleted in account %s"
              [role; acct]) acct /\
  Contains (Sprintf "Role %s and its policies are detached and deleted in account %s"
              [role; acct]) "detached" /\
  Contains (Sprintf "Role %s and its policies are detached and deleted in account %s"
              [role; acct]) "deleted".
Proof.
  rewrite Sprintf_deleted. repeat split;
    apply (Contains_append_l "Role "), Contains_append_l.
  - apply Contains_append_l, Contains_refl.
  - apply (Contains_intro " and its policies are " "detached"
             (" and deleted in account " ++ acct)).
  - apply (Contains_intro " and its policies are detached and " "deleted"
             (" in account " ++ acct)).
Qed.

Ltac enter_manageRole svc role :=
  unfold manageRole, svc_ListAttachedRolePolicies, svc_ListRolePolicies, svc_DeleteRole;
  change (iam_New _ (stscreds_NewCredentials _ _)) with svc;
  change {| ri_RoleName := aws_String role |} with (roleInput role).

(** [manageRole] in two phases.  The cleanup does not look at the action:
    either it stops early, with a reply that is no success and the same
    for every action, or it goes through, and then the run for
    delete_role goes on to delete the role where the run for any other
    action returns. *)
Lemma manageRole_two_phases (w : World) (h : list Event) (sess : Session)
    (acct assume role : string) :
  (exists o t,
      (forall action, manageRole sess action acct assume role w h = (o, t)) /\
      (forall message, o <> Returned (message, None)))
  \/
  (exists attached inline r,
      manageRole sess DeleteRole acct assume role w h
      = (match r with
         | Ok _ =>
             Returned
               (Sprintf "Role %s and its policies are detached and deleted in account %s"
                  [role; acct], None)
         | Err cause =>
             Returned ("", Some (Errorf "error deleting role %s in account %s: %v"
                                   [role; acct; cause]))
         end,
         cleanupTrace (clientFor sess acct assume) role attached inline
         ++ [EvDeleteRole (clientFor sess acct assume) (roleInput role) r]) /\
      forall action,
        action <> DeleteRole ->
        manageRole sess action acct assume role w h
        = (Returned (Sprintf "Policies detached from role %s in account %s" [role; acct],
                     None),
           cleanupTrace (clientFor sess acct assume) role attached inline)).
Proof.
  set (svc := clientFor sess acct assume).
  destruct (iam_ListAttachedRolePolicies w h svc (roleInput role)) as [[ps]|cause] eqn:El.
  2: { left. eexists _, _. split.
       - intros action. enter_manageRole svc role.
         rewrite bind_call, El. reflexivity.
       - discriminate. }
  destruct (detachEach_run svc acct role ps w
              (h ++ [EvListAttachedRolePolicies svc (roleInput role)
                       (Ok {| AttachedPolicies := ps |})]))
    as [(qs & -> & E) | [(qs & q & rest & cause & -> & E) | (qs & rest & -> & E)]].
  2: { left.
       exists (match PolicyArn q with
               | Some arn =>
                   Returned ("", Some (Errorf
                     "error detaching policy %s from role %s in account %s: %v"
                     [arn; role; acct; cause]))
               | None => Panicked
               end).
       eexists. split.
       - intros action. enter_manageRole svc role.
         rewrite bind_call, El. cbn [fst snd AttachedPolicies].
         destruct (PolicyArn q) eqn:Eq.
         + rewrite (bind_Returned _ _ w _ _ _ E). cbn. rewrite app_nil_r. reflexivity.
         + rewrite (bind_Panicked _ _ w _ _ E). reflexivity.
       - intros message. destruct (PolicyArn q); discriminate. }
  2: { left. eexists _, _. split.
       - intros action. enter_manageRole svc role.
         rewrite bind_call, El. cbn [fst snd AttachedPolicies].
         rewrite (bind_Panicked _ _ w _ _ E). reflexivity.
       - discriminate. }
  destruct (iam_ListRolePolicies w
              ((h ++ [EvListAttachedRolePolicies svc (roleInput role)
                        (Ok {| AttachedPolicies := map Some qs |})])
               ++ map (detachEvent svc role (Ok tt)) qs) svc (roleInput role))
    as [[names]|cause] eqn:Ei.
  2: { left. eexists _, _. split.
       - intros action. enter_manageRole svc role.
         rewrite bind_call, El. cbn [fst snd AttachedPolicies].
         rewrite (bind_Returned _ _ w _ _ _ E). cbn beta iota.
         rewrite bind_call, Ei. reflexivity.
       - discriminate. }
  destruct (deleteEach_run svc acct role names w
              (((h ++ [EvListAttachedRolePolicies svc (roleInput role)
                         (Ok {| AttachedPolicies := map Some qs |})])
                ++ map (detachEvent svc role (Ok tt)) qs)
               ++ [EvListRolePolicies svc (roleInput role)
                     (Ok {| PolicyNames := names |})]))
    as [D | (pre & n & rest & cause & -> & D)].
  2: { left.
       exists (match n with
               | Some name =>
                   Returned ("", Some (Errorf
                     "error deleting inline policy %s from role %s in account %s: %v"
                     [name; role; acct; cause]))
               | None => Panicked
               end).
       eexists. split.
       - intros action. enter_manageRole svc role.
         rewrite bind_call, El. cbn [fst snd AttachedPolicies].
         rewrite (bind_Returned _ _ w _ _ _ E). cbn beta iota.
         rewrite bind_call, Ei. cbn [fst snd PolicyNames].
         destruct n as [name|].
         + rewrite (bind_Returned _ _ w _ _ _ D). cbn. rewrite app_nil_r. reflexivity.
         + rewrite (bind_Panicked _ _ w _ _ D). reflexivity.
       - intros message. destruct n; discriminate. }
  right. exists qs, names.
  exists (iam_DeleteRole w
            ((((h ++ [EvListAttachedRolePolicies svc (roleInput role)
                        (Ok {| AttachedPolicies := map Some qs |})])
               ++ map (detachEvent svc role (Ok tt)) qs)
              ++ [EvListRolePolicies svc (roleInput role)
                    (Ok {| PolicyNames := names |})])
             ++ map (deleteEvent svc role (Ok tt)) names) svc (roleInput role)).
  split.
  - enter_manageRole svc role.
    rewrite bind_call, El. cbn [fst snd AttachedPolicies].
    rewrite (bind_Returned _ _ w _ _ _ E). cbn beta iota.
    rewrite bind_call, Ei. cbn [fst snd PolicyNames].
    rewrite (bind_Returned _ _ w _ _ _ D). cbn beta iota.
    change (String.eqb DeleteRole DeleteRole) with true. cbv iota.
    rewrite bind_call.
    destruct (iam_DeleteRole w _ svc (roleInput role)) as [[]|cause];
      cbn [fst snd ret]; f_equal; same_trace.
  - intros action Ha. apply String.eqb_neq in Ha. enter_manageRole svc role.
    rewrite bind_call, El. cbn [fst snd AttachedPolicies].
    rewrite (bind_Returned _ _ w _ _ _ E). cbn beta iota.
    rewrite bind_call, Ei. cbn [fst snd PolicyNames].
    rewrite (bind_Returned _ _ w _ _ _ D). cbn beta iota.
    rewrite Ha. cbn [fst snd ret]. f_equal; same_trace.
Qed.

(** C5: in a run of [manageRole] for detach_policies in which no call
    fails, on a role whose listing of attached policies has N entries (none
    nil) and whose listing of inline policies has M, the calls are the two
    listings, N detach calls and M delete calls of inline policies, in this
    order; the role is not deleted; and the message returned is the one
    for detachment, whose fixed words say nothing of a deletion. *)
Theorem manageRole_detach_policies (w : World) (h : list Event) (sess : Session)
    (acct assume role : string) (o : Outcome Reply) (t : list Event) :
  manageRole sess DetachPolicies acct assume role w h = (o, t) ->
  Forall (fun e => eventFailed e = false) t ->
  Forall (fun e => ~ In None (listedPolicies e)) t ->
  exists (attached : list AttachedPolicy) (inline : list (option string)),
    t = cleanupTrace (clientFor sess acct assume) role attached inline /\
    count isDetachRolePolicy t = length attached /\
    count isDeleteRolePolicy t = length inline /\
    count isDeleteRole t = 0 /\
    o = Returned (Sprintf "Policies detached from role %s in account %s" [role; acct],
                  None) /\
    (forall role' acct',
        Sprintf "Policies detached from role %s in account %s" [role; acct]
        <> Sprintf "Role %s and its policies are detached and deleted in account %s"
             [role'; acct']) /\
    (~ Contains role "delet" -> ~ Contains acct "delet" ->
     ~ Contains (Sprintf "Policies detached from role %s in account %s" [role; acct])
         "delet").
Proof.
  intros E Hok Hnil.
  pose proof (manageRole_run w h sess DetachPolicies acct assume role) as R.
  rewrite E in R. simpl in R.
  destruct (ManageRoleRun_succeeded _ _ _ _ _ _ R Hok Hnil)
    as (attached & inline & [(Ha & _) | (_ & -> & ->)]); [discriminate |].
  exists attached, inline.
  destruct (cleanupTrace_counts (clientFor sess acct assume) role attached inline)
    as (Hd & Hi & Hr & _).
  repeat (split; [assumption || reflexivity |]).
  split.
  - intros role' acct'. rewrite Sprintf_detached, Sprintf_deleted. discriminate.
  - apply detached_message_no_deletion.
Qed.

Lemma manageRole_detach_policies_witness :
  exists (attached : list AttachedPolicy) (inline : list (option string)),
    snd (manageRole sampleSession DetachPolicies "123456789012" "KillSwitchRole"
           "CompromisedRole" calmWorld [])
    = cleanupTrace sampleClient "CompromisedRole" attached inline /\
    length attached = 3 /\ length inline = 2 /\
    count isDetachRolePolicy
      (snd (manageRole sampleSession DetachPolicies "123456789012" "KillSwitchRole"
              "CompromisedRole" calmWorld [])) = 3 /\
    count isDeleteRole
      (snd (manageRole sampleSession DetachPolicies "123456789012" "KillSwitchRole"
              "CompromisedRole" calmWorld [])) = 0.
Proof.
  destruct (manageRole_detach_policies calmWorld [] sampleSession
              "123456789012" "KillSwitchRole" "CompromisedRole" _ _
              (surjective_pairing _))
    as (attached & inline & Ht & Hd & Hi & Hr & _).
  - repeat constructor.
  - repeat constructor; simpl; intuition discriminate.
  - exists attached, inline. split; [exact Ht |].
    rewrite Hd in *.
    assert (Hn : length attached = 3) by (rewrite <- Hd; reflexivity).
    assert (Hm : length inline = 2) by (rewrite <- Hi; reflexivity).
    now repeat split.
Defined.

(** C6: in a run of [manageRole] for delete_role in which no call fails,
    on the same role, the calls are those of the run for detach_policies in
    the same world (the two listings, N detach calls, M delete calls of
    inline policies, all successful) followed by one call that deletes the
    role; and the message returned holds the target account and says both
    "detached" and "deleted". *)
Theorem manageRole_delete_role (w : World) (h : list Event) (sess : Session)
    (acct assume role : string) (o : Outcome Reply) (t : list Event) :
  manageRole sess DeleteRole acct assume role w h = (o, t) ->
  Forall (fun e => eventFailed e = false) t ->
  Forall (fun e => ~ In None (listedPolicies e)) t ->
  exists (attached : list AttachedPolicy) (inline : list (option string)),
    t = cleanupTrace (clientFor sess acct assume) role attached inline
        ++ [EvDeleteRole (clientFor sess acct assume) (roleInput role) (Ok tt)] /\
    snd (manageRole sess DetachPolicies acct assume role w h)
    = cleanupTrace (clientFor sess acct assume) role attached inline /\
    Forall (fun e => eventFailed e = false)
      (cleanupTrace (clientFor sess acct assume) role attached inline) /\
    length (cleanupTrace (clientFor sess acct assume) role attached inline)
    = 2 + length attached + length inline /\
    count isDetachRolePolicy t = length attached /\
    count isDeleteRolePolicy t = length inline /\
    count isDeleteRole t = 1 /\
    o = Returned
          (Sprintf "Role %s and its policies are detached and deleted in account %s"
             [role; acct], None) /\
    Contains (Sprintf "Role %s and its policies are detached and deleted in account %s"
                [role; acct]) acct /\
    Contains (Sprintf "Role %s and its policies are detached and deleted in account %s"
                [role; acct]) "detached" /\
    Contains (Sprintf "Role %s and its policies are detached and deleted in account %s"
                [role; acct]) "deleted".
Proof.
  intros E Hok Hnil.
  pose proof (manageRole_run w h sess DeleteRole acct assume role) as R.
  rewrite E in R. simpl in R.
  destruct (ManageRoleRun_succeeded _ _ _ _ _ _ R Hok Hnil)
    as (attached0 & inline0 & [(_ & _ & Ho) | (Ha & _)]); [| now elim Ha].
  destruct (manageRole_two_phases w h sess acct assume role)
    as [(o' & t' & Hall & Hno) | (attached & inline & r & Hdel & Hdet)].
  { specialize (Hall DeleteRole). rewrite E in Hall. injection Hall as <- <-.
    now elim (Hno _ Ho). }
  rewrite E in Hdel.
  assert (Ht : t = cleanupTrace (clientFor sess acct assume) role attached inline
                   ++ [EvDeleteRole (clientFor sess acct assume) (roleInput role) r])
    by congruence.
  clear Hdel.
  assert (Hr : r = Ok tt).
  { rewrite Ht in Hok. unfold cleanupTrace in Hok. split_Forall Hok.
    destruct r as [[]|]; [reflexivity | decompose [and] Hok; discriminate]. }
  subst r t.
  exists attached, inline.
  destruct (cleanupTrace_counts (clientFor sess acct assume) role attached inline)
    as (Hd & Hi & Hr & _ & _ & Hlen).
  split; [reflexivity |].
  split; [now rewrite (Hdet DetachPolicies) by discriminate |].
  split; [apply cleanupTrace_succeeded |].
  split; [exact Hlen |].
  split; [rewrite count_app, Hd; unfold count; simpl; lia |].
  split; [rewrite count_app, Hi; unfold count; simpl; lia |].
  split; [rewrite count_app, Hr; reflexivity |].
  split; [exact Ho |].
  apply deleted_message_says_both.
Qed.

Lemma manageRole_delete_role_witness :
  exists (attached : list AttachedPolicy) (inline : list (option string)),
    snd (manageRole sampleSession DeleteRole "123456789012" "KillSwitchRole"
           "CompromisedRole" calmWorld [])
    = cleanupTrace sampleClient "CompromisedRole" attached inline
      ++ [EvDeleteRole sampleClient (roleInput "CompromisedRole") (Ok tt)] /\
    count isDeleteRole
      (snd (manageRole sampleSession DeleteRole "123456789012" "KillSwitchRole"
              "CompromisedRole" calmWorld [])) = 1.
Proof.
  destruct (manageRole_delete_role calmWorld [] sampleSession
              "123456789012" "KillSwitchRole" "CompromisedRole" _ _
              (surjective_pairing _))
    as (attached & inline & Ht & _ & _ & _ & _ & _ & Hr & _).
  - repeat constructor.
  - repeat constructor; simpl; intuition discriminate.
  - exists attached, inline. split; [exact Ht | exact Hr].
Defined.

(** ** Session, credentials and replies of [HandleRequest] *)

(** Every call to AWS in a run of [HandleRequest] goes through the client
    of the request. *)
Lemma HandleRequest_clients (w : World) (h : list Event) (request : Request)
    (e : Event) (svc : Client) :
  In e (snd (HandleRequest request w h)) ->
  clientOf e = Some svc ->
  svc = clientOfRequest request.
Proof.
  intros Hin Hc.
  destruct (HandleRequest_cases w h request)
    as [(x & _ & E) | [(file & cause & _ & _ & _ & _ & E)
       | [(file & config & o & t & _ & _ & _ & _ & R & E)
       | (o & t & _ & _ & _ & _ & R & E)]]];
    rewrite E in Hin; simpl in Hin.
  - contradiction.
  - destruct Hin as [<- | []]. discriminate.
  - destruct Hin as [<- | Hin]; [discriminate |].
    apply ApplySCPRun_clients in R as [R _]. rewrite Forall_forall in R.
    specialize (R _ Hin). congruence.
  - apply ManageRoleRun_clients in R as [R _]. rewrite Forall_forall in R.
    specialize (R _ Hin). congruence.
Qed.

(** A request for an action on a role that passes the checks starts by
    listing the attached policies of the role, through the client of the
    request. *)
Lemma HandleRequest_role_first_call (w : World) (h : list Event) (request : Request) :
  TargetAccountID request <> "" ->
  RoleToAssume request <> "" ->
  Action_ request = DetachPolicies \/ Action_ request = DeleteRole ->
  TargetRoleName request <> "" ->
  exists r rest,
    snd (HandleRequest request w h)
    = EvListAttachedRolePolicies (clientOfRequest request)
        (roleInput (TargetRoleName request)) r :: rest.
Proof.
  intros Ht Hr Ha Hn.
  destruct (HandleRequest_cases w h request)
    as [(x & Hx & E) | [(file & cause & _ & _ & Ha' & _)
       | [(file & config & o & t & _ & _ & Ha' & _)
       | (o & t & _ & _ & _ & _ & R & E)]]].
  - exfalso. revert E. rewrite (HandleRequest_manage_role w h request Ht Hr Ha Hn).
    intros E.
    pose proof (manageRole_run w h (session_NewSession (Some (sessionRegion request)))
                  (Action_ request) (TargetAccountID request) (RoleToAssume request)
                  (TargetRoleName request)) as R.
    rewrite E in R. apply ManageRoleRun_clients in R as [_ (r & rest & R)].
    discriminate.
  - destruct Ha as [Ha | Ha]; rewrite Ha in Ha'; discriminate.
  - destruct Ha as [Ha | Ha]; rewrite Ha in Ha'; discriminate.
  - rewrite E. apply ManageRoleRun_clients in R as [_ R]. exact R.
Qed.

(** A request for apply_scp that passes the checks and finds its
    configuration goes on to create the policy, through the client of the
    request. *)
Lemma HandleRequest_scp_first_call (w : World) (h : list Event) (request : Request)
    (bytes : string) (config : Config) :
  TargetAccountID request <> "" ->
  RoleToAssume request <> "" ->
  Action_ request = ApplySCP ->
  OrgManagementAccountID request <> "" ->
  os_ReadFile w h "switch.conf" = Ok bytes ->
  json_Unmarshal w bytes = Ok config ->
  exists r rest,
    snd (HandleRequest request w h)
    = EvReadFile "switch.conf" (Ok bytes)
      :: EvCreatePolicy (clientOfRequest request) (scpInput config) r :: rest.
Proof.
  intros Ht Hr Ha Ho Hf Hj.
  rewrite (HandleRequest_apply_scp w h request Ht Hr Ha Ho).
  rewrite (bind_Returned _ _ w h _ _ (loadConfig_eq w h "switch.conf")).
  rewrite Hf, Hj. cbn [snd fst app].
  pose proof (applySCP_run w (h ++ [EvReadFile "switch.conf" (Ok bytes)])
                (session_NewSession (Some (sessionRegion request)))
                (OrgManagementAccountID request) (TargetAccountID request)
                (RoleToAssume request) config) as R.
  apply ApplySCPRun_clients in R as [_ (r & rest & R)].
  exists r, rest. apply f_equal. etransitivity; [exact R |].
  unfold clientOfRequest, assumedAccount. rewrite Ha. reflexivity.
Qed.

(** The role identifier of the client of a request. *)
Lemma clientOfRequest_roleARN (request : Request) :
  creds_RoleARN (svc_creds (clientOfRequest request))
  = roleARN "aws" (assumedAccount request) (RoleToAssume request).
Proof. apply Sprintf_roleARN. Qed.

(** C7: the documented default region is us-east-1.  A request without a
    region is run, in every world, exactly as the same request with region
    us-east-1: the missing region is never a reason to fail.  A request
    with a region keeps it.  Every call to AWS is made through a client
    whose session and credentials carry the region so chosen, and a request
    for an action on a role that passes the checks does make such a call. *)
Theorem HandleRequest_default_region (w : World) (h : list Event) (request : Request) :
  DefaultRegion = "us-east-1" /\
  (Region request = "" ->
   sessionRegion request = DefaultRegion /\
   HandleRequest request w h = HandleRequest (with_Region request DefaultRegion) w h) /\
  (Region request <> "" -> sessionRegion request = Region request) /\
  (forall e svc,
      In e (snd (HandleRequest request w h)) ->
      clientOf e = Some svc ->
      sess_Region (svc_sess svc) = Some (sessionRegion request) /\
      sess_Region (creds_sess (svc_creds svc)) = Some (sessionRegion request)) /\
  (TargetAccountID request <> "" ->
   RoleToAssume request <> "" ->
   Action_ request = DetachPolicies \/ Action_ request = DeleteRole ->
   TargetRoleName request <> "" ->
   exists svc input r rest,
     snd (HandleRequest request w h) = EvListAttachedRolePolicies svc input r :: rest /\
     sess_Region (svc_sess svc) = Some (sessionRegion request)).
Proof.
  split; [reflexivity |].
  split.
  { intros Hr. split.
    - unfold sessionRegion. now rewrite Hr.
    - unfold HandleRequest. rewrite Hr. reflexivity. }
  split.
  { intros Hr. unfold sessionRegion. apply String.eqb_neq in Hr. now rewrite Hr. }
  split.
  { intros e svc Hin Hc.
    rewrite (HandleRequest_clients w h request e svc Hin Hc). now split. }
  intros Ht Hr Ha Hn.
  destruct (HandleRequest_role_first_call w h request Ht Hr Ha Hn) as (r & rest & E).
  exists (clientOfRequest request), (roleInput (TargetRoleName request)), r, rest.
  now split.
Qed.

Lemma HandleRequest_default_region_witness :
  sessionRegion (sampleRequest DeleteRole) = "us-east-1" /\
  HandleRequest (sampleRequest DeleteRole) calmWorld []
  = HandleRequest (with_Region (sampleRequest DeleteRole) "us-east-1") calmWorld [].
Proof.
  destruct (HandleRequest_default_region calmWorld [] (sampleRequest DeleteRole))
    as (_ & H & _).
  apply H. reflexivity.
Defined.

(** C8: every call to AWS in a run of [HandleRequest] is made with
    credentials for the role [arn:aws:iam::<account>:role/<role>], where
    the role is the role to assume of the request and the account is the
    organization management account for apply_scp and the target account
    for detach_policies and delete_role.  Each executor builds this
    identifier from the account it is handed and makes its first call with
    it, and so does a request that passes the checks: apply_scp with the
    management account, the actions on a role with the target account. *)
Theorem HandleRequest_assumed_role (w : World) (h : list Event) (request : Request) :
  (forall e svc,
      In e (snd (HandleRequest request w h)) ->
      clientOf e = Some svc ->
      creds_RoleARN (svc_creds svc)
      = roleARN "aws" (assumedAccount request) (RoleToAssume request)) /\
  (Action_ request = ApplySCP ->
   assumedAccount request = OrgManagementAccountID request) /\
  (Action_ request = DetachPolicies \/ Action_ request = DeleteRole ->
   assumedAccount request = TargetAccountID request) /\
  (forall sess mgmt acct assume config,
      exists svc r rest,
        snd (applySCP sess mgmt acct assume (Some config) w h)
        = EvCreatePolicy svc (scpInput config) r :: rest /\
        creds_RoleARN (svc_creds svc) = roleARN "aws" mgmt assume) /\
  (forall sess action acct assume role,
      exists svc r rest,
        snd (manageRole sess action acct assume role w h)
        = EvListAttachedRolePolicies svc (roleInput role) r :: rest /\
        creds_RoleARN (svc_creds svc) = roleARN "aws" acct assume) /\
  (TargetAccountID request <> "" ->
   RoleToAssume request <> "" ->
   Action_ request = ApplySCP ->
   OrgManagementAccountID request <> "" ->
   forall bytes config,
     os_ReadFile w h "switch.conf" = Ok bytes ->
     json_Unmarshal w bytes = Ok config ->
     exists svc r rest,
       snd (HandleRequest request w h)
       = EvReadFile "switch.conf" (Ok bytes)
         :: EvCreatePolicy svc (scpInput config) r :: rest /\
       creds_RoleARN (svc_creds svc)
       = roleARN "aws" (OrgManagementAccountID request) (RoleToAssume request)) /\
  (TargetAccountID request <> "" ->
   RoleToAssume request <> "" ->
   Action_ request = DetachPolicies \/ Action_ request = DeleteRole ->
   TargetRoleName request <> "" ->
   exists svc r rest,
     snd (HandleRequest request w h)
     = EvListAttachedRolePolicies svc (roleInput (TargetRoleName request)) r :: rest /\
     creds_RoleARN (svc_creds svc)
     = roleARN "aws" (TargetAccountID request) (RoleToAssume request)).
Proof.
  split.
  { intros e svc Hin Hc.
    rewrite (HandleRequest_clients w h request e svc Hin Hc).
    apply clientOfRequest_roleARN. }
  split.
  { intros Ha. unfold assumedAccount. now rewrite Ha. }
  split.
  { intros [Ha | Ha]; unfold assumedAccount; now rewrite Ha. }
  split.
  { intros sess mgmt acct assume config.
    pose proof (applySCP_run w h sess mgmt acct assume config) as R.
    apply ApplySCPRun_clients in R as [_ (r & rest & R)].
    exists (clientFor sess mgmt assume), r, rest.
    split; [exact R | apply Sprintf_roleARN]. }
  split.
  { intros sess action acct assume role.
    pose proof (manageRole_run w h sess action acct assume role) as R.
    apply ManageRoleRun_clients in R as [_ (r & rest & R)].
    exists (clientFor sess acct assume), r, rest.
    split; [exact R | apply Sprintf_roleARN]. }
  split.
  - intros Ht Hr Ha Ho bytes config Hf Hj.
    destruct (HandleRequest_scp_first_call w h request bytes config Ht Hr Ha Ho Hf Hj)
      as (r & rest & E).
    exists (clientOfRequest request), r, rest. split; [exact E |].
    rewrite clientOfRequest_roleARN. unfold assumedAccount. now rewrite Ha.
  - intros Ht Hr Ha Hn.
    destruct (HandleRequest_role_first_call w h request Ht Hr Ha Hn) as (r & rest & E).
    exists (clientOfRequest request), r, rest. split; [exact E |].
    rewrite clientOfRequest_roleARN. unfold assumedAccount.
    destruct Ha as [Ha | Ha]; now rewrite Ha.
Qed.

Lemma HandleRequest_assumed_role_witness :
  creds_RoleARN (svc_creds sampleOrgClient)
  = "arn:aws:iam::999999999999:role/KillSwitchRole" /\
  In (EvCreatePolicy sampleOrgClient (scpInput sampleConfig) (Ok sampleCreated))
    (snd (HandleRequest (sampleRequest ApplySCP) calmWorld [])).
Proof.
  split.
  - destruct (HandleRequest_assumed_role calmWorld [] (sampleRequest ApplySCP))
      as (H & _).
    apply (H (EvCreatePolicy sampleOrgClient (scpInput sampleConfig) (Ok sampleCreated))).
    + right; left; reflexivity.
    + reflexivity.
  - right; left; reflexivity.
Defined.

(** C10: a reply of [HandleRequest] is a message or an error, never both
    and never neither: with an error the message is empty, without one it
    is not.  And [HandleRequest] does reply, whatever the request and the
    world, as long as no answer it got had a nil pointer where the program
    reads one. *)
Theorem HandleRequest_exactly_one (w : World) (h : list Event) (request : Request) :
  (forall message err,
      fst (HandleRequest request w h) = Returned (message, Some err) -> message = "") /\
  (forall message,
      fst (HandleRequest request w h) = Returned (message, None) -> message <> "") /\
  (forallb answerComplete (snd (HandleRequest request w h)) = true ->
   exists reply, fst (HandleRequest request w h) = Returned reply).
Proof.
  assert (H : (forall reply, fst (HandleRequest request w h) = Returned reply ->
                             exactlyOne reply) /\
              (forallb answerComplete (snd (HandleRequest request w h)) = true ->
               exists reply, fst (HandleRequest request w h) = Returned reply)).
  { destruct (HandleRequest_cases w h request)
      as [(x & _ & E) | [(file & cause & _ & _ & _ & _ & E)
         | [(file & config & o & t & _ & _ & _ & _ & R & E)
         | (o & t & _ & _ & _ & _ & R & E)]]];
      rewrite E; simpl fst; simpl snd.
    - split; [intros reply [= <-]; reflexivity | eexists; reflexivity].
    - split; [intros reply [= <-]; reflexivity | eexists; reflexivity].
    - split.
      + intros reply Ho. exact (ApplySCPRun_reply _ _ _ _ _ _ R Ho).
      + intros Hc. exact (ApplySCPRun_returns _ _ _ _ _ R Hc).
    - split.
      + intros reply Ho. exact (ManageRoleRun_reply _ _ _ _ _ _ _ R Ho).
      + intros Hc. exact (ManageRoleRun_returns _ _ _ _ _ _ R Hc). }
  destruct H as [H1 H2].
  split; [| split; [| exact H2]].
  - intros message err E. exact (H1 _ E).
  - intros message E. exact (H1 _ E).
Qed.

Lemma HandleRequest_exactly_one_witness :
  exists reply,
    fst (HandleRequest (sampleRequest ApplySCP) calmWorld []) = Returned reply /\
    snd reply = None /\ fst reply <> "".
Proof.
  destruct (HandleRequest_exactly_one calmWorld [] (sampleRequest ApplySCP))
    as (_ & Hmsg & Hret).
  destruct (Hret eq_refl) as ([message [err|]] & E).
  - discriminate E.
  - exists (message, None). repeat split; [exact E | exact (Hmsg _ E)].
Defined.

(** * Further properties *)

(** ** The checks and the configuration *)

(** X1: a request for detach_policies or delete_role with both required
    fields and no role name is refused with the validation error of that
    branch, before any call. *)
Theorem HandleRequest_role_name_required (w : World) (h : list Event)
    (request : Request) :
  TargetAccountID request <> "" ->
  RoleToAssume request <> "" ->
  Action_ request = DetachPolicies \/ Action_ request = DeleteRole ->
  TargetRoleName request = "" ->
  ValidationError
    (errors_New "targetRoleName is required for delete_role and detach_policies actions") /\
  HandleRequest request w h
  = (Returned ("", Some (errors_New
       "targetRoleName is required for delete_role and detach_policies actions")), []).
Proof.
  intros Ht Hr Ha Hn. split; [right; now right |].
  unfold HandleRequest. string_tests. simpl.
  destruct (String.eqb (Region request) ""); simpl;
    destruct Ha as [Ha | Ha]; rewrite Ha; simpl; rewrite Hn; reflexivity.
Qed.

Lemma HandleRequest_role_name_required_witness :
  HandleRequest noRoleRequest calmWorld []
  = (Returned ("", Some (errors_New
       "targetRoleName is required for delete_role and detach_policies actions")), []).
Proof.
  apply (HandleRequest_role_name_required calmWorld [] noRoleRequest);
    [discriminate | discriminate | right; reflexivity | reflexivity].
Defined.

(** X2: [loadConfig] reads the named file once and makes no other call;
    it never panics; it hands back a configuration exactly when it hands
    back no error; an error of the read or of the decoder is handed back
    as it is, and the decoder is given the bytes that were read. *)
Theorem loadConfig_result (w : World) (h : list Event) (filename : string) :
  exists (config : option Config) (err : option error),
    loadConfig filename w h
    = (Returned (config, err), [EvReadFile filename (os_ReadFile w h filename)]) /\
    (config = None <-> err <> None) /\
    (forall cause, os_ReadFile w h filename = Err cause -> err = Some cause) /\
    (forall bytes,
        os_ReadFile w h filename = Ok bytes ->
        match json_Unmarshal w bytes with
        | Ok decoded => config = Some decoded /\ err = None
        | Err cause => config = None /\ err = Some cause
        end).
Proof.
  rewrite loadConfig_eq.
  destruct (os_ReadFile w h filename) as [bytes | cause].
  - destruct (json_Unmarshal w bytes) as [decoded | cause] eqn:Ej.
    + exists (Some decoded), None. split; [reflexivity |].
      split; [split; [discriminate | intros H; now elim H] |].
      split; [discriminate |].
      intros bytes' [= <-]. now rewrite Ej.
    + exists None, (Some cause). split; [reflexivity |].
      split; [split; [discriminate | reflexivity] |].
      split; [discriminate |].
      intros bytes' [= <-]. now rewrite Ej.
  - exists None, (Some cause). split; [reflexivity |].
    split; [split; [discriminate | reflexivity] |].
    split; [intros cause' [= <-]; reflexivity | discriminate].
Qed.

Lemma loadConfig_result_witness :
  loadConfig "switch.conf" badConfigWorld []
  = (Returned (None, Some "invalid character 'o' in literal null"),
     [EvReadFile "switch.conf" (Ok "not json")]).
Proof.
  destruct (loadConfig_result badConfigWorld [] "switch.conf")
    as (config & err & E & _ & _ & H).
  specialize (H "not json" eq_refl). simpl in H. destruct H as [-> ->].
  exact E.
Defined.

(** ** Failures of the containment executor *)

(** X3: when the policy cannot be created, [applySCP] returns the creation
    error with the cause in it, and the create call is its only call: no
    attach is tried. *)
Theorem applySCP_create_failure (w : World) (h : list Event) (sess : Session)
    (mgmt acct assume : string) (config : Config) (cause : error) :
  organizations_CreatePolicy w h (clientFor sess mgmt assume) (scpInput config)
  = Err cause ->
  applySCP sess mgmt acct assume (Some config) w h
  = (Returned ("", Some (Errorf "error creating SCP: %v" [cause])),
     [EvCreatePolicy (clientFor sess mgmt assume) (scpInput config) (Err cause)]) /\
  Contains (Errorf "error creating SCP: %v" [cause]) cause.
Proof.
  intros Hc. split.
  - unfold applySCP, svc_CreatePolicy.
    change (organizations_New sess (stscreds_NewCredentials sess
              (Sprintf "arn:aws:iam::%s:role/%s" [mgmt; assume])))
      with (clientFor sess mgmt assume).
    simpl deref. rewrite bind_ret.
    change {| cpi_Content := _; cpi_Description := _; cpi_Name := _; cpi_Type := _ |}
      with (scpInput config).
    rewrite bind_call, Hc. reflexivity.
  - unfold Errorf. simpl.
    apply (Contains_append_l "error creating SCP: "). rewrite append_empty_r.
    apply Contains_refl.
Qed.

Lemma applySCP_create_failure_witness :
  applySCP sampleSession "999999999999" "123456789012" "KillSwitchRole"
    (Some sampleConfig) createRefused []
  = (Returned ("", Some (Errorf "error creating SCP: %v" ["MalformedPolicyDocument"])),
     [EvCreatePolicy sampleOrgClient (scpInput sampleConfig)
        (Err "MalformedPolicyDocument")]).
Proof.
  apply (applySCP_create_failure createRefused [] sampleSession "999999999999"
           "123456789012" "KillSwitchRole" sampleConfig "MalformedPolicyDocument").
  reflexivity.
Defined.

(** ** Failures of the role executor *)

(** Membership in a trace built of single events and of the events of a
    successful detach or delete loop. *)
Ltac find_event H :=
  unfold cleanupTrace in H;
  repeat (simpl in H; rewrite ?in_app_iff in H);
  repeat match goal with
  | H' : _ \/ _ |- _ => destruct H'
  | H' : In _ (map _ _) |- _ => apply in_map_iff in H' as (? & ? & _)
  | H' : False |- _ => contradiction
  end;
  try discriminate.

(** X4: when the attached policies of the role cannot be listed,
    [manageRole] returns the listing error with role, account and cause in
    it, whatever the action, and the listing is its only call. *)
Theorem manageRole_listing_failure (w : World) (h : list Event) (sess : Session)
    (action : Action) (acct assume role : string) (cause : error) :
  iam_ListAttachedRolePolicies w h (clientFor sess acct assume) (roleInput role)
  = Err cause ->
  manageRole sess action acct assume role w h
  = (Returned ("", Some (Errorf
       "error listing attached policies for role %s in account %s: %v"
       [role; acct; cause])),
     [EvListAttachedRolePolicies (clientFor sess acct assume) (roleInput role)
        (Err cause)]).
Proof.
  intros Hl. unfold manageRole, svc_ListAttachedRolePolicies.
  change (iam_New sess (stscreds_NewCredentials sess
            (Sprintf "arn:aws:iam::%s:role/%s" [acct; assume])))
    with (clientFor sess acct assume).
  change {| ri_RoleName := aws_String role |} with (roleInput role).
  rewrite bind_call, Hl. reflexivity.
Qed.

Lemma manageRole_listing_failure_witness :
  manageRole sampleSession DetachPolicies "123456789012" "KillSwitchRole"
    "CompromisedRole" listingRefused []
  = (Returned ("", Some (Errorf
       "error listing attached policies for role %s in account %s: %v"
       ["CompromisedRole"; "123456789012"; "NoSuchEntity"])),
     [EvListAttachedRolePolicies sampleClient (roleInput "CompromisedRole")
        (Err "NoSuchEntity")]).
Proof.
  apply (manageRole_listing_failure listingRefused [] sampleSession DetachPolicies
           "123456789012" "KillSwitchRole" "CompromisedRole" "NoSuchEntity").
  reflexivity.
Defined.

(** X5: a run of [manageRole] in which the listing of the inline policies
    fails had listed the attached policies and detached every one of them
    before; it deletes no inline policy and not the role, and returns the
    listing error with role, account and cause in it.  The detachments
    stay: no call follows the failure. *)
Theorem manageRole_inline_listing_failure (w : World) (h : list Event) (sess : Session)
    (action : Action) (acct assume role : string)
    (o : Outcome Reply) (t : list Event)
    (svc : Client) (input : RoleInput) (cause : error) :
  manageRole sess action acct assume role w h = (o, t) ->
  In (EvListRolePolicies svc input (Err cause)) t ->
  exists attached : list AttachedPolicy,
    t = EvListAttachedRolePolicies (clientFor sess acct assume) (roleInput role)
          (Ok {| AttachedPolicies := map Some attached |})
        :: map (detachEvent (clientFor sess acct assume) role (Ok tt)) attached
        ++ [EvListRolePolicies (clientFor sess acct assume) (roleInput role)
              (Err cause)] /\
    count isDetachRolePolicy t = length attached /\
    count isDeleteRolePolicy t = 0 /\
    count isDeleteRole t = 0 /\
    o = Returned ("", Some (Errorf
          "error listing inline policies for role %s in account %s: %v"
          [role; acct; cause])).
Proof.
  intros E Hin.
  pose proof (manageRole_run w h sess action acct assume role) as R.
  rewrite E in R. simpl in R.
  destruct R as [cause' | qs p rest cause' | qs rest | qs cause' | qs pre n rest cause'
                 | qs names cause' Ea | qs names Ea | qs names Ea];
    find_event Hin.
  match goal with H : _ = EvListRolePolicies _ _ _ |- _ => injection H as <- <- <- end.
  exists qs. split; [reflexivity |].
  repeat split; count_trace.
Qed.

Lemma manageRole_inline_listing_failure_witness :
  count isDetachRolePolicy
    (snd (manageRole sampleSession DeleteRole "123456789012" "KillSwitchRole"
            "CompromisedRole" inlineListingRefused [])) = 3 /\
  fst (manageRole sampleSession DeleteRole "123456789012" "KillSwitchRole"
         "CompromisedRole" inlineListingRefused [])
  = Returned ("", Some (Errorf
      "error listing inline policies for role %s in account %s: %v"
      ["CompromisedRole"; "123456789012"; "ServiceFailure"])).
Proof.
  destruct (manageRole_inline_listing_failure inlineListingRefused [] sampleSession
              DeleteRole "123456789012" "KillSwitchRole" "CompromisedRole" _ _
              sampleClient (roleInput "CompromisedRole") "ServiceFailure"
              (surjective_pairing _))
    as (attached & _ & Hd & _ & _ & Ho).
  - do 4 right. left. reflexivity.
  - split; [reflexivity | exact Ho].
Defined.

Ltac count_all :=
  unfold cleanupTrace;
  repeat first [rewrite count_cons | rewrite count_app];
  count_maps; unfold detachEvent, deleteEvent, count; simpl; try lia.

(** The delete events of a trace that are failures: in every run of
    [manageRole] there is at most one, and it is the last call. *)
Lemma ManageRoleRun_delete_failure (svc : Client) (action : Action) (acct role : string)
    (o : Outcome Reply) (t : list Event) (i : nat)
    (svc' : Client) (input : DeleteRolePolicyInput) (cause : error) :
  ManageRoleRun svc action acct role o t ->
  nth_error (filter isDeleteRolePolicy t) i
  = Some (EvDeleteRolePolicy svc' input (Err cause)) ->
  exists qs pre n rest,
    t = EvListAttachedRolePolicies svc (roleInput role)
          (Ok {| AttachedPolicies := map Some qs |})
        :: map (detachEvent svc role (Ok tt)) qs
        ++ EvListRolePolicies svc (roleInput role)
             (Ok {| PolicyNames := pre ++ n :: rest |})
        :: map (deleteEvent svc role (Ok tt)) pre ++ [deleteEvent svc role (Err cause) n] /\
    i = length pre /\
    svc' = svc /\
    input = {| drpi_RoleName := aws_String role; drpi_PolicyName := n |} /\
    o = match n with
        | Some name =>
            Returned ("", Some (Errorf
              "error deleting inline policy %s from role %s in account %s: %v"
              [name; role; acct; cause]))
        | None => Panicked
        end.
Proof.
  intros R Hn.
  assert (Hall : forall l : list Event,
             Forall (fun e => isDeleteRolePolicy e = true -> eventFailed e = false) l ->
             nth_error (filter isDeleteRolePolicy l) i
             = Some (EvDeleteRolePolicy svc' input (Err cause)) -> False).
  { intros l Hl Hi. apply nth_error_In, filter_In in Hi as [Hin Hd].
    rewrite Forall_forall in Hl. specialize (Hl _ Hin Hd). discriminate. }
  assert (Hmap : forall qs : list AttachedPolicy,
             Forall (fun e => isDeleteRolePolicy e = true -> eventFailed e = false)
               (map (detachEvent svc role (Ok tt)) qs)).
  { intros qs. apply Forall_forall. intros e He.
    apply in_map_iff in He as (q & <- & _). reflexivity. }
  assert (Hdel : forall names : list (option string),
             Forall (fun e => isDeleteRolePolicy e = true -> eventFailed e = false)
               (map (deleteEvent svc role (Ok tt)) names)).
  { intros names. apply Forall_forall. intros e He.
    apply in_map_iff in He as (q & <- & _). reflexivity. }
  destruct R as [cause' | qs p rest cause' | qs rest | qs cause' | qs pre n rest cause'
                 | qs names cause' Ea | qs names Ea | qs names Ea];
    try (exfalso; refine (Hall _ _ Hn); only_ok; fail).
  - change (nth_error
              (filter isDeleteRolePolicy
                 (map (detachEvent svc role (Ok tt)) qs
                  ++ [EvListRolePolicies svc (roleInput role)
                        (Ok {| PolicyNames := pre ++ n :: rest |})]
                  ++ map (deleteEvent svc role (Ok tt)) pre
                  ++ [deleteEvent svc role (Err cause') n])) i
            = Some (EvDeleteRolePolicy svc' input (Err cause))) in Hn.
    rewrite filter_app, filter_map_none in Hn by reflexivity.
    rewrite filter_app in Hn.
    change (filter isDeleteRolePolicy
              [EvListRolePolicies svc (roleInput role)
                 (Ok {| PolicyNames := pre ++ n :: rest |})]) with (@nil Event) in Hn.
    rewrite filter_app, filter_map_all in Hn by reflexivity.
    change (filter isDeleteRolePolicy [deleteEvent svc role (Err cause') n])
      with [deleteEvent svc role (Err cause') n] in Hn.
    cbn [app] in Hn.
    destruct (Nat.lt_ge_cases i (length (map (deleteEvent svc role (Ok tt)) pre)))
      as [Hlt | Hge].
    + rewrite nth_error_app1 in Hn by exact Hlt.
      apply nth_error_In, in_map_iff in Hn as (q & Hq & _). discriminate.
    + rewrite nth_error_app2 in Hn by exact Hge.
      apply nth_error_singleton in Hn as [Hi He].
      rewrite length_map in Hi, Hge.
      unfold deleteEvent in He. injection He as -> <- ->.
      exists qs, pre, n, rest. repeat split. lia.
Qed.

(** X6: in a run of [manageRole] whose j-th delete of an inline policy
    fails, for the inline policy named [name], every attached policy had
    been detached and the inline policies listed, with at least j names,
    the j-th of which is [name]; j-1 deletes succeeded and the failed one
    is the last call of the run, so the role is not deleted and nothing
    is undone; and the run returns the error that names [name], the role,
    the account and the cause. *)
Theorem manageRole_inline_delete_failure (w : World) (h : list Event) (sess : Session)
    (action : Action) (acct assume role : string)
    (o : Outcome Reply) (t : list Event)
    (j : nat) (svc : Client) (input : DeleteRolePolicyInput) (cause : error)
    (name : string) :
  manageRole sess action acct assume role w h = (o, t) ->
  1 <= j ->
  nth_error (filter isDeleteRolePolicy t) (j - 1)
  = Some (EvDeleteRolePolicy svc input (Err cause)) ->
  drpi_PolicyName input = Some name ->
  exists (attached : list AttachedPolicy) (names : list (option string)),
    hd_error t
    = Some (EvListAttachedRolePolicies (clientFor sess acct assume) (roleInput role)
              (Ok {| AttachedPolicies := map Some attached |})) /\
    In (EvListRolePolicies (clientFor sess acct assume) (roleInput role)
          (Ok {| PolicyNames := names |})) t /\
    j <= length names /\
    nth_error names (j - 1) = Some (Some name) /\
    count isDetachRolePolicy t = length attached /\
    count (fun e => isDetachRolePolicy e && negb (eventFailed e)) t = length attached /\
    count (fun e => isDeleteRolePolicy e && negb (eventFailed e)) t = j - 1 /\
    count isDeleteRolePolicy t = j /\
    (exists before, t = before ++ [EvDeleteRolePolicy svc input (Err cause)]) /\
    count isDeleteRole t = 0 /\
    o = Returned ("", Some (Errorf
          "error deleting inline policy %s from role %s in account %s: %v"
          [name; role; acct; cause])).
Proof.
  intros E Hj Hn Hname.
  pose proof (manageRole_run w h sess action acct assume role) as R.
  rewrite E in R. simpl in R.
  destruct (ManageRoleRun_delete_failure _ _ _ _ _ _ _ _ _ _ R Hn)
    as (qs & pre & n & rest & -> & Hi & -> & -> & ->).
  simpl in Hname. subst n.
  exists qs, (pre ++ Some name :: rest).
  split; [reflexivity |].
  split; [right; apply in_or_app; right; now left |].
  split; [rewrite length_app; simpl; lia |].
  split; [rewrite Hi, nth_error_app2, Nat.sub_diag by lia; reflexivity |].
  split; [count_all |].
  split; [count_all |].
  split; [count_all |].
  split; [count_all |].
  split.
  { eexists (_ :: _ ++ _ :: _). simpl. rewrite <- app_assoc. simpl. reflexivity. }
  split; [count_all | reflexivity].
Qed.

Lemma manageRole_inline_delete_failure_witness :
  fst (manageRole sampleSession DeleteRole "123456789012" "KillSwitchRole"
         "CompromisedRole" secondDeleteRefused [])
  = Returned ("", Some (Errorf
      "error deleting inline policy %s from role %s in account %s: %v"
      ["inline-b"; "CompromisedRole"; "123456789012"; "Throttling"])) /\
  count isDeleteRole
    (snd (manageRole sampleSession DeleteRole "123456789012" "KillSwitchRole"
            "CompromisedRole" secondDeleteRefused [])) = 0.
Proof.
  destruct (manageRole_inline_delete_failure secondDeleteRefused [] sampleSession
              DeleteRole "123456789012" "KillSwitchRole" "CompromisedRole" _ _ 2
              sampleClient
              {| drpi_RoleName := Some "CompromisedRole";
                 drpi_PolicyName := Some "inline-b" |}
              "Throttling" "inline-b"
              (surjective_pairing _) (le_n_S _ _ (Nat.le_0_l _)) eq_refl eq_refl)
    as (attached & names & _ & _ & _ & _ & _ & _ & _ & _ & _ & Hr & Ho).
  split; [exact Ho | exact Hr].
Defined.

(** ** Deleting the role *)

(** A call that deletes the role is the last call of a run for
    delete_role, after a cleanup that went through. *)
Lemma ManageRoleRun_role_delete (svc : Client) (action : Action) (acct role : string)
    (o : Outcome Reply) (t : list Event)
    (svc' : Client) (input : RoleInput) (r : result unit) :
  ManageRoleRun svc action acct role o t ->
  In (EvDeleteRole svc' input r) t ->
  action = DeleteRole /\
  svc' = svc /\ input = roleInput role /\
  exists attached inline,
    t = cleanupTrace svc role attached inline ++ [EvDeleteRole svc (roleInput role) r] /\
    o = match r with
        | Ok _ =>
            Returned
              (Sprintf "Role %s and its policies are detached and deleted in account %s"
                 [role; acct], None)
        | Err cause =>
            Returned ("", Some (Errorf "error deleting role %s in account %s: %v"
                                  [role; acct; cause]))
        end.
Proof.
  intros R Hin.
  destruct R as [cause' | qs p rest cause' | qs rest | qs cause' | qs pre n rest cause'
                 | qs names cause' Ea | qs names Ea | qs names Ea];
    find_event Hin;
    match goal with H : _ = EvDeleteRole _ _ _ |- _ => injection H as <- <- <- end;
    (repeat split; [assumption |]); exists qs, names; now split.
Qed.

(** X7: [manageRole] calls for the deletion of the role only on the action
    delete_role, at most once, as the last call of the run, and only after
    the attached policies were listed and every one detached and the
    inline policies were listed and every one deleted, all these calls
    having succeeded; the call names the role of the request.  On any
    other action, and in any run that stopped early, the role is never
    deleted. *)
Theorem manageRole_deletes_role_last (w : World) (h : list Event) (sess : Session)
    (action : Action) (acct assume role : string)
    (o : Outcome Reply) (t : list Event) :
  manageRole sess action acct assume role w h = (o, t) ->
  count isDeleteRole t <= 1 /\
  (action <> DeleteRole -> count isDeleteRole t = 0) /\
  (forall svc input r,
      In (EvDeleteRole svc input r) t ->
      action = DeleteRole /\
      input = roleInput role /\
      exists attached inline,
        t = cleanupTrace (clientFor sess acct assume) role attached inline
            ++ [EvDeleteRole (clientFor sess acct assume) (roleInput role) r] /\
        Forall (fun e => eventFailed e = false)
          (cleanupTrace (clientFor sess acct assume) role attached inline) /\
        count isDetachRolePolicy t = length attached /\
        count isDeleteRolePolicy t = length inline).
Proof.
  intros E.
  pose proof (manageRole_run w h sess action acct assume role) as R.
  rewrite E in R. simpl in R.
  split; [| split].
  - destruct R; count_all.
  - intros Ha. destruct R; try contradiction; count_all.
  - intros svc input r Hin.
    destruct (ManageRoleRun_role_delete _ _ _ _ _ _ _ _ _ R Hin)
      as (Ha & _ & Hi & attached & inline & -> & _).
    repeat (split; [assumption |]).
    exists attached, inline. split; [reflexivity |].
    split; [apply cleanupTrace_succeeded |].
    destruct (cleanupTrace_counts (clientFor sess acct assume) role attached inline)
      as (Hd & Hl & _).
    split; rewrite count_app; [rewrite Hd | rewrite Hl]; unfold count; simpl; lia.
Qed.

Lemma manageRole_deletes_role_last_witness :
  count isDeleteRole
    (snd (manageRole sampleSession "rotate_keys" "123456789012" "KillSwitchRole"
            "CompromisedRole" calmWorld [])) = 0.
Proof.
  destruct (manageRole_deletes_role_last calmWorld [] sampleSession "rotate_keys"
              "123456789012" "KillSwitchRole" "CompromisedRole" _ _
              (surjective_pairing _)) as (_ & H & _).
  apply H. discriminate.
Defined.

Lemma Errorf_deleting_role (role acct cause : string) :
  Errorf "error deleting role %s in account %s: %v" [role; acct; cause]
  = ("error deleting role " ++ role ++ " in account " ++ acct ++ ": " ++ cause)%string.
Proof. cbv beta iota delta [Errorf Sprintf]. now rewrite append_empty_r. Qed.

(** X8: when the deletion of the role is refused, [manageRole] returns the
    deletion error with role, account and cause in it; by then every
    attached policy is detached and every inline policy deleted, and these
    calls are not undone: the refused call is the last. *)
Theorem manageRole_role_delete_failure (w : World) (h : list Event) (sess : Session)
    (action : Action) (acct assume role : string)
    (o : Outcome Reply) (t : list Event)
    (svc : Client) (input : RoleInput) (cause : error) :
  manageRole sess action acct assume role w h = (o, t) ->
  In (EvDeleteRole svc input (Err cause)) t ->
  exists attached inline,
    t = cleanupTrace (clientFor sess acct assume) role attached inline
        ++ [EvDeleteRole (clientFor sess acct assume) (roleInput role) (Err cause)] /\
    count (fun e => isDetachRolePolicy e && negb (eventFailed e)) t = length attached /\
    count (fun e => isDeleteRolePolicy e && negb (eventFailed e)) t = length inline /\
    o = Returned ("", Some (Errorf "error deleting role %s in account %s: %v"
                              [role; acct; cause])) /\
    Contains (Errorf "error deleting role %s in account %s: %v" [role; acct; cause]) role /\
    Contains (Errorf "error deleting role %s in account %s: %v" [role; acct; cause]) acct /\
    Contains (Errorf "error deleting role %s in account %s: %v" [role; acct; cause]) cause.
Proof.
  intros E Hin.
  pose proof (manageRole_run w h sess action acct assume role) as R.
  rewrite E in R. simpl in R.
  destruct (ManageRoleRun_role_delete _ _ _ _ _ _ _ _ _ R Hin)
    as (_ & _ & _ & attached & inline & -> & ->).
  exists attached, inline. split; [reflexivity |].
  split; [count_all |]. split; [count_all |]. split; [reflexivity |].
  rewrite Errorf_deleting_role. repeat split.
  - apply (Contains_intro "error deleting role " role).
  - apply (Contains_append_l "error deleting role "), Contains_append_l.
    apply (Contains_intro " in account " acct).
  - apply (Contains_append_l "error deleting role "), Contains_append_l,
      (Contains_append_l " in account "), Contains_append_l,
      (Contains_append_l ": "), Contains_refl.
Qed.

Lemma manageRole_role_delete_failure_witness :
  fst (manageRole sampleSession DeleteRole "123456789012" "KillSwitchRole"
         "CompromisedRole" roleDeleteRefused [])
  = Returned ("", Some (Errorf "error deleting role %s in account %s: %v"
                          ["CompromisedRole"; "123456789012"; "DeleteConflict"])).
Proof.
  destruct (manageRole_role_delete_failure roleDeleteRefused [] sampleSession
              DeleteRole "123456789012" "KillSwitchRole" "CompromisedRole" _ _
              sampleClient (roleInput "CompromisedRole") "DeleteConflict"
              (surjective_pairing _))
    as (attached & inline & _ & _ & _ & Ho & _).
  - do 7 right. left. reflexivity.
  - exact Ho.
Defined.

(** ** The cleanup and the action *)

(** X9: the cleanup of [manageRole] does not depend on the action.  On any
    action other than delete_role, known or not, a run is the run for
    detach_policies; and in the same world the run for delete_role makes
    the same calls, with the same answers, followed by at most the one
    call that deletes the role. *)
Theorem manageRole_cleanup_is_shared (w : World) (h : list Event) (sess : Session)
    (action : Action) (acct assume role : string) :
  action <> DeleteRole ->
  manageRole sess action acct assume role w h
  = manageRole sess DetachPolicies acct assume role w h /\
  ((manageRole sess DeleteRole acct assume role w h
    = manageRole sess action acct assume role w h /\
    forall message,
      fst (manageRole sess action acct assume role w h) <> Returned (message, None))
   \/
   (exists r,
       snd (manageRole sess DeleteRole acct assume role w h)
       = snd (manageRole sess action acct assume role w h)
         ++ [EvDeleteRole (clientFor sess acct assume) (roleInput role) r] /\
       fst (manageRole sess action acct assume role w h)
       = Returned (Sprintf "Policies detached from role %s in account %s" [role; acct],
                   None))).
Proof.
  intros Ha.
  destruct (manageRole_two_phases w h sess acct assume role)
    as [(o & t & Hall & Hno) | (attached & inline & r & Hdel & Hdet)].
  - split; [now rewrite !Hall |].
    left. split; [now rewrite !Hall |].
    intros message. rewrite Hall. apply Hno.
  - split; [rewrite (Hdet action Ha), (Hdet DetachPolicies) by discriminate; reflexivity |].
    right. exists r. rewrite Hdel, (Hdet action Ha). now split.
Qed.

Lemma manageRole_cleanup_is_shared_witness :
  manageRole sampleSession "rotate_keys" "123456789012" "KillSwitchRole"
    "CompromisedRole" secondDetachRefused []
  = manageRole sampleSession DetachPolicies "123456789012" "KillSwitchRole"
      "CompromisedRole" secondDetachRefused [].
Proof.
  apply (manageRole_cleanup_is_shared secondDetachRefused [] sampleSession "rotate_keys"
           "123456789012" "KillSwitchRole" "CompromisedRole").
  discriminate.
Defined.

(** ** The order and the targets of the calls *)

Lemma detachInputs_app (a b : list Event) :
  detachInputs (a ++ b) = detachInputs a ++ detachInputs b.
Proof.
  induction a as [|e a IH]; [reflexivity |].
  destruct e; simpl; now rewrite IH.
Qed.

Lemma deleteInputs_app (a b : list Event) :
  deleteInputs (a ++ b) = deleteInputs a ++ deleteInputs b.
Proof.
  induction a as [|e a IH]; [reflexivity |].
  destruct e; simpl; now rewrite IH.
Qed.

Lemma detachInputs_detached (svc : Client) (role : string) (r : result unit)
    (qs : list AttachedPolicy) :
  detachInputs (map (detachEvent svc role r) qs) = map (detachInput role) qs /\
  deleteInputs (map (detachEvent svc role r) qs) = [].
Proof.
  induction qs as [|q qs [IH1 IH2]]; [now split |].
  simpl. now rewrite IH1, IH2.
Qed.

Lemma deleteInputs_deleted (svc : Client) (role : string) (r : result unit)
    (names : list (option string)) :
  deleteInputs (map (deleteEvent svc role r) names) = map (deleteInput role) names /\
  detachInputs (map (deleteEvent svc role r) names) = [].
Proof.
  induction names as [|n names [IH1 IH2]]; [now split |].
  simpl. now rewrite IH1, IH2.
Qed.

Lemma flat_map_none {A} (f : Event -> list A) (g : list Event) :
  Forall (fun e => f e = []) g -> flat_map f g = [].
Proof.
  induction 1 as [|e g He _ IH]; [reflexivity |].
  simpl. now rewrite He, IH.
Qed.

Lemma listed_in_loops (svc : Client) (role : string) (r : result unit)
    (qs : list AttachedPolicy) (names : list (option string)) :
  flat_map listedPolicies (map (detachEvent svc role r) qs) = [] /\
  flat_map listedNames (map (detachEvent svc role r) qs) = [] /\
  flat_map listedPolicies (map (deleteEvent svc role r) names) = [] /\
  flat_map listedNames (map (deleteEvent svc role r) names) = [].
Proof.
  repeat split; apply flat_map_none, Forall_forall; intros e He;
    apply in_map_iff in He as (x & <- & _); reflexivity.
Qed.

Ltac read_trace svc role :=
  unfold cleanupTrace;
  repeat first
    [ progress simpl detachInputs | progress simpl deleteInputs
    | progress simpl flat_map
    | rewrite detachInputs_app | rewrite deleteInputs_app | rewrite flat_map_app
    | rewrite (proj1 (detachInputs_detached svc role _ _))
    | rewrite (proj2 (detachInputs_detached svc role _ _))
    | rewrite (proj1 (deleteInputs_deleted svc role _ _))
    | rewrite (proj2 (deleteInputs_deleted svc role _ _))
    | rewrite (proj1 (listed_in_loops svc role _ _ []))
    | rewrite (proj1 (proj2 (listed_in_loops svc role _ _ [])))
    | rewrite (proj1 (proj2 (proj2 (listed_in_loops svc role _ [] _))))
    | rewrite (proj2 (proj2 (proj2 (listed_in_loops svc role _ [] _)))) ];
  rewrite ?app_nil_r; simpl.

(** X10: in every run of [manageRole] the detach calls are made for the
    attached policies that were listed, in the order of the listing and
    without a gap or a repetition, up to the point where the run stops;
    likewise the delete calls for the inline policy names that were
    listed; and every one of these calls names the role of the request.
    Nothing is detached or deleted that was not listed. *)
Theorem manageRole_calls_follow_listings (w : World) (h : list Event) (sess : Session)
    (action : Action) (acct assume role : string)
    (o : Outcome Reply) (t : list Event) :
  manageRole sess action acct assume role w h = (o, t) ->
  exists (detached : list AttachedPolicy) (deleted : list (option string))
         (left : list (option AttachedPolicy)) (left' : list (option string)),
    flat_map listedPolicies t = map Some detached ++ left /\
    flat_map listedNames t = deleted ++ left' /\
    detachInputs t = map (detachInput role) detached /\
    deleteInputs t = map (deleteInput role) deleted /\
    (deleted <> [] -> left = []).
Proof.
  intros E.
  pose proof (manageRole_run w h sess action acct assume role) as R.
  rewrite E in R. simpl in R.
  set (svc := clientFor sess acct assume) in *.
  destruct R as [cause | qs p rest cause | qs rest | qs cause | qs pre n rest cause
                 | qs names cause Ea | qs names Ea | qs names Ea].
  - exists [], [], [], []. now repeat split.
  - exists (qs ++ [p]), [], rest, [].
    read_trace svc role. rewrite !map_app, <- app_assoc. now repeat split.
  - exists qs, [], (None :: rest), []. read_trace svc role. now repeat split.
  - exists qs, [], [], []. read_trace svc role. now repeat split.
  - exists qs, (pre ++ [n]), [], rest.
    read_trace svc role. rewrite !map_app, <- !app_assoc. now repeat split.
  - exists qs, names, [], []. read_trace svc role. now repeat split.
  - exists qs, names, [], []. read_trace svc role. now repeat split.
  - exists qs, names, [], []. read_trace svc role. now repeat split.
Qed.

Lemma manageRole_calls_follow_listings_witness :
  exists (detached : list AttachedPolicy) (deleted : list (option string))
         (left : list (option AttachedPolicy)) (left' : list (option string)),
    flat_map listedPolicies
      (snd (manageRole sampleSession DetachPolicies "123456789012" "KillSwitchRole"
              "CompromisedRole" secondDetachRefused []))
    = map Some detached ++ left /\
    flat_map listedNames
      (snd (manageRole sampleSession DetachPolicies "123456789012" "KillSwitchRole"
              "CompromisedRole" secondDetachRefused []))
    = deleted ++ left' /\
    detachInputs
      (snd (manageRole sampleSession DetachPolicies "123456789012" "KillSwitchRole"
              "CompromisedRole" secondDetachRefused []))
    = map (detachInput "CompromisedRole") detached /\
    deleteInputs
      (snd (manageRole sampleSession DetachPolicies "123456789012" "KillSwitchRole"
              "CompromisedRole" secondDetachRefused []))
    = map (deleteInput "CompromisedRole") deleted /\
    (deleted <> [] -> left = []).
Proof.
  apply (manageRole_calls_follow_listings secondDetachRefused [] sampleSession
           DetachPolicies "123456789012" "KillSwitchRole" "CompromisedRole" _ _
           (surjective_pairing _)).
Defined.

(** ** The runs of [HandleRequest], with what the configuration file gave *)

Lemma HandleRequest_runs (w : World) (h : list Event) (request : Request) :
  (exists e,
      (ValidationError e \/ InvalidActionError e) /\
      HandleRequest request w h = (Returned ("", Some e), []))
  \/
  (exists file cause,
      Action_ request = ApplySCP /\
      os_ReadFile w h "switch.conf" = file /\
      (file = Err cause \/ exists bytes, file = Ok bytes /\ json_Unmarshal w bytes = Err cause) /\
      HandleRequest request w h
      = (Returned ("", Some (Errorf "error loading config file: %v" [cause])),
         [EvReadFile "switch.conf" file]))
  \/
  (exists bytes config o t,
      Action_ request = ApplySCP /\
      os_ReadFile w h "switch.conf" = Ok bytes /\
      json_Unmarshal w bytes = Ok config /\
      ApplySCPRun (clientOfRequest request) (TargetAccountID request)
        (scpInput config) o t /\
      HandleRequest request w h = (o, EvReadFile "switch.conf" (Ok bytes) :: t))
  \/
  (exists o t,
      (Action_ request = DetachPolicies \/ Action_ request = DeleteRole) /\
      ManageRoleRun (clientOfRequest request) (Action_ request)
        (TargetAccountID request) (TargetRoleName request) o t /\
      HandleRequest request w h = (o, t)).
Proof.
  destruct (HandleRequest_branches w h request)
    as [(e & E & He) | [(Ht & Hr & Ha & Ho) | (Ht & Hr & Ha & Hn)]].
  - left. now exists e.
  - right.
    assert (Hc : clientOfRequest request
                 = clientFor (session_NewSession (Some (sessionRegion request)))
                     (OrgManagementAccountID request) (RoleToAssume request)).
    { unfold clientOfRequest, assumedAccount. now rewrite Ha. }
    rewrite (HandleRequest_apply_scp w h request Ht Hr Ha Ho).
    rewrite (bind_Returned _ _ w h _ _ (loadConfig_eq w h "switch.conf")).
    destruct (os_ReadFile w h "switch.conf") as [bytes | cause] eqn:Ef.
    + destruct (json_Unmarshal w bytes) as [config | cause] eqn:Ej.
      * right; left. eexists bytes, config, _, _.
        split; [assumption |]. split; [reflexivity |]. split; [assumption |].
        split; [rewrite Hc; apply applySCP_run | reflexivity].
      * left. exists (Ok bytes), cause. split; [assumption |]. split; [reflexivity |].
        split; [right; now exists bytes | reflexivity].
    + left. exists (Err cause), cause. split; [assumption |]. split; [reflexivity |].
      split; [now left | reflexivity].
  - right; right; right.
    destruct (HandleRequest_cases w h request)
      as [(e & _ & E) | [(file & cause & _ & _ & Ha' & _) | [(file & config & o & t & _ & _ & Ha' & _) | (o & t & _ & _ & _ & _ & R & E)]]].
    + exfalso. rewrite (HandleRequest_manage_role w h request Ht Hr Ha Hn) in E.
      pose proof (manageRole_run w h
                    (session_NewSession (Some (sessionRegion request)))
                    (Action_ request) (TargetAccountID request) (RoleToAssume request)
                    (TargetRoleName request)) as R.
      rewrite E in R. simpl in R. inversion R.
    + exfalso. destruct Ha as [Ha | Ha]; rewrite Ha in Ha'; discriminate.
    + exfalso. destruct Ha as [Ha | Ha]; rewrite Ha in Ha'; discriminate.
    + exists o, t. now repeat split.
Qed.

(** ** A failed call ends the run *)

Lemma Errorf_creating (cause : string) :
  Errorf "error creating SCP: %v" [cause] = ("error creating SCP: " ++ cause)%string.
Proof. cbv beta iota delta [Errorf Sprintf]. now rewrite append_empty_r. Qed.

Lemma Errorf_listing_attached (role acct cause : string) :
  Errorf "error listing attached policies for role %s in account %s: %v"
    [role; acct; cause]
  = ("error listing attached policies for role " ++ role ++ " in account " ++ acct
       ++ ": " ++ cause)%string.
Proof. cbv beta iota delta [Errorf Sprintf]. now rewrite append_empty_r. Qed.

Lemma Errorf_listing_inline (role acct cause : string) :
  Errorf "error listing inline policies for role %s in account %s: %v"
    [role; acct; cause]
  = ("error listing inline policies for role " ++ role ++ " in account " ++ acct
       ++ ": " ++ cause)%string.
Proof. cbv beta iota delta [Errorf Sprintf]. now rewrite append_empty_r. Qed.

Lemma Errorf_deleting_inline (name role acct cause : string) :
  Errorf "error deleting inline policy %s from role %s in account %s: %v"
    [name; role; acct; cause]
  = ("error deleting inline policy " ++ name ++ " from role " ++ role ++ " in account "
       ++ acct ++ ": " ++ cause)%string.
Proof. cbv beta iota delta [Errorf Sprintf]. now rewrite append_empty_r. Qed.

(** The error in the goal ends with the cause. *)
Ltac ends_with_cause :=
  rewrite ?Errorf_creating, ?Errorf_attaching, ?Errorf_config, ?Errorf_listing_attached,
    ?Errorf_detaching, ?Errorf_listing_inline, ?Errorf_deleting_inline,
    ?Errorf_deleting_role;
  repeat apply Contains_append_l; apply Contains_refl.

Lemma calm_loops (svc : Client) (role : string)
    (qs : list AttachedPolicy) (names : list (option string)) :
  Forall (fun e => causeOf e = None) (map (detachEvent svc role (Ok tt)) qs) /\
  Forall (fun e => causeOf e = None) (map (deleteEvent svc role (Ok tt)) names).
Proof.
  split; apply Forall_forall; intros e He;
    apply in_map_iff in He as (x & <- & _); reflexivity.
Qed.

Ltac all_calm svc role :=
  unfold cleanupTrace;
  repeat first
    [ apply Forall_nil
    | apply (proj1 (calm_loops svc role _ []))
    | apply (proj2 (calm_loops svc role [] _))
    | apply Forall_app; split
    | apply Forall_cons; [reflexivity |] ].

(** In a list whose last element is the only one that failed, a failed
    element has nothing after it. *)
Lemma failure_is_last (init : list Event) (x : Event) :
  Forall (fun e => causeOf e = None) init ->
  forall before e after cause,
    init ++ [x] = before ++ e :: after -> causeOf e = Some cause ->
    after = [] /\ x = e /\ init = before.
Proof.
  induction 1 as [|a init Ha _ IH]; intros before e after cause E He.
  - destruct before as [|b before]; simpl in E.
    + injection E as -> <-. now repeat split.
    + injection E as _ E. now destruct before.
  - destruct before as [|b before]; simpl in E.
    + injection E as -> _. congruence.
    + injection E as -> E.
      destruct (IH _ _ _ _ E He) as (-> & -> & ->). now repeat split.
Qed.

Lemma no_failure_inside (t : list Event) :
  Forall (fun e => causeOf e = None) t ->
  forall before e after cause, t = before ++ e :: after -> causeOf e = Some cause -> False.
Proof.
  intros H before e after cause -> He.
  apply Forall_app in H as [_ H]. inversion H; congruence.
Qed.

Lemma ManageRoleRun_stops (svc : Client) (action : Action) (acct role : string)
    (o : Outcome Reply) (t : list Event) :
  ManageRoleRun svc action acct role o t -> stopsAtFailure o t.
Proof.
  intros R.
  destruct R as [cause | qs p rest cause | qs rest | qs cause | qs pre n rest cause
                 | qs names cause Ea | qs names Ea | qs names Ea].
  - right. exists [], (EvListAttachedRolePolicies svc (roleInput role) (Err cause)), cause.
    repeat split; [constructor |]. right. eexists. split; [reflexivity | ends_with_cause].
  - right.
    exists (EvListAttachedRolePolicies svc (roleInput role)
              (Ok {| AttachedPolicies := map Some qs ++ Some p :: rest |})
            :: map (detachEvent svc role (Ok tt)) qs),
           (detachEvent svc role (Err cause) p), cause.
    repeat split; [all_calm svc role |].
    destruct (PolicyArn p); [right | now left].
    eexists. split; [reflexivity | ends_with_cause].
  - left. all_calm svc role.
  - right.
    exists (EvListAttachedRolePolicies svc (roleInput role)
              (Ok {| AttachedPolicies := map Some qs |})
            :: map (detachEvent svc role (Ok tt)) qs),
           (EvListRolePolicies svc (roleInput role) (Err cause)), cause.
    repeat split; [all_calm svc role |].
    right. eexists. split; [reflexivity | ends_with_cause].
  - right.
    exists (EvListAttachedRolePolicies svc (roleInput role)
              (Ok {| AttachedPolicies := map Some qs |})
            :: map (detachEvent svc role (Ok tt)) qs
            ++ EvListRolePolicies svc (roleInput role)
                 (Ok {| PolicyNames := pre ++ n :: rest |})
            :: map (deleteEvent svc role (Ok tt)) pre),
           (deleteEvent svc role (Err cause) n), cause.
    split; [simpl; now rewrite <- app_assoc |].
    repeat split; [all_calm svc role |].
    destruct n; [right | now left].
    eexists. split; [reflexivity | ends_with_cause].
  - right.
    exists (cleanupTrace svc role qs names),
           (EvDeleteRole svc (roleInput role) (Err cause)), cause.
    repeat split; [all_calm svc role |].
    right. eexists. split; [reflexivity | ends_with_cause].
  - left. all_calm svc role.
  - left. all_calm svc role.
Qed.

Lemma ApplySCPRun_stops (svc : Client) (acct : string) (input : CreatePolicyInput)
    (o : Outcome Reply) (t : list Event) :
  ApplySCPRun svc acct input o t -> stopsAtFailure o t.
Proof.
  intros R. destruct R as [cause | out Hout | id cause | | id].
  - right. exists [], (EvCreatePolicy svc input (Err cause)), cause.
    repeat split; [constructor |]. right. eexists. split; [reflexivity | ends_with_cause].
  - left. now repeat constructor.
  - right. eexists [_], _, cause.
    repeat split; [now repeat constructor |].
    right. eexists. split; [reflexivity | ends_with_cause].
  - left. now repeat constructor.
  - left. now repeat constructor.
Qed.

Lemma HandleRequest_stops (w : World) (h : list Event) (request : Request) :
  stopsAtFailure (fst (HandleRequest request w h)) (snd (HandleRequest request w h)).
Proof.
  destruct (HandleRequest_runs w h request)
    as [(e & _ & E) | [(file & cause & _ & _ & Hf & E)
        | [(bytes & config & o & t & _ & _ & _ & R & E) | (o & t & _ & R & E)]]];
    rewrite E; simpl.
  - left. constructor.
  - destruct Hf as [-> | (bytes & -> & _)].
    + right. exists [], (EvReadFile "switch.conf" (Err cause)), cause.
      repeat split; [constructor |].
      right. eexists. split; [reflexivity | ends_with_cause].
    + left. now repeat constructor.
  - destruct (ApplySCPRun_stops _ _ _ _ _ R) as [H | (init & e & cause & -> & H & He & Ho)].
    + left. now constructor.
    + right. exists (EvReadFile "switch.conf" (Ok bytes) :: init), e, cause.
      repeat split; [now constructor | assumption | assumption].
  - now apply ManageRoleRun_stops in R.
Qed.

(** X11: [HandleRequest] stops at the first call that fails.  In every run,
    whatever the request, a call that reported an error (the read of the
    configuration file or any call to Organizations or IAM) is the last
    call of the run and the only one that failed; and if the run returns,
    it returns an error, with an empty message, whose text contains what
    that call reported. *)
Theorem HandleRequest_stops_at_first_failure (w : World) (h : list Event)
    (request : Request) (o : Outcome Reply) (t before after : list Event)
    (e : Event) (cause : error) :
  HandleRequest request w h = (o, t) ->
  t = before ++ e :: after ->
  causeOf e = Some cause ->
  after = [] /\
  Forall (fun e' => eventFailed e' = false) before /\
  forall reply, o = Returned reply ->
    exists err, reply = ("", Some err) /\ Contains err cause.
Proof.
  intros E Ht He.
  pose proof (HandleRequest_stops w h request) as S.
  rewrite E in S. simpl in S.
  destruct S as [S | (init & x & cause' & Hx & Hi & Hc & Ho)].
  - destruct (no_failure_inside t S before e after cause Ht He).
  - rewrite Hx in Ht.
    destruct (failure_is_last init x Hi before e after cause Ht He) as (-> & -> & ->).
    split; [reflexivity |].
    split.
    { eapply Forall_impl; [| exact Hi].
      intros a Ha. destruct a as [? r|? ? r|? ? r|? ? r|? ? r|? ? r|? ? r|? ? r];
        destruct r; simpl in *; congruence. }
    intros reply ->.
    destruct Ho as [Ho | (err & Ho & Hcon)]; [discriminate |].
    injection Ho as ->. exists err. split; [reflexivity |]. congruence.
Qed.

Lemma HandleRequest_stops_at_first_failure_witness :
  fst (HandleRequest (sampleRequest DeleteRole) secondDeleteRefused [])
  = Returned ("", Some (Errorf
      "error deleting inline policy %s from role %s in account %s: %v"
      ["inline-b"; "CompromisedRole"; "123456789012"; "Throttling"])) /\
  Contains (Errorf
      "error deleting inline policy %s from role %s in account %s: %v"
      ["inline-b"; "CompromisedRole"; "123456789012"; "Throttling"]) "Throttling".
Proof.
  destruct (HandleRequest_stops_at_first_failure secondDeleteRefused []
              (sampleRequest DeleteRole) _ _
              (firstn 6 (snd (HandleRequest (sampleRequest DeleteRole)
                                secondDeleteRefused [])))
              []
              (EvDeleteRolePolicy (clientOfRequest (sampleRequest DeleteRole))
                 (deleteInput "CompromisedRole" (Some "inline-b")) (Err "Throttling"))
              "Throttling"
              (surjective_pairing _) eq_refl eq_refl)
    as (_ & _ & Hr).
  destruct (Hr _ eq_refl) as (err & Hreply & Hcon).
  injection Hreply as <-.
  split; [reflexivity | exact Hcon].
Defined.

(** ** The services each action uses *)

Lemma ManageRoleRun_iam (svc : Client) (action : Action) (acct role : string)
    (o : Outcome Reply) (t : list Event) :
  ManageRoleRun svc action acct role o t -> Forall (fun e => isIamCall e = true) t.
Proof.
  intros R. apply Forall_forall. intros e He.
  destruct R; find_event He; subst; reflexivity.
Qed.

Lemma ApplySCPRun_organizations (svc : Client) (acct : string) (input : CreatePolicyInput)
    (o : Outcome Reply) (t : list Event) :
  ApplySCPRun svc acct input o t -> Forall (fun e => isOrganizationsCall e = true) t.
Proof. intros R. destruct R; now repeat constructor. Qed.

Lemma count_none (p : Event -> bool) (t : list Event) :
  Forall (fun e => p e = false) t -> count p t = 0.
Proof.
  induction 1 as [|e t He _ IH]; [reflexivity |].
  now rewrite count_cons, He, IH.
Qed.

(** X12: the action decides which services a run of [HandleRequest]
    touches.  A run for apply_scp makes no call to IAM; a run for any other
    action reads no file and makes no call to Organizations, so that every
    call it makes is a call to IAM.  Whatever the action, the only file
    ever read is switch.conf, and it is read first and once. *)
Theorem HandleRequest_services_by_action (w : World) (h : list Event)
    (request : Request) :
  (Action_ request = ApplySCP ->
   Forall (fun e => isIamCall e = false) (snd (HandleRequest request w h))) /\
  (Action_ request <> ApplySCP ->
   Forall (fun e => isIamCall e = true /\ isReadFile e = false /\
                    isOrganizationsCall e = false)
     (snd (HandleRequest request w h))) /\
  count isReadFile (snd (HandleRequest request w h)) <= 1 /\
  (forall name r, In (EvReadFile name r) (snd (HandleRequest request w h)) ->
     name = "switch.conf" /\
     Action_ request = ApplySCP /\
     hd_error (snd (HandleRequest request w h)) = Some (EvReadFile name r)).
Proof.
  destruct (HandleRequest_runs w h request)
    as [(e & _ & E) | [(file & cause & Ha & _ & Hf & E)
        | [(bytes & config & o & t & Ha & _ & _ & R & E) | (o & t & Ha & R & E)]]];
    rewrite E; simpl.
  - split; [intros _; constructor |].
    split; [intros _; constructor |].
    split; [unfold count; simpl; lia |].
    intros name r [].
  - split; [intros _; now repeat constructor |].
    split; [intros Hn; now destruct Hn |].
    split; [unfold count; simpl; lia |].
    intros name r [Hin | []]. injection Hin as <- <-. now repeat split.
  - pose proof (ApplySCPRun_organizations _ _ _ _ _ R) as Ho.
    split.
    { intros _. constructor; [reflexivity |].
      eapply Forall_impl; [| exact Ho]. intros e He. now destruct e. }
    split; [intros Hn; now destruct Hn |].
    split.
    { rewrite count_cons. simpl.
      rewrite (count_none isReadFile t); [lia |].
      eapply Forall_impl; [| exact Ho]. intros e He. now destruct e. }
    intros name r [Hin | Hin].
    + injection Hin as <- <-. now repeat split.
    + exfalso. rewrite Forall_forall in Ho. now specialize (Ho _ Hin).
  - pose proof (ManageRoleRun_iam _ _ _ _ _ _ R) as Hi.
    split.
    { intros Ha'. destruct Ha as [Ha | Ha]; rewrite Ha in Ha'; discriminate. }
    split.
    { intros _. eapply Forall_impl; [| exact Hi]. intros e He. now destruct e. }
    split.
    { rewrite (count_none isReadFile t); [lia |].
      eapply Forall_impl; [| exact Hi]. intros e He. now destruct e. }
    intros name r Hin. exfalso. rewrite Forall_forall in Hi. now specialize (Hi _ Hin).
Qed.

(** ** The calls of a run for apply_scp *)

(** X13: a run of [HandleRequest] for apply_scp makes at most three calls,
    each feeding the next.  The first reads switch.conf.  A second call is
    made only after the file was read and decoded, and it asks
    Organizations, in the management account of the request, to create the
    policy whose content is the one of the decoded configuration.  A third
    call is made only after that policy was created, and it attaches the
    policy with the identifier Organizations returned to the target account
    of the request. *)
Theorem HandleRequest_apply_scp_calls (w : World) (h : list Event) (request : Request)
    (o : Outcome Reply) (t : list Event) :
  Action_ request = ApplySCP ->
  HandleRequest request w h = (o, t) ->
  length t <= 3 /\
  (forall e, nth_error t 0 = Some e ->
     e = EvReadFile "switch.conf" (os_ReadFile w h "switch.conf")) /\
  (forall e, nth_error t 1 = Some e ->
     exists bytes config r,
       nth_error t 0 = Some (EvReadFile "switch.conf" (Ok bytes)) /\
       json_Unmarshal w bytes = Ok config /\
       e = EvCreatePolicy
             (clientFor (session_NewSession (Some (sessionRegion request)))
                (OrgManagementAccountID request) (RoleToAssume request))
             {| cpi_Content := Some (SCPolicy (SwitchPolicies config));
                cpi_Description := Some "Highly Restrictive SCP";
                cpi_Name := Some "HighlyRestrictiveSCP";
                cpi_Type := Some "SERVICE_CONTROL_POLICY" |} r) /\
  (forall e, nth_error t 2 = Some e ->
     exists svc input id r,
       nth_error t 1
       = Some (EvCreatePolicy svc input
                 (Ok {| Policy := Some {| PolicySummary := Some {| Id := id |} |} |})) /\
       e = EvAttachPolicy svc
             {| api_PolicyId := id; api_TargetId := Some (TargetAccountID request) |} r).
Proof.
  intros Ha E.
  assert (Hc : clientOfRequest request
               = clientFor (session_NewSession (Some (sessionRegion request)))
                   (OrgManagementAccountID request) (RoleToAssume request)).
  { unfold clientOfRequest, assumedAccount. now rewrite Ha. }
  destruct (HandleRequest_runs w h request)
    as [(e & _ & E') | [(file & cause & _ & Hread & Hf & E')
        | [(bytes & config & o' & t' & _ & Hread & Hj & R & E') | (o' & t' & Ha' & _ & _)]]].
  - rewrite E in E'. injection E' as -> ->.
    simpl. repeat split; try lia; discriminate.
  - rewrite E in E'. injection E' as -> ->.
    simpl. split; [lia |].
    split; [intros e [= <-]; now rewrite Hread |].
    split; discriminate.
  - rewrite E in E'. injection E' as -> ->.
    rewrite <- Hc.
    destruct R as [cause | out Hout | id cause | | id]; simpl;
      (split; [lia |]);
      (split; [intros e [= <-]; now rewrite Hread |]);
      (split; [intros e [= <-]; exists bytes, config; eexists; repeat split; assumption |]);
      try discriminate;
      intros e [= <-]; eexists _, _, _, _; split; reflexivity.
  - destruct Ha' as [Ha' | Ha']; rewrite Ha in Ha'; discriminate.
Qed.

Lemma HandleRequest_apply_scp_calls_witness :
  length (snd (HandleRequest (sampleRequest ApplySCP) calmWorld [])) <= 3.
Proof.
  apply (proj1 (HandleRequest_apply_scp_calls calmWorld [] (sampleRequest ApplySCP) _ _
                  eq_refl (surjective_pairing _))).
Defined.

(** ** What a message tells *)

(** X14: a message is returned only after everything was done.  If
    [HandleRequest] returns a message and no error, then no call of the run
    failed, the message names the target account, and the run is one of
    three: for apply_scp, the file was read, the policy created and
    attached, and the message names the identifier of the policy; for
    detach_policies, the whole cleanup was made, every listed policy
    detached and every listed inline policy deleted, and the role was not
    deleted; for delete_role, the whole cleanup was made and then the role
    was deleted.  In the two last cases the message names the role. *)
Theorem HandleRequest_message_means_done (w : World) (h : list Event)
    (request : Request) (message : string) (t : list Event) :
  HandleRequest request w h = (Returned (message, None), t) ->
  Forall (fun e => eventFailed e = false) t /\
  Contains message (TargetAccountID request) /\
  ((Action_ request = ApplySCP /\
    exists bytes config id,
      json_Unmarshal w bytes = Ok config /\
      t = [EvReadFile "switch.conf" (Ok bytes);
           EvCreatePolicy (clientOfRequest request) (scpInput config)
             (Ok {| Policy := Some {| PolicySummary := Some {| Id := Some id |} |} |});
           EvAttachPolicy (clientOfRequest request)
             {| api_PolicyId := Some id;
                api_TargetId := Some (TargetAccountID request) |} (Ok tt)] /\
      message = ("SCP applied to account " ++ TargetAccountID request
                 ++ " with policy ID " ++ id)%string)
   \/
   (Action_ request = DetachPolicies /\
    exists attached inline,
      t = cleanupTrace (clientOfRequest request) (TargetRoleName request) attached inline /\
      count isDetachRolePolicy t = length attached /\
      count isDeleteRolePolicy t = length inline /\
      count isDeleteRole t = 0 /\
      message = ("Policies detached from role " ++ TargetRoleName request
                 ++ " in account " ++ TargetAccountID request)%string)
   \/
   (Action_ request = DeleteRole /\
    exists attached inline,
      t = cleanupTrace (clientOfRequest request) (TargetRoleName request) attached inline
          ++ [EvDeleteRole (clientOfRequest request)
                (roleInput (TargetRoleName request)) (Ok tt)] /\
      count isDetachRolePolicy t = length attached /\
      count isDeleteRolePolicy t = length inline /\
      message = ("Role " ++ TargetRoleName request
                 ++ " and its policies are detached and deleted in account "
                 ++ TargetAccountID request)%string)).
Proof.
  intros E.
  assert (Hcalm : Forall (fun e => eventFailed e = false) t).
  { pose proof (HandleRequest_stops w h request) as S.
    rewrite E in S. simpl in S.
    destruct S as [S | (init & x & cause & _ & _ & _ & [Ho | (err & Ho & _)])];
      [| discriminate | discriminate].
    eapply Forall_impl; [| exact S].
    intros a Ha. destruct a as [? r|? ? r|? ? r|? ? r|? ? r|? ? r|? ? r|? ? r];
      destruct r; simpl in *; congruence. }
  split; [exact Hcalm |].
  destruct (HandleRequest_runs w h request)
    as [(e & _ & E') | [(file & cause & _ & _ & _ & E')
        | [(bytes & config & o & t' & Ha & _ & Hj & R & E') | (o & t' & Ha & R & E')]]];
    rewrite E in E'; try discriminate.
  - destruct R as [cause | out Hout | id cause | | id];
      apply pair_equal_spec in E' as [Ho ->]; try discriminate Ho.
    injection Ho as ->.
    rewrite Sprintf_scp_applied.
    split; [apply (Contains_intro "SCP applied to account ") |].
    left. split; [exact Ha |]. exists bytes, config, id. now repeat split.
  - destruct R as [cause | qs p rest cause | qs rest | qs cause | qs pre n rest cause
                   | qs names cause Ea | qs names Ea | qs names Ea];
      apply pair_equal_spec in E' as [Ho ->]; try discriminate Ho.
    + destruct (PolicyArn p); discriminate.
    + destruct n; discriminate.
    + injection Ho as ->.
      rewrite Sprintf_deleted.
      split; [repeat apply Contains_append_l; apply Contains_refl |].
      right; right. split; [exact Ea |]. exists qs, names.
      split; [reflexivity |]. split; [count_all |]. split; [count_all | reflexivity].
    + injection Ho as ->.
      rewrite Sprintf_detached.
      split; [repeat apply Contains_append_l; apply Contains_refl |].
      right; left. split; [destruct Ha as [Ha | Ha]; [exact Ha | contradiction] |].
      exists qs, names.
      split; [reflexivity |]. split; [count_all |]. split; [count_all |].
      split; [count_all | reflexivity].
Qed.

Lemma HandleRequest_message_means_done_witness :
  Contains (Sprintf "Policies detached from role %s in account %s"
              ["CompromisedRole"; "123456789012"]) "123456789012".
Proof.
  apply (proj1 (proj2 (HandleRequest_message_means_done calmWorld []
                         (sampleRequest DetachPolicies) _ _ eq_refl))).
Defined.

(** ** The texts of the errors *)

Lemma ManageRoleRun_error (svc : Client) (action : Action) (acct role : string)
    (o : Outcome Reply) (t : list Event) (message : string) (err : error) :
  ManageRoleRun svc action acct role o t -> o = Returned (message, Some err) ->
  message = "" /\ exists format args, In format errorFormats /\ err = Errorf format args.
Proof.
  intros R E.
  destruct R as [cause | qs p rest cause | qs rest | qs cause | qs pre n rest cause
                 | qs names cause Ea | qs names Ea | qs names Ea];
    try discriminate E.
  - injection E as <- <-. split; [reflexivity |]. eexists _, _.
    split; [| reflexivity]. do 7 right. now left.
  - destruct (PolicyArn p); [| discriminate E].
    injection E as <- <-. split; [reflexivity |]. eexists _, _.
    split; [| reflexivity]. do 8 right. now left.
  - injection E as <- <-. split; [reflexivity |]. eexists _, _.
    split; [| reflexivity]. do 9 right. now left.
  - destruct n; [| discriminate E].
    injection E as <- <-. split; [reflexivity |]. eexists _, _.
    split; [| reflexivity]. do 10 right. now left.
  - injection E as <- <-. split; [reflexivity |]. eexists _, _.
    split; [| reflexivity]. do 11 right. now left.
Qed.

Lemma ApplySCPRun_error (svc : Client) (acct : string) (input : CreatePolicyInput)
    (o : Outcome Reply) (t : list Event) (message : string) (err : error) :
  ApplySCPRun svc acct input o t -> o = Returned (message, Some err) ->
  message = "" /\ exists format args, In format errorFormats /\ err = Errorf format args.
Proof.
  intros R E. destruct R as [cause | out Hout | id cause | | id]; try discriminate E.
  - injection E as <- <-. split; [reflexivity |]. eexists _, _.
    split; [| reflexivity]. do 5 right. now left.
  - injection E as <- <-. split; [reflexivity |]. eexists _, _.
    split; [| reflexivity]. do 6 right. now left.
Qed.

(** X15: every error [HandleRequest] returns comes with an empty message
    and is one of the twelve texts of the program, filled in with its
    arguments. *)
Theorem HandleRequest_errors_are_known (w : World) (h : list Event) (request : Request)
    (message : string) (err : error) (t : list Event) :
  HandleRequest request w h = (Returned (message, Some err), t) ->
  message = "" /\
  exists format args, In format errorFormats /\ err = Errorf format args.
Proof.
  intros E.
  destruct (HandleRequest_runs w h request)
    as [(e & He & E') | [(file & cause & _ & _ & _ & E')
        | [(bytes & config & o & t' & _ & _ & _ & R & E') | (o & t' & _ & R & E')]]];
    rewrite E in E'; apply pair_equal_spec in E' as [Ho _].
  - injection Ho as -> ->. split; [reflexivity |].
    destruct He as [[-> | [-> | ->]] | ->].
    + exists "targetAccountID and roleToAssume are required", [].
      split; [now left | reflexivity].
    + exists "managementAccount is required for apply_scp action", [].
      split; [right; now left | reflexivity].
    + exists "targetRoleName is required for delete_role and detach_policies actions", [].
      split; [do 3 right; now left | reflexivity].
    + exists "invalid action", []. split; [do 4 right; now left | reflexivity].
  - injection Ho as -> ->. split; [reflexivity |]. eexists _, _.
    split; [| reflexivity]. do 2 right. now left.
  - exact (ApplySCPRun_error _ _ _ _ _ _ _ R (eq_sym Ho)).
  - exact (ManageRoleRun_error _ _ _ _ _ _ _ _ R (eq_sym Ho)).
Qed.

Lemma HandleRequest_errors_are_known_witness :
  exists format args,
    In format errorFormats /\
    Errorf "error creating SCP: %v" ["MalformedPolicyDocument"] = Errorf format args.
Proof.
  apply (proj2 (HandleRequest_errors_are_known createRefused [] (sampleRequest ApplySCP)
                  _ _ _ eq_refl)).
Defined.

(** X16: the texts of the errors tell the failures apart.  Two errors
    built from different texts of the program are different, whatever
    their arguments are: the step that failed can be read off the error. *)
Theorem errorFormats_distinct (format format' : string) (args args' : list string) :
  In format errorFormats -> In format' errorFormats -> format <> format' ->
  Errorf format args <> Errorf format' args'.
Proof.
  intros H H' Hne.
  unfold errorFormats in H, H'. simpl in H, H'.
  repeat (destruct H as [<- | H]; [| try contradiction]);
    repeat (destruct H' as [<- | H']; [| try contradiction]);
    first [ now contradiction Hne
          | intros E; cbv in E; discriminate E ].
Qed.

Lemma errorFormats_distinct_witness :
  Errorf "error detaching policy %s from role %s in account %s: %v" ["a"; "b"; "c"; "d"]
  <> Errorf "error deleting role %s in account %s: %v" ["a"; "b"; "c"].
Proof.
  apply errorFormats_distinct;
    [do 8 right; now left | do 11 right; now left | discriminate].
Defined.

(** ** The order of the phases *)

Ltac every_event :=
  apply Forall_forall;
  let e := fresh "e" in let He := fresh "He" in
  intros e He; find_event He; subst; reflexivity.

(** X17: the calls of [manageRole] come in the order of its phases.  Every
    run starts with the listing of the attached policies; then come detach
    calls only; then at most one listing of the inline policies; then
    inline deletes only; then at most one deletion of the role.  Without
    the inline listing nothing is deleted, neither an inline policy nor the
    role: no policy is deleted before every detach call was made. *)
Theorem manageRole_phases_in_order (w : World) (h : list Event) (sess : Session)
    (action : Action) (acct assume role : string) :
  exists r detaches inlineListing deletes roleDeletion,
    snd (manageRole sess action acct assume role w h)
    = EvListAttachedRolePolicies (clientFor sess acct assume) (roleInput role) r
      :: detaches ++ inlineListing ++ deletes ++ roleDeletion /\
    Forall (fun e => isDetachRolePolicy e = true) detaches /\
    Forall (fun e => isListRolePolicies e = true) inlineListing /\
    length inlineListing <= 1 /\
    Forall (fun e => isDeleteRolePolicy e = true) deletes /\
    Forall (fun e => isDeleteRole e = true) roleDeletion /\
    length roleDeletion <= 1 /\
    (inlineListing = [] -> deletes = [] /\ roleDeletion = []).
Proof.
  pose proof (manageRole_run w h sess action acct assume role) as R.
  set (svc := clientFor sess acct assume) in *.
  destruct (manageRole sess action acct assume role w h) as [o t]. simpl in *.
  destruct R as [cause | qs p rest cause | qs rest | qs cause | qs pre n rest cause
                 | qs names cause Ea | qs names Ea | qs names Ea].
  - eexists _, [], [], [], []. simpl. repeat split; auto.
  - eexists _, (map (detachEvent svc role (Ok tt)) qs ++ [detachEvent svc role (Err cause) p]),
      [], [], [].
    rewrite !app_nil_r. simpl. repeat split; auto. every_event.
  - eexists _, (map (detachEvent svc role (Ok tt)) qs), [], [], [].
    rewrite !app_nil_r. simpl. repeat split; auto. every_event.
  - eexists _, (map (detachEvent svc role (Ok tt)) qs),
      [EvListRolePolicies svc (roleInput role) (Err cause)], [], [].
    simpl. repeat split; auto; try discriminate; try every_event.
  - eexists _, (map (detachEvent svc role (Ok tt)) qs),
      [EvListRolePolicies svc (roleInput role) (Ok {| PolicyNames := pre ++ n :: rest |})],
      (map (deleteEvent svc role (Ok tt)) pre ++ [deleteEvent svc role (Err cause) n]), [].
    rewrite !app_nil_r. simpl. repeat split; auto; try discriminate; try every_event.
  - eexists _, (map (detachEvent svc role (Ok tt)) qs),
      [EvListRolePolicies svc (roleInput role) (Ok {| PolicyNames := names |})],
      (map (deleteEvent svc role (Ok tt)) names),
      [EvDeleteRole svc (roleInput role) (Err cause)].
    unfold cleanupTrace. simpl. rewrite <- !app_assoc. simpl.
    repeat split; auto; try discriminate; try every_event.
  - eexists _, (map (detachEvent svc role (Ok tt)) qs),
      [EvListRolePolicies svc (roleInput role) (Ok {| PolicyNames := names |})],
      (map (deleteEvent svc role (Ok tt)) names),
      [EvDeleteRole svc (roleInput role) (Ok tt)].
    unfold cleanupTrace. simpl. rewrite <- !app_assoc. simpl.
    repeat split; auto; try discriminate; try every_event.
  - eexists _, (map (detachEvent svc role (Ok tt)) qs),
      [EvListRolePolicies svc (roleInput role) (Ok {| PolicyNames := names |})],
      (map (deleteEvent svc role (Ok tt)) names), [].
    unfold cleanupTrace. rewrite !app_nil_r. simpl.
    repeat split; auto; try discriminate; try every_event.
Qed.
